(** * gql2j: a shallow embedding of the type-mapping and code-synthesis core

    The Go packages [parser], [typemap], [annotations] and [generator] of
    go-gql2j are embedded as Rocq functions, one module per package, and
    the properties of the specification are stated over them.

    Conventions of the embedding:
    - a Go [string] is a Rocq [string]; schema names are GraphQL names and
      Java identifiers, so text is ASCII.  [unicode.ToUpper], [unicode.ToLower]
      and [strings.TrimSpace] are embedded on the ASCII range and leave every
      other byte as it is;
    - a Go [map[string]V] is a [gmap string V]; ranging over a map visits the
      entries in the order of [map_to_list] (Go leaves the order open);
    - a pointer that may be [nil] is an [option];
    - a function returning [(T, error)] returns [result T]. *)

From Stdlib Require Import String Ascii List ZArith Lia Bool.
From stdpp Require Import base option list gmap strings sorting pretty.

Local Open Scope stdpp_scope.

(** ** The Go [strings] and [unicode] functions the program calls *)

Module strings.

Definition is_upper (c : ascii) : bool :=
  let n := nat_of_ascii c in (65 <=? n)%nat && (n <=? 90)%nat.

Definition is_lower (c : ascii) : bool :=
  let n := nat_of_ascii c in (97 <=? n)%nat && (n <=? 122)%nat.

Definition is_digit (c : ascii) : bool :=
  let n := nat_of_ascii c in (48 <=? n)%nat && (n <=? 57)%nat.

(** [unicode.ToLower] and [unicode.ToUpper] on the ASCII range: the letters
    A-Z and a-z are mapped, every other byte is left as it is.  Go maps the
    letters of every script, so these definitions agree with the code on
    ASCII text only. *)
Definition unicode_ToLower (c : ascii) : ascii :=
  if is_upper c then ascii_of_nat (nat_of_ascii c + 32) else c.

Definition unicode_ToUpper (c : ascii) : ascii :=
  if is_lower c then ascii_of_nat (nat_of_ascii c - 32) else c.

(** [unicode.IsSpace] on the ASCII range: tab, newline, vertical tab,
    form feed, carriage return and space *)
Definition unicode_IsSpace (c : ascii) : bool :=
  let n := nat_of_ascii c in ((9 <=? n)%nat && (n <=? 13)%nat) || (n =? 32)%nat.

Fixpoint ToLower (s : string) : string :=
  match s with
  | EmptyString => EmptyString
  | String c r => String (unicode_ToLower c) (ToLower r)
  end.

(** [strings.HasPrefix s p] *)
Definition HasPrefix (s p : string) : bool := String.prefix p s.

(** [strings.Contains s sep] for a separator of one byte *)
Fixpoint Contains (s : string) (sep : ascii) : bool :=
  match s with
  | EmptyString => false
  | String c r => Ascii.eqb c sep || Contains r sep
  end.

(** [strings.Split s sep] for a separator of one byte: the pieces between
    the separators, [[""]] for the empty string *)
Fixpoint Split (s : string) (sep : ascii) : list string :=
  match s with
  | EmptyString => [EmptyString]
  | String c r =>
      if Ascii.eqb c sep then EmptyString :: Split r sep
      else match Split r sep with
           | p :: ps => String c p :: ps
           | [] => [String c EmptyString]
           end
  end.

(** [strings.Join elems sep] *)
Fixpoint Join (elems : list string) (sep : string) : string :=
  match elems with
  | [] => EmptyString
  | [e] => e
  | e :: es => e +:+ sep +:+ Join es sep
  end.

Fixpoint TrimLeft (s : string) : string :=
  match s with
  | EmptyString => EmptyString
  | String c r => if unicode_IsSpace c then TrimLeft r else s
  end.

Fixpoint TrimRight (s : string) : string :=
  match s with
  | EmptyString => EmptyString
  | String c r =>
      match TrimRight r with
      | EmptyString => if unicode_IsSpace c then EmptyString else String c EmptyString
      | r' => String c r'
      end
  end.

(** [strings.TrimSpace] *)
Definition TrimSpace (s : string) : string := TrimRight (TrimLeft s).

(** the slice expressions [s[n:]] and [s[:n]] *)
Fixpoint drop (n : nat) (s : string) : string :=
  match n, s with
  | O, _ => s
  | S n', String _ r => drop n' r
  | S _, EmptyString => EmptyString
  end.

Fixpoint take (n : nat) (s : string) : string :=
  match n, s with
  | O, _ => EmptyString
  | S n', String c r => String c (take n' r)
  | S _, EmptyString => EmptyString
  end.

(** [strings.LastIndex s sep] for a separator of one byte; [None] is Go's -1 *)
Fixpoint LastIndex (s : string) (sep : ascii) : option nat :=
  match s with
  | EmptyString => None
  | String c r =>
      match LastIndex r sep with
      | Some i => Some (S i)
      | None => if Ascii.eqb c sep then Some O else None
      end
  end.

(** [strings.SplitN s sep n] for a separator of one byte and [n > 0]: at
    most [n] pieces, the last one being the unsplit rest *)
Fixpoint SplitN (s : string) (sep : ascii) (n : nat) {struct n} : list string :=
  match n with
  | O => []
  | S O => [s]
  | S n' =>
      (fix go (t : string) : list string :=
         match t with
         | EmptyString => [EmptyString]
         | String c r =>
             if Ascii.eqb c sep then EmptyString :: SplitN r sep n'
             else match go r with
                  | p :: ps => String c p :: ps
                  | [] => [String c EmptyString]
                  end
         end) s
  end.

(** [strings.ReplaceAll s old new] for [old] of one byte *)
Fixpoint ReplaceAll (s : string) (old : ascii) (new : string) : string :=
  match s with
  | EmptyString => EmptyString
  | String c r =>
      if Ascii.eqb c old then new +:+ ReplaceAll r old new
      else String c (ReplaceAll r old new)
  end.

End strings.

(** Characters that a string literal cannot hold *)
Definition nl : string := String (ascii_of_nat 10) EmptyString.
Definition quote : string := String (ascii_of_nat 34) EmptyString.
Definition backslash : string := String (ascii_of_nat 92) EmptyString.

(** Errors: the error values of package [errors], by kind, with the wrapped
    cause and the names attached by [WithSourceType], [WithTypeName] and
    [WithFieldName]; [ErrorCollection] gathers the errors of a run. *)
#[local] Set Warnings "-register-all".

Inductive error : Type :=
| TypeMappingError (msg : string) (cause : option error) (sourceType : string)
| GenerateError (msg : string) (cause : option error) (typeName fieldName : string)
| ErrorCollection (errors : list error).

Inductive result (A : Type) : Type :=
| Ok (a : A)
| Err (e : error).
Arguments Ok {A} a.
Arguments Err {A} e.

(** [ErrorCollection.ToError] *)
Definition ToError (errors : list error) : option error :=
  match errors with
  | [] => None
  | [e] => Some e
  | _ => Some (ErrorCollection errors)
  end.

Definition bind {A B : Type} (r : result A) (k : A -> result B) : result B :=
  match r with
  | Ok a => k a
  | Err e => Err e
  end.

(** ** Package [parser]: the schema model and the directive extractors *)

Module parser.

(** A directive argument: the [interface{}] values that [valueToInterface]
    builds from the literals of the schema.  A float is kept by its
    integral part, which is all that [GetArgumentInt] reads of it. *)
Inductive Value : Type :=
| VNil
| VString (s : string)
| VInt (n : Z)
| VFloat (truncated : Z)
| VBool (b : bool)
| VList (items : list Value)
| VObject (entries : list (string * Value)).

Record DirectiveDef : Type := mkDirectiveDef {
  Directive_Name : string;
  Directive_Arguments : gmap string Value
}.

(** the kinds the parser assigns; the [default] branch of a switch over
    a kind is never taken *)
Inductive TypeKind : Type :=
| TypeKindObject
| TypeKindInterface
| TypeKindInputObject
| TypeKindEnum
| TypeKindUnion
| TypeKindScalar.

(** [TypeRef]: [Name] for a named type, [Elem] for a list, [NonNull] for
    the level at hand *)
Inductive TypeRef : Type :=
  mkTypeRef (Name : string) (Elem : option TypeRef) (NonNull : bool).

Definition TypeRef_Name (t : TypeRef) : string :=
  match t with mkTypeRef n _ _ => n end.
Definition TypeRef_Elem (t : TypeRef) : option TypeRef :=
  match t with mkTypeRef _ e _ => e end.
Definition TypeRef_NonNull (t : TypeRef) : bool :=
  match t with mkTypeRef _ _ b => b end.

Definition IsNamed (t : TypeRef) : bool :=
  match TypeRef_Elem t with None => true | Some _ => false end.

Definition IsList (t : TypeRef) : bool :=
  match TypeRef_Elem t with None => false | Some _ => true end.

Fixpoint NamedType (t : TypeRef) : string :=
  match t with
  | mkTypeRef _ (Some e) _ => NamedType e
  | mkTypeRef n None _ => n
  end.

Record FieldDef : Type := mkFieldDef {
  Field_Name : string;
  Field_Description : string;
  Field_Type : option TypeRef;
  Field_Directives : list DirectiveDef
}.

Record EnumValueDef : Type := mkEnumValueDef {
  EnumValue_Name : string;
  EnumValue_Description : string;
  EnumValue_Directives : list DirectiveDef
}.

Record TypeDef : Type := mkTypeDef {
  Name : string;
  Kind : TypeKind;
  Description : string;
  Fields : list FieldDef;
  EnumValues : list EnumValueDef;
  Interfaces : list string;
  Directives : list DirectiveDef
}.

Record Schema : Type := mkSchema {
  Types : gmap string TypeDef
}.

Definition GetType (s : Schema) (name : string) : option TypeDef :=
  Types s !! name.

(** Supported directive names *)
Definition DirectiveSkip : string := "skip".
Definition DirectiveJavaName : string := "javaName".
Definition DirectiveJavaType : string := "javaType".
Definition DirectiveDeprecated : string := "deprecated".
Definition DirectiveAnnotation : string := "annotation".
Definition DirectiveConstraint : string := "constraint".
Definition DirectiveLombok : string := "lombok".
Definition DirectiveCollection : string := "collection".

Definition GetArgumentString (d : DirectiveDef) (name : string) : string :=
  match Directive_Arguments d !! name with
  | Some (VString s) => s
  | _ => ""
  end.

Definition GetArgumentInt (d : DirectiveDef) (name : string) : option Z :=
  match Directive_Arguments d !! name with
  | Some (VInt n) => Some n
  | Some (VFloat n) => Some n
  | _ => None
  end.

Definition GetArgumentBool (d : DirectiveDef) (name : string) : option bool :=
  match Directive_Arguments d !! name with
  | Some (VBool b) => Some b
  | _ => None
  end.

Definition GetArgumentStringSlice (d : DirectiveDef) (name : string) : list string :=
  match Directive_Arguments d !! name with
  | Some (VList arr) =>
      omap (fun item => match item with VString s => Some s | _ => None end) arr
  | _ => []
  end.

(** the first directive of the list that [f] accepts *)
Fixpoint first_match {A : Type} (f : DirectiveDef -> option A)
    (directives : list DirectiveDef) : option A :=
  match directives with
  | [] => None
  | d :: ds => match f d with Some a => Some a | None => first_match f ds end
  end.

Record SkipDirectiveInfo : Type := { Applied : bool }.

Definition ExtractSkipDirective (directives : list DirectiveDef)
    : option SkipDirectiveInfo :=
  first_match (fun d =>
    if String.eqb (Directive_Name d) DirectiveSkip
    then Some {| Applied := true |} else None) directives.

Record JavaNameDirectiveInfo : Type := { JavaName_Name : string }.

Definition ExtractJavaNameDirective (directives : list DirectiveDef)
    : option JavaNameDirectiveInfo :=
  first_match (fun d =>
    if String.eqb (Directive_Name d) DirectiveJavaName then
      let name := GetArgumentString d "name" in
      if String.eqb name "" then None else Some {| JavaName_Name := name |}
    else None) directives.

Record JavaTypeDirectiveInfo : Type := {
  JavaType_Type : string;
  JavaType_Imports : list string
}.

Definition ExtractJavaTypeDirective (directives : list DirectiveDef)
    : option JavaTypeDirectiveInfo :=
  first_match (fun d =>
    if String.eqb (Directive_Name d) DirectiveJavaType then
      let typeStr := GetArgumentString d "type" in
      if String.eqb typeStr "" then None
      else Some {| JavaType_Type := typeStr;
                   JavaType_Imports := GetArgumentStringSlice d "imports" |}
    else None) directives.

Record DeprecatedDirectiveInfo : Type := { Reason : string }.

Definition ExtractDeprecatedDirective (directives : list DirectiveDef)
    : option DeprecatedDirectiveInfo :=
  first_match (fun d =>
    if String.eqb (Directive_Name d) DirectiveDeprecated
    then Some {| Reason := GetArgumentString d "reason" |} else None) directives.

Record AnnotationDirectiveInfo : Type := {
  Annotation_Value : string;
  Annotation_Imports : list string
}.

Definition ExtractAnnotationDirectives (directives : list DirectiveDef)
    : list AnnotationDirectiveInfo :=
  omap (fun d =>
    if String.eqb (Directive_Name d) DirectiveAnnotation then
      let value := GetArgumentString d "value" in
      if String.eqb value "" then None
      else Some {| Annotation_Value := value;
                   Annotation_Imports := GetArgumentStringSlice d "imports" |}
    else None) directives.

Record ConstraintDirectiveInfo : Type := {
  MinLength : option Z;
  MaxLength : option Z;
  Min : option Z;
  Max : option Z;
  Pattern : string;
  NotNull : bool;
  NotBlank : bool;
  Email : bool
}.

Definition ExtractConstraintDirective (directives : list DirectiveDef)
    : option ConstraintDirectiveInfo :=
  first_match (fun d =>
    if String.eqb (Directive_Name d) DirectiveConstraint then
      Some {| MinLength := GetArgumentInt d "minLength";
              MaxLength := GetArgumentInt d "maxLength";
              Min := GetArgumentInt d "min";
              Max := GetArgumentInt d "max";
              Pattern := GetArgumentString d "pattern";
              NotNull := default false (GetArgumentBool d "notNull");
              NotBlank := default false (GetArgumentBool d "notBlank");
              Email := default false (GetArgumentBool d "email") |}
    else None) directives.

Record LombokDirectiveInfo : Type := {
  Exclude : list string;
  Include : list string
}.

Definition ExtractLombokDirective (directives : list DirectiveDef)
    : option LombokDirectiveInfo :=
  first_match (fun d =>
    if String.eqb (Directive_Name d) DirectiveLombok
    then Some {| Exclude := GetArgumentStringSlice d "exclude";
                 Include := GetArgumentStringSlice d "include" |}
    else None) directives.

Record CollectionDirectiveInfo : Type := { Collection_Type : string }.

Definition ExtractCollectionDirective (directives : list DirectiveDef)
    : option CollectionDirectiveInfo :=
  first_match (fun d =>
    if String.eqb (Directive_Name d) DirectiveCollection then
      let typeStr := GetArgumentString d "type" in
      if String.eqb typeStr "" then None
      else Some {| Collection_Type := typeStr |}
    else None) directives.

(** [HasDirective] and [GetDirective]: the methods of a type, a field and an
    enum value run the same loop over the directives of the element *)
Definition HasDirective (directives : list DirectiveDef) (name : string) : bool :=
  existsb (fun d => String.eqb (Directive_Name d) name) directives.

Definition GetDirective (directives : list DirectiveDef) (name : string)
    : option DirectiveDef :=
  find (fun d => String.eqb (Directive_Name d) name) directives.

Definition TypeDef_HasDirective (t : TypeDef) (name : string) : bool :=
  HasDirective (Directives t) name.

Definition FieldDef_HasDirective (f : FieldDef) (name : string) : bool :=
  HasDirective (Field_Directives f) name.

Definition EnumValueDef_HasDirective (e : EnumValueDef) (name : string) : bool :=
  HasDirective (EnumValue_Directives e) name.

End parser.

(** ** Package [config] *)

Module config.

Record OutputConfig : Type := mkOutputConfig {
  Directory : string;
  Package : string
}.

Record NamingConfig : Type := mkNamingConfig {
  FieldCase : string;
  ClassSuffix : string;
  InterfacePrefix : string
}.

Record JavaConfig : Type := mkJavaConfig {
  Version : Z;
  FieldVisibility : string;
  CollectionType : string;
  NullableHandling : string;
  Naming : NamingConfig
}.

Record ScalarMapping : Type := mkScalarMapping {
  ScalarMapping_JavaType : string;
  ScalarMapping_Imports : list string
}.

Record TypeMappingsConfig : Type := mkTypeMappingsConfig {
  Scalars : gmap string ScalarMapping
}.

Record LombokConfig : Type := mkLombokConfig {
  Lombok_Enabled : bool;
  Data : bool;
  Builder : bool;
  NoArgsConstructor : bool;
  AllArgsConstructor : bool;
  Getter : bool;
  Setter : bool
}.

Record ValidationConfig : Type := mkValidationConfig {
  Validation_Enabled : bool;
  Validation_Package : string;
  NotNullOnNonNull : bool
}.

Record FeaturesConfig : Type := mkFeaturesConfig {
  Lombok : LombokConfig;
  Validation : ValidationConfig
}.

Record Config : Type := mkConfig {
  Output : OutputConfig;
  Java : JavaConfig;
  TypeMappings : TypeMappingsConfig;
  Features : FeaturesConfig
}.

Definition VisibilityPrivate : string := "private".
Definition VisibilityProtected : string := "protected".
Definition VisibilityPackage : string := "package".
Definition VisibilityPublic : string := "public".

Definition CollectionList : string := "List".

Definition NullableWrapper : string := "wrapper".
Definition NullableOptional : string := "optional".
Definition NullableAnnotation : string := "annotation".

Definition FieldCaseCamel : string := "camelCase".
Definition FieldCaseSnake : string := "snake_case".

Definition ValidationJakarta : string := "jakarta".
Definition ValidationJavax : string := "javax".

Definition DefaultConfig : Config :=
  {| Output := {| Directory := "./generated"; Package := "com.example.model" |};
     Java := {| Version := 17;
                FieldVisibility := VisibilityPrivate;
                CollectionType := CollectionList;
                NullableHandling := NullableWrapper;
                Naming := {| FieldCase := FieldCaseCamel;
                             ClassSuffix := "";
                             InterfacePrefix := "" |} |};
     TypeMappings := {| Scalars := ∅ |};
     Features :=
       {| Lombok := {| Lombok_Enabled := false;
                       Data := true;
                       Builder := false;
                       NoArgsConstructor := true;
                       AllArgsConstructor := false;
                       Getter := false;
                       Setter := false |};
          Validation := {| Validation_Enabled := false;
                           Validation_Package := ValidationJakarta;
                           NotNullOnNonNull := true |} |} |}.

End config.

(** ** Package [config]: validation of a configuration *)

Module validate.

(** [errors.ConfigError]: the message and the field set by [WithField] *)
Record ConfigError : Type := mkConfigError {
  Message : string;
  Field : string
}.

(** what [ErrorCollection.ToError] returns for the errors of a validation:
    the single error, or the collection of two errors or more *)
Inductive Failure : Type :=
| Single (err : ConfigError)
| Collection (errs : list ConfigError).

Definition ToError (errs : list ConfigError) : option Failure :=
  match errs with
  | [] => None
  | [err] => Some (Single err)
  | _ => Some (Collection errs)
  end.

Definition CollectionSet : string := "Set".
Definition CollectionCollection : string := "Collection".

Definition SupportedJavaVersions : list Z := [8; 11; 17; 21]%Z.

Definition isValidJavaVersion (version : Z) : bool :=
  existsb (fun v => Z.eqb v version) SupportedJavaVersions.

Definition isValidVisibility (v : string) : bool :=
  String.eqb v config.VisibilityPrivate || String.eqb v config.VisibilityProtected
  || String.eqb v config.VisibilityPackage || String.eqb v config.VisibilityPublic.

Definition isValidCollectionType (ct : string) : bool :=
  String.eqb ct config.CollectionList || String.eqb ct CollectionSet
  || String.eqb ct CollectionCollection.

Definition isValidNullableHandling (nh : string) : bool :=
  String.eqb nh config.NullableWrapper || String.eqb nh config.NullableOptional
  || String.eqb nh config.NullableAnnotation.

Definition isValidValidationPackage (pkg : string) : bool :=
  String.eqb pkg config.ValidationJakarta || String.eqb pkg config.ValidationJavax.

Definition isJavaIdentifierStart (r : ascii) : bool :=
  strings.is_lower r || strings.is_upper r || Ascii.eqb r "_" || Ascii.eqb r "$".

Definition isJavaIdentifierPart (r : ascii) : bool :=
  isJavaIdentifierStart r || strings.is_digit r.

(** the loop of [isValidJavaPackage]; [i] is the index of the byte at hand.
    Every rune outside ASCII is rejected, as its first byte is here. *)
Fixpoint isValidJavaPackage_loop (i : nat) (pkg : string) : bool :=
  match pkg with
  | EmptyString => true
  | String r rest =>
      if Ascii.eqb r "." then isValidJavaPackage_loop (S i) rest
      else if (i =? 0)%nat && negb (isJavaIdentifierStart r) then false
      else if negb (isJavaIdentifierPart r) then false
      else isValidJavaPackage_loop (S i) rest
  end.

Definition isValidJavaPackage (pkg : string) : bool :=
  if String.eqb pkg "" then false else isValidJavaPackage_loop 0 pkg.

(** [errs.Add] of the error of a check that fails *)
Definition check (ok : bool) (err : ConfigError) (errs : list ConfigError)
    : list ConfigError :=
  if ok then errs else errs ++ [err].

(** the errors that [Validate] collects, in the order of its checks *)
Definition Validate_errors (c : config.Config) : list ConfigError :=
  let java := config.Java c in
  let validation := config.Validation (config.Features c) in
  let errs := [] in
  let errs :=
    check (isValidJavaVersion (config.Version java))
      (mkConfigError
         ("unsupported Java version: " +:+ pretty (config.Version java)
          +:+ " (supported: 8, 11, 17, 21)") "java.version") errs in
  let errs :=
    check (isValidVisibility (config.FieldVisibility java))
      (mkConfigError
         ("invalid field visibility: " +:+ config.FieldVisibility java
          +:+ " (valid: private, protected, package, public)")
         "java.fieldVisibility") errs in
  let errs :=
    check (isValidCollectionType (config.CollectionType java))
      (mkConfigError
         ("invalid collection type: " +:+ config.CollectionType java
          +:+ " (valid: List, Set, Collection)") "java.collectionType") errs in
  let errs :=
    check (isValidNullableHandling (config.NullableHandling java))
      (mkConfigError
         ("invalid nullable handling: " +:+ config.NullableHandling java
          +:+ " (valid: wrapper, optional, annotation)")
         "java.nullableHandling") errs in
  let errs :=
    check (negb (config.Validation_Enabled validation
                 && negb (isValidValidationPackage
                            (config.Validation_Package validation))))
      (mkConfigError
         ("invalid validation package: " +:+ config.Validation_Package validation
          +:+ " (valid: jakarta, javax)") "features.validation.package") errs in
  let errs :=
    check (negb (negb (String.eqb (config.Package (config.Output c)) "")
                 && negb (isValidJavaPackage (config.Package (config.Output c)))))
      (mkConfigError
         ("invalid Java package name: " +:+ config.Package (config.Output c))
         "output.package") errs in
  errs.

Definition Validate (c : config.Config) : option Failure :=
  ToError (Validate_errors c).

End validate.

(** ** Package [typemap]: the scalar tables and the type mapper *)

Module typemap.

Record ScalarInfo : Type := mkScalarInfo {
  JavaType : string;
  PrimitiveType : string;
  Imports : list string
}.

Definition BuiltinScalars : gmap string ScalarInfo :=
  list_to_map
    [ ("String", mkScalarInfo "String" "" []);
      ("Int", mkScalarInfo "Integer" "int" []);
      ("Float", mkScalarInfo "Double" "double" []);
      ("Boolean", mkScalarInfo "Boolean" "boolean" []);
      ("ID", mkScalarInfo "String" "" []) ].

Definition CommonScalars : gmap string ScalarInfo :=
  list_to_map
    [ ("DateTime", mkScalarInfo "LocalDateTime" "" ["java.time.LocalDateTime"]);
      ("Date", mkScalarInfo "LocalDate" "" ["java.time.LocalDate"]);
      ("Time", mkScalarInfo "LocalTime" "" ["java.time.LocalTime"]);
      ("Instant", mkScalarInfo "Instant" "" ["java.time.Instant"]);
      ("UUID", mkScalarInfo "UUID" "" ["java.util.UUID"]);
      ("BigDecimal", mkScalarInfo "BigDecimal" "" ["java.math.BigDecimal"]);
      ("BigInteger", mkScalarInfo "BigInteger" "" ["java.math.BigInteger"]);
      ("Long", mkScalarInfo "Long" "long" []);
      ("Short", mkScalarInfo "Short" "short" []);
      ("Byte", mkScalarInfo "Byte" "byte" []);
      ("Char", mkScalarInfo "Character" "char" []);
      ("JSON", mkScalarInfo "JsonNode" "" ["com.fasterxml.jackson.databind.JsonNode"]);
      ("JSONObject", mkScalarInfo "ObjectNode" ""
         ["com.fasterxml.jackson.databind.node.ObjectNode"]);
      ("JSONArray", mkScalarInfo "ArrayNode" ""
         ["com.fasterxml.jackson.databind.node.ArrayNode"]);
      ("URL", mkScalarInfo "URL" "" ["java.net.URL"]);
      ("URI", mkScalarInfo "URI" "" ["java.net.URI"]) ].

Definition PrimitiveToBoxed : gmap string string :=
  list_to_map
    [ ("int", "Integer"); ("long", "Long"); ("short", "Short"); ("byte", "Byte");
      ("float", "Float"); ("double", "Double"); ("boolean", "Boolean");
      ("char", "Character") ].

Definition BoxedToPrimitive : gmap string string :=
  list_to_map
    [ ("Integer", "int"); ("Long", "long"); ("Short", "short"); ("Byte", "byte");
      ("Float", "float"); ("Double", "double"); ("Boolean", "boolean");
      ("Character", "char") ].

Definition IsPrimitive (javaType : string) : bool :=
  match PrimitiveToBoxed !! javaType with Some _ => true | None => false end.

Definition IsBoxed (javaType : string) : bool :=
  match BoxedToPrimitive !! javaType with Some _ => true | None => false end.

Definition BoxType (javaType : string) : string :=
  match PrimitiveToBoxed !! javaType with
  | Some boxed => boxed
  | None => javaType
  end.

Definition UnboxType (javaType : string) : string :=
  match BoxedToPrimitive !! javaType with
  | Some primitive => primitive
  | None => javaType
  end.

Record CollectionInfo : Type := mkCollectionInfo {
  Interface : string;
  Implementation : string;
  Collection_Imports : list string
}.

Definition CollectionTypes : gmap string CollectionInfo :=
  list_to_map
    [ ("List", mkCollectionInfo "List" "ArrayList" ["java.util.List"; "java.util.ArrayList"]);
      ("Set", mkCollectionInfo "Set" "HashSet" ["java.util.Set"; "java.util.HashSet"]);
      ("Collection", mkCollectionInfo "Collection" "ArrayList"
         ["java.util.Collection"; "java.util.ArrayList"]);
      ("SortedSet", mkCollectionInfo "SortedSet" "TreeSet"
         ["java.util.SortedSet"; "java.util.TreeSet"]);
      ("LinkedList", mkCollectionInfo "List" "LinkedList"
         ["java.util.List"; "java.util.LinkedList"]) ].

Definition GetCollectionInfo (collectionType : string) : CollectionInfo :=
  match CollectionTypes !! collectionType with
  | Some info => info
  | None => mkCollectionInfo "List" "ArrayList" ["java.util.List"; "java.util.ArrayList"]
  end.

Definition FormatCollectionType (collectionType elementType : string) : string :=
  Interface (GetCollectionInfo collectionType) +:+ "<" +:+ elementType +:+ ">".

Record OptionalInfo : Type := mkOptionalInfo {
  Optional_Type : string;
  Optional_Imports : list string
}.

Definition GetOptionalInfo : OptionalInfo :=
  mkOptionalInfo "Optional" ["java.util.Optional"].

Definition FormatOptionalType (elementType : string) : string :=
  "Optional<" +:+ BoxType elementType +:+ ">".

Record TypeMapper : Type := mkTypeMapper {
  tm_config : config.Config;
  customScalars : gmap string ScalarInfo;
  builtinScalars : gmap string ScalarInfo;
  schemaTypes : gmap string parser.TypeDef
}.

(** [NewTypeMapper]: the configured scalar mappings carry a Java type and
    imports, never a primitive form *)
Definition NewTypeMapper (cfg : config.Config) : TypeMapper :=
  {| tm_config := cfg;
     customScalars :=
       (fun m => mkScalarInfo (config.ScalarMapping_JavaType m) ""
                              (config.ScalarMapping_Imports m))
         <$> config.Scalars (config.TypeMappings cfg);
     builtinScalars := BuiltinScalars;
     schemaTypes := ∅ |}.

Definition SetSchemaTypes (tm : TypeMapper) (types : gmap string parser.TypeDef)
    : TypeMapper :=
  {| tm_config := tm_config tm;
     customScalars := customScalars tm;
     builtinScalars := builtinScalars tm;
     schemaTypes := types |}.

Record MapResult : Type := mkMapResult {
  MapResult_JavaType : string;
  MapResult_Imports : list string;
  MapResult_IsPrimitive : bool;
  IsCollection : bool;
  IsOptional : bool;
  ElementType : string
}.

Definition getJavaTypeName (tm : TypeMapper) (typeDef : parser.TypeDef) : string :=
  match parser.ExtractJavaNameDirective (parser.Directives typeDef) with
  | Some javaName => parser.JavaName_Name javaName
  | None =>
      let name := parser.Name typeDef in
      let naming := config.Naming (config.Java (tm_config tm)) in
      match parser.Kind typeDef with
      | parser.TypeKindInterface =>
          if String.eqb (config.InterfacePrefix naming) "" then name
          else config.InterfacePrefix naming +:+ name
      | parser.TypeKindObject | parser.TypeKindInputObject =>
          if String.eqb (config.ClassSuffix naming) "" then name
          else name +:+ config.ClassSuffix naming
      | _ => name
      end
  end.

Definition mapNamedType (tm : TypeMapper) (name : string) : result MapResult :=
  match customScalars tm !! name with
  | Some scalar =>
      Ok (mkMapResult (JavaType scalar) (Imports scalar)
            (negb (String.eqb (PrimitiveType scalar) "")) false false "")
  | None =>
  match builtinScalars tm !! name with
  | Some scalar =>
      Ok (mkMapResult (JavaType scalar) (Imports scalar) false false false "")
  | None =>
  match CommonScalars !! name with
  | Some scalar =>
      Ok (mkMapResult (JavaType scalar) (Imports scalar) false false false "")
  | None =>
  match schemaTypes tm !! name with
  | Some typeDef =>
      Ok (mkMapResult (getJavaTypeName tm typeDef) [] false false false "")
  | None =>
      Ok (mkMapResult name [] false false false "")
  end end end end.

Definition applyNullability (tm : TypeMapper) (result : MapResult) : MapResult :=
  let policy := config.NullableHandling (config.Java (tm_config tm)) in
  if String.eqb policy config.NullableOptional then
    let javaType :=
      if MapResult_IsPrimitive result then BoxType (MapResult_JavaType result)
      else MapResult_JavaType result in
    mkMapResult (FormatOptionalType javaType)
      (MapResult_Imports result ++ Optional_Imports GetOptionalInfo)
      false (IsCollection result) true (ElementType result)
  else if String.eqb policy config.NullableAnnotation then
    if MapResult_IsPrimitive result then
      mkMapResult (BoxType (MapResult_JavaType result)) (MapResult_Imports result)
        false (IsCollection result) (IsOptional result) (ElementType result)
    else result
  else
    if MapResult_IsPrimitive result then
      mkMapResult (BoxType (MapResult_JavaType result)) (MapResult_Imports result)
        false (IsCollection result) (IsOptional result) (ElementType result)
    else result.

Fixpoint mapTypeInternal (tm : TypeMapper) (typeRef : parser.TypeRef) (topLevel : bool)
    : result MapResult :=
  match typeRef with
  | parser.mkTypeRef _ (Some elem) _ =>
      match mapTypeInternal tm elem false with
      | Err err =>
          Err (TypeMappingError "failed to map list element type" (Some err)
                 (parser.TypeRef_Name elem))
      | Ok elemResult =>
          let elemType :=
            if MapResult_IsPrimitive elemResult
            then BoxType (MapResult_JavaType elemResult)
            else MapResult_JavaType elemResult in
          let collectionType := config.CollectionType (config.Java (tm_config tm)) in
          let collectionInfo := GetCollectionInfo collectionType in
          Ok (mkMapResult (FormatCollectionType collectionType elemType)
                (Collection_Imports collectionInfo ++ MapResult_Imports elemResult)
                false true false elemType)
      end
  | parser.mkTypeRef namedType None nonNull =>
      match mapNamedType tm namedType with
      | Err err =>
          Err (TypeMappingError "failed to map named type" (Some err) namedType)
      | Ok result =>
          let result :=
            if topLevel && negb nonNull then applyNullability tm result else result in
          let result :=
            if topLevel && nonNull then
              match builtinScalars tm !! namedType with
              | Some scalar =>
                  if String.eqb (PrimitiveType scalar) "" then result
                  else mkMapResult (PrimitiveType scalar) (MapResult_Imports result)
                         true (IsCollection result) (IsOptional result)
                         (ElementType result)
              | None => result
              end
            else result in
          Ok result
      end
  end.

Definition MapType (tm : TypeMapper) (typeRef : option parser.TypeRef)
    : result MapResult :=
  match typeRef with
  | None => Ok (mkMapResult "Object" [] false false false "")
  | Some t => mapTypeInternal tm t true
  end.

Definition getElementImports (tm : TypeMapper) (elementType : string) : list string :=
  match customScalars tm !! elementType with
  | Some scalar => Imports scalar
  | None =>
      match CommonScalars !! elementType with
      | Some scalar => Imports scalar
      | None => []
      end
  end.

Definition MapFieldType (tm : TypeMapper) (field : parser.FieldDef)
    : result MapResult :=
  match parser.ExtractJavaTypeDirective (parser.Field_Directives field) with
  | Some javaType =>
      Ok (mkMapResult (parser.JavaType_Type javaType) (parser.JavaType_Imports javaType)
            false false false "")
  | None =>
      let collectionOverride :=
        parser.ExtractCollectionDirective (parser.Field_Directives field) in
      bind (MapType tm (parser.Field_Type field)) (fun result =>
        match collectionOverride with
        | Some override =>
            if IsCollection result then
              let collectionInfo := GetCollectionInfo (parser.Collection_Type override) in
              Ok (mkMapResult
                    (FormatCollectionType (parser.Collection_Type override)
                       (ElementType result))
                    (Collection_Imports collectionInfo
                       ++ getElementImports tm (ElementType result))
                    (MapResult_IsPrimitive result) (IsCollection result)
                    (IsOptional result) (ElementType result))
            else Ok result
        | None => Ok result
        end)
  end.

(** [ValidateMapping] on a reference that is not nil: [None] is Go's nil error *)
Fixpoint ValidateMapping_ref (tm : TypeMapper) (typeRef : parser.TypeRef)
    : option error :=
  match typeRef with
  | parser.mkTypeRef _ (Some elem) _ => ValidateMapping_ref tm elem
  | parser.mkTypeRef name None _ =>
      match builtinScalars tm !! name with
      | Some _ => None
      | None =>
      match customScalars tm !! name with
      | Some _ => None
      | None =>
      match CommonScalars !! name with
      | Some _ => None
      | None =>
      match schemaTypes tm !! name with
      | Some _ => None
      | None => Some (TypeMappingError "unknown type, will use as-is" None name)
      end end end end
  end.

Definition ValidateMapping (tm : TypeMapper) (typeRef : option parser.TypeRef)
    : option error :=
  match typeRef with
  | None => None
  | Some t => ValidateMapping_ref tm t
  end.

End typemap.

(** ** Package [annotations]: Lombok, validation and custom annotations *)

Module annotations.

Record LombokAnnotation : Type := mkLombokAnnotation {
  Lombok_Name : string;
  Lombok_Import : string
}.

Definition LombokAnnotations : gmap string LombokAnnotation :=
  list_to_map
    [ ("data", mkLombokAnnotation "@Data" "lombok.Data");
      ("builder", mkLombokAnnotation "@Builder" "lombok.Builder");
      ("noArgsConstructor",
         mkLombokAnnotation "@NoArgsConstructor" "lombok.NoArgsConstructor");
      ("allArgsConstructor",
         mkLombokAnnotation "@AllArgsConstructor" "lombok.AllArgsConstructor");
      ("getter", mkLombokAnnotation "@Getter" "lombok.Getter");
      ("setter", mkLombokAnnotation "@Setter" "lombok.Setter");
      ("toString", mkLombokAnnotation "@ToString" "lombok.ToString");
      ("equalsAndHashCode",
         mkLombokAnnotation "@EqualsAndHashCode" "lombok.EqualsAndHashCode");
      ("value", mkLombokAnnotation "@Value" "lombok.Value");
      ("superBuilder",
         mkLombokAnnotation "@SuperBuilder" "lombok.experimental.SuperBuilder") ].

(** the loop [for _, name := range names { enabled[name] = b }] *)
Definition set_all (names : list string) (b : bool) (enabled : gmap string bool)
    : gmap string bool :=
  fold_left (fun m name => <[name := b]> m) names enabled.

Definition getEnabledAnnotations (cfg : config.LombokConfig)
    (directive : option parser.LombokDirectiveInfo) : gmap string bool :=
  let enabled : gmap string bool :=
    list_to_map
      [ ("data", config.Data cfg);
        ("builder", config.Builder cfg);
        ("noArgsConstructor", config.NoArgsConstructor cfg);
        ("allArgsConstructor", config.AllArgsConstructor cfg);
        ("getter", config.Getter cfg);
        ("setter", config.Setter cfg) ] in
  match directive with
  | Some d => set_all (parser.Include d) true (set_all (parser.Exclude d) false enabled)
  | None => enabled
  end.

(** [LombokGenerator.GenerateTypeAnnotations]: annotations and imports *)
Definition Lombok_GenerateTypeAnnotations (cfg : config.LombokConfig)
    (typeDef : parser.TypeDef) : list string * list string :=
  if negb (config.Lombok_Enabled cfg) then ([], [])
  else
    let lombokDirective := parser.ExtractLombokDirective (parser.Directives typeDef) in
    let enabled := getEnabledAnnotations cfg lombokDirective in
    fold_left
      (fun (acc : list string * list string) (entry : string * bool) =>
         let '(name, include) := entry in
         if include then
           match LombokAnnotations !! name with
           | Some ann => (acc.1 ++ [Lombok_Name ann], acc.2 ++ [Lombok_Import ann])
           | None => acc
           end
         else acc)
      (map_to_list enabled) ([], []).

Definition NeedsGettersSetters (cfg : config.LombokConfig) : bool :=
  if negb (config.Lombok_Enabled cfg) then true
  else if config.Data cfg then false
  else negb (config.Getter cfg) || negb (config.Setter cfg).

Definition NeedsConstructors (cfg : config.LombokConfig) : bool :=
  if negb (config.Lombok_Enabled cfg) then true
  else negb (config.NoArgsConstructor cfg) && negb (config.AllArgsConstructor cfg).

Definition GetValidationPackage (cfg : config.ValidationConfig) : string :=
  if String.eqb (config.Validation_Package cfg) config.ValidationJakarta
  then "jakarta.validation.constraints"
  else if String.eqb (config.Validation_Package cfg) config.ValidationJavax
  then "javax.validation.constraints"
  else "jakarta.validation.constraints".

Definition is_some {A : Type} (o : option A) : bool :=
  match o with Some _ => true | None => false end.

Definition generateConstraintAnnotations (c : parser.ConstraintDirectiveInfo)
    (basePkg : string) : list string * list string :=
  let size :=
    if is_some (parser.MinLength c) || is_some (parser.MaxLength c) then
      let params :=
        match parser.MinLength c with
        | Some v => ["min = " +:+ pretty v] | None => [] end
        ++ match parser.MaxLength c with
           | Some v => ["max = " +:+ pretty v] | None => [] end in
      ([ "@Size(" +:+ strings.Join params ", " +:+ ")" ], [ basePkg +:+ ".Size" ])
    else ([], []) in
  let min :=
    match parser.Min c with
    | Some v => ([ "@Min(" +:+ pretty v +:+ ")" ], [ basePkg +:+ ".Min" ])
    | None => ([], [])
    end in
  let max :=
    match parser.Max c with
    | Some v => ([ "@Max(" +:+ pretty v +:+ ")" ], [ basePkg +:+ ".Max" ])
    | None => ([], [])
    end in
  let pattern :=
    if String.eqb (parser.Pattern c) "" then ([], [])
    else
      let escapedPattern :=
        strings.ReplaceAll (parser.Pattern c) (ascii_of_nat 34) (backslash +:+ quote) in
      ([ "@Pattern(regexp = " +:+ quote +:+ escapedPattern +:+ quote +:+ ")" ],
       [ basePkg +:+ ".Pattern" ]) in
  let notNull :=
    if parser.NotNull c then ([ "@NotNull" ], [ basePkg +:+ ".NotNull" ]) else ([], []) in
  let notBlank :=
    if parser.NotBlank c then ([ "@NotBlank" ], [ basePkg +:+ ".NotBlank" ])
    else ([], []) in
  let email :=
    if parser.Email c then ([ "@Email" ], [ basePkg +:+ ".Email" ]) else ([], []) in
  (size.1 ++ min.1 ++ max.1 ++ pattern.1 ++ notNull.1 ++ notBlank.1 ++ email.1,
   size.2 ++ min.2 ++ max.2 ++ pattern.2 ++ notNull.2 ++ notBlank.2 ++ email.2).

(** [ValidationGenerator.GenerateFieldAnnotations] *)
Definition Validation_GenerateFieldAnnotations (cfg : config.ValidationConfig)
    (field : parser.FieldDef) (nonNull : bool) : list string * list string :=
  if negb (config.Validation_Enabled cfg) then ([], [])
  else
    let basePkg := GetValidationPackage cfg in
    let notNull :=
      if nonNull && config.NotNullOnNonNull cfg
      then ([ "@NotNull" ], [ basePkg +:+ ".NotNull" ]) else ([], []) in
    let constraint :=
      match parser.ExtractConstraintDirective (parser.Field_Directives field) with
      | Some c => generateConstraintAnnotations c basePkg
      | None => ([], [])
      end in
    (notNull.1 ++ constraint.1, notNull.2 ++ constraint.2).

(** [ValidationGenerator.GenerateTypeAnnotations] *)
Definition Validation_GenerateTypeAnnotations (cfg : config.ValidationConfig)
    (typeDef : parser.TypeDef) : list string * list string := ([], []).

Definition extractAnnotations (directives : list parser.DirectiveDef)
    : list string * list string :=
  let annotationInfos := parser.ExtractAnnotationDirectives directives in
  (parser.Annotation_Value <$> annotationInfos,
   annotationInfos ≫= parser.Annotation_Imports).

Definition Custom_GenerateTypeAnnotations (typeDef : parser.TypeDef) :=
  extractAnnotations (parser.Directives typeDef).

Definition Custom_GenerateFieldAnnotations (field : parser.FieldDef) :=
  extractAnnotations (parser.Field_Directives field).

Definition Custom_GenerateEnumValueAnnotations (enumValue : parser.EnumValueDef) :=
  extractAnnotations (parser.EnumValue_Directives enumValue).

Definition GenerateDeprecatedAnnotation (directives : list parser.DirectiveDef)
    : string * string :=
  match parser.ExtractDeprecatedDirective directives with
  | None => ("", "")
  | Some _ => ("@Deprecated", "")
  end.

End annotations.

(** ** Package [generator] *)

Module generator.

(** *** Imports *)

(** [imports] only ever stores [true], so the map is the set of its keys *)
Record ImportManager : Type := mkImportManager {
  imports : gset string;
  package_ : string
}.

Definition NewImportManager (pkg : string) : ImportManager :=
  {| imports := ∅; package_ := pkg |}.

Definition isSamePackage (m : ImportManager) (imp : string) : bool :=
  if String.eqb (package_ m) "" then false
  else match strings.LastIndex imp "." with
       | None => false
       | Some lastDot => String.eqb (strings.take lastDot imp) (package_ m)
       end.

Definition Add (m : ImportManager) (imp : string) : ImportManager :=
  if String.eqb imp "" then m
  else if strings.HasPrefix imp "java.lang."
          && negb (strings.Contains (strings.drop 10 imp) ".") then m
  else if isSamePackage m imp then m
  else {| imports := {[ imp ]} ∪ imports m; package_ := package_ m |}.

Definition AddAll (m : ImportManager) (imps : list string) : ImportManager :=
  fold_left Add imps m.

Definition Has (m : ImportManager) (imp : string) : bool :=
  bool_decide (imp ∈ imports m).

(** [sort.Strings] sorts by the byte order of Go strings, [String.le] *)
Definition GetSorted (m : ImportManager) : list string :=
  merge_sort String.le (elements (imports m)).

Definition getImportPrefix (imp : string) : string :=
  match strings.SplitN imp "." 3 with
  | p0 :: p1 :: _ => p0 +:+ "." +:+ p1
  | p0 :: _ => p0
  | [] => ""
  end.

(** the loop of [GetGrouped]: the groups closed so far, the group being
    filled and the prefix of the last import seen *)
Fixpoint group_loop (sorted : list string) (groups : list (list string))
    (currentGroup : list string) (currentPrefix : string)
    : list (list string) * list string :=
  match sorted with
  | [] => (groups, currentGroup)
  | imp :: rest =>
      let prefix := getImportPrefix imp in
      let '(groups, currentGroup) :=
        if negb (String.eqb currentPrefix "") && negb (String.eqb prefix currentPrefix)
        then ((if (0 <? length currentGroup)%nat
               then groups ++ [currentGroup] else groups), [])
        else (groups, currentGroup) in
      group_loop rest groups (currentGroup ++ [imp]) prefix
  end.

Definition GetGrouped (m : ImportManager) : list (list string) :=
  let sorted := GetSorted m in
  match sorted with
  | [] => []
  | _ =>
      let '(groups, currentGroup) := group_loop sorted [] [] "" in
      if (0 <? length currentGroup)%nat then groups ++ [currentGroup] else groups
  end.

(** the body of the outer loop of [GenerateImportBlock] for group [i] *)
Definition write_group (n i : nat) (group : list string) : string :=
  fold_left (fun sb imp => sb +:+ "import " +:+ imp +:+ ";" +:+ nl) group ""
  +:+ (if (Z.of_nat i <? Z.of_nat n - 1)%Z then nl else "").

Definition GenerateImportBlock (m : ImportManager) : string :=
  let groups := GetGrouped m in
  match groups with
  | [] => ""
  | _ =>
      fold_left (fun sb ig => sb +:+ write_group (length groups) ig.1 ig.2)
        (imap (fun i g => (i, g)) groups) ""
  end.

(** *** Naming *)

Definition capitalizeFirst (s : string) : string :=
  match s with
  | EmptyString => s
  | String c r => String (strings.unicode_ToUpper c) r
  end.

Definition toCamelCase (s : string) : string :=
  if String.eqb s "" then s
  else if strings.Contains s "_" then
    let parts := strings.Split s "_" in
    fold_left
      (fun result part =>
         if String.eqb part "" then result
         else result +:+ capitalizeFirst (strings.ToLower part))
      (tail parts) (strings.ToLower (hd "" parts))
  else match s with
       | EmptyString => s
       | String c r => String (strings.unicode_ToLower c) r
       end.

(** [toSnakeCase]: [first] tells whether the byte at hand has index 0.
    [is_upper] is [unicode.IsUpper] on the ASCII range, so the loop agrees
    with the code on ASCII text only. *)
Fixpoint toSnakeCase_loop (first : bool) (s : string) : string :=
  match s with
  | EmptyString => EmptyString
  | String r rest =>
      if strings.is_upper r then
        (if first then "" else "_")
        +:+ String (strings.unicode_ToLower r) (toSnakeCase_loop false rest)
      else String r (toSnakeCase_loop false rest)
  end.

Definition toSnakeCase (s : string) : string :=
  if String.eqb s "" then s else toSnakeCase_loop true s.

Definition keywords : gset string :=
  list_to_set
    [ "abstract"; "assert"; "boolean"; "break";
      "byte"; "case"; "catch"; "char";
      "class"; "const"; "continue"; "default";
      "do"; "double"; "else"; "enum";
      "extends"; "final"; "finally"; "float";
      "for"; "goto"; "if"; "implements";
      "import"; "instanceof"; "int"; "interface";
      "long"; "native"; "new"; "package";
      "private"; "protected"; "public"; "return";
      "short"; "static"; "strictfp"; "super";
      "switch"; "synchronized"; "this"; "throw";
      "throws"; "transient"; "try"; "void";
      "volatile"; "while"; "true"; "false";
      "null"; "var"; "yield"; "record";
      "sealed"; "permits"; "non-sealed" ].

Definition IsJavaKeyword (word : string) : bool := bool_decide (word ∈ keywords).

Definition EscapeJavaKeyword (name : string) : string :=
  if IsJavaKeyword name then "_" +:+ name else name.

(** [NamingHelper] holds the naming configuration *)
Definition NamingHelper : Type := config.NamingConfig.

Definition GetTypeName (n : NamingHelper) (typeDef : parser.TypeDef) : string :=
  match parser.ExtractJavaNameDirective (parser.Directives typeDef) with
  | Some javaName => parser.JavaName_Name javaName
  | None =>
      let name := parser.Name typeDef in
      match parser.Kind typeDef with
      | parser.TypeKindInterface =>
          if String.eqb (config.InterfacePrefix n) "" then name
          else config.InterfacePrefix n +:+ name
      | parser.TypeKindObject | parser.TypeKindInputObject =>
          if String.eqb (config.ClassSuffix n) "" then name
          else name +:+ config.ClassSuffix n
      | _ => name
      end
  end.

Definition GetFieldName (n : NamingHelper) (field : parser.FieldDef) : string :=
  match parser.ExtractJavaNameDirective (parser.Field_Directives field) with
  | Some javaName => parser.JavaName_Name javaName
  | None =>
      let name := parser.Field_Name field in
      if String.eqb (config.FieldCase n) config.FieldCaseSnake then toSnakeCase name
      else toCamelCase name
  end.

Definition GetEnumValueName (n : NamingHelper) (enumValue : parser.EnumValueDef)
    : string :=
  match parser.ExtractJavaNameDirective (parser.EnumValue_Directives enumValue) with
  | Some javaName => parser.JavaName_Name javaName
  | None => parser.EnumValue_Name enumValue
  end.

Definition GetGetterName (n : NamingHelper) (fieldName : string) (isBoolean : bool)
    : string :=
  let prefix :=
    if isBoolean then
      if negb (strings.HasPrefix (strings.ToLower fieldName) "is") then "is" else "get"
    else "get" in
  prefix +:+ capitalizeFirst fieldName.

Definition GetSetterName (n : NamingHelper) (fieldName : string) : string :=
  "set" +:+ capitalizeFirst fieldName.

(** *** Contexts

    [TypeContext.Imports] is the one mutable object of a generation: the
    functions that write to it take the import manager and return it. *)

Record Context : Type := mkContext {
  Config : config.Config;
  Schema : parser.Schema;
  TypeMapper : typemap.TypeMapper;
  ctx_NamingHelper : NamingHelper;
  LombokGen : config.LombokConfig;
  ValidationGen : config.ValidationConfig
}.

Definition NewContext (cfg : config.Config) (schema : parser.Schema) : Context :=
  {| Config := cfg;
     Schema := schema;
     TypeMapper :=
       typemap.SetSchemaTypes (typemap.NewTypeMapper cfg) (parser.Types schema);
     ctx_NamingHelper := config.Naming (config.Java cfg);
     LombokGen := config.Lombok (config.Features cfg);
     ValidationGen := config.Validation (config.Features cfg) |}.

Record TypeContext : Type := mkTypeContext {
  tc_Context : Context;
  TypeDef : parser.TypeDef;
  TypeName : string
}.

Definition NewTypeContext (ctx : Context) (typeDef : parser.TypeDef)
    : TypeContext * ImportManager :=
  ({| tc_Context := ctx;
      TypeDef := typeDef;
      TypeName := GetTypeName (ctx_NamingHelper ctx) typeDef |},
   NewImportManager (config.Package (config.Output (Config ctx)))).

Definition TypeContext_ShouldSkip (tc : TypeContext) : bool :=
  annotations.is_some (parser.ExtractSkipDirective (parser.Directives (TypeDef tc))).

Definition GetVisibility (tc : TypeContext) : string :=
  let v := config.FieldVisibility (config.Java (Config (tc_Context tc))) in
  if String.eqb v config.VisibilityPrivate then "private"
  else if String.eqb v config.VisibilityProtected then "protected"
  else if String.eqb v config.VisibilityPackage then ""
  else if String.eqb v config.VisibilityPublic then "public"
  else "private".

Record FieldContext : Type := mkFieldContext {
  fc_TypeContext : TypeContext;
  Field : parser.FieldDef;
  FieldName : string;
  JavaType : string;
  fc_Imports : list string;
  IsNonNull : bool
}.

Definition NewFieldContext (tc : TypeContext) (field : parser.FieldDef)
    : result FieldContext :=
  let fieldName := GetFieldName (ctx_NamingHelper (tc_Context tc)) field in
  let fieldName := EscapeJavaKeyword fieldName in
  bind (typemap.MapFieldType (TypeMapper (tc_Context tc)) field) (fun mapResult =>
    Ok {| fc_TypeContext := tc;
          Field := field;
          FieldName := fieldName;
          JavaType := typemap.MapResult_JavaType mapResult;
          fc_Imports := typemap.MapResult_Imports mapResult;
          IsNonNull :=
            match parser.Field_Type field with
            | Some t => parser.TypeRef_NonNull t
            | None => false
            end |}).

Definition FieldContext_ShouldSkip (fc : FieldContext) : bool :=
  if annotations.is_some
       (parser.ExtractSkipDirective (parser.Field_Directives (Field fc)))
  then true
  else match parser.Field_Type (Field fc) with
       | Some t =>
           let namedType := parser.NamedType t in
           (2 <=? String.length namedType)%nat
           && String.eqb (strings.take 2 namedType) "__"
       | None => false
       end.

Definition IsBooleanType (fc : FieldContext) : bool :=
  String.eqb (JavaType fc) "boolean" || String.eqb (JavaType fc) "Boolean".

(** *** Fields *)

(** the Javadoc writers of the generators: each line of the description
    trimmed, behind [indent] *)
Definition javadoc (description indent : string) : string :=
  fold_left
    (fun sb line => sb +:+ indent +:+ " * " +:+ strings.TrimSpace line +:+ nl)
    (strings.Split description (ascii_of_nat 10))
    (indent +:+ "/**" +:+ nl)
  +:+ indent +:+ " */" +:+ nl.

Definition FieldGenerator_generateJavadoc (description indent : string) : string :=
  javadoc description indent.

Definition generateFieldAnnotations (fc : FieldContext) (imports : ImportManager)
    : list string * ImportManager :=
  let deprecated :=
    (annotations.GenerateDeprecatedAnnotation (parser.Field_Directives (Field fc))).1 in
  let annotations0 := if String.eqb deprecated "" then [] else [deprecated] in
  let '(validationAnns, validationImports) :=
    annotations.Validation_GenerateFieldAnnotations
      (ValidationGen (tc_Context (fc_TypeContext fc))) (Field fc) (IsNonNull fc) in
  let imports := AddAll imports validationImports in
  let '(customAnns, customImports) :=
    annotations.Custom_GenerateFieldAnnotations (Field fc) in
  let imports := AddAll imports customImports in
  (annotations0 ++ validationAnns ++ customAnns, imports).

Definition GenerateField (fc : FieldContext) (imports : ImportManager)
    : string * ImportManager :=
  let imports := AddAll imports (fc_Imports fc) in
  let sb :=
    if String.eqb (parser.Field_Description (Field fc)) "" then ""
    else FieldGenerator_generateJavadoc (parser.Field_Description (Field fc)) "    " in
  let '(anns, imports) := generateFieldAnnotations fc imports in
  let sb := fold_left (fun sb ann => sb +:+ "    " +:+ ann +:+ nl) anns sb in
  let visibility := GetVisibility (fc_TypeContext fc) in
  let sb :=
    if String.eqb visibility "" then sb +:+ "    "
    else sb +:+ "    " +:+ visibility +:+ " " in
  (sb +:+ JavaType fc +:+ " " +:+ FieldName fc +:+ ";" +:+ nl, imports).

Definition GenerateGetter (fc : FieldContext) : string :=
  let methodName :=
    GetGetterName (ctx_NamingHelper (tc_Context (fc_TypeContext fc)))
      (FieldName fc) (IsBooleanType fc) in
  "    public " +:+ JavaType fc +:+ " " +:+ methodName +:+ "() {" +:+ nl
  +:+ "        return this." +:+ FieldName fc +:+ ";" +:+ nl
  +:+ "    }" +:+ nl.

Definition GenerateSetter (fc : FieldContext) : string :=
  let methodName :=
    GetSetterName (ctx_NamingHelper (tc_Context (fc_TypeContext fc))) (FieldName fc) in
  "    public void " +:+ methodName +:+ "(" +:+ JavaType fc +:+ " " +:+ FieldName fc
  +:+ ") {" +:+ nl
  +:+ "        this." +:+ FieldName fc +:+ " = " +:+ FieldName fc +:+ ";" +:+ nl
  +:+ "    }" +:+ nl.

Definition GenerateInterfaceMethod (tc : TypeContext) (field : parser.FieldDef)
    (imports : ImportManager) : result (string * ImportManager) :=
  bind (NewFieldContext tc field) (fun fc =>
    if FieldContext_ShouldSkip fc then Ok ("", imports)
    else
      let imports := AddAll imports (fc_Imports fc) in
      let sb :=
        if String.eqb (parser.Field_Description field) "" then ""
        else FieldGenerator_generateJavadoc (parser.Field_Description field) "    " in
      let deprecated :=
        (annotations.GenerateDeprecatedAnnotation (parser.Field_Directives field)).1 in
      let sb :=
        if String.eqb deprecated "" then sb
        else sb +:+ "    " +:+ deprecated +:+ nl in
      let methodName :=
        GetGetterName (ctx_NamingHelper (tc_Context tc)) (FieldName fc)
          (IsBooleanType fc) in
      Ok (sb +:+ "    " +:+ JavaType fc +:+ " " +:+ methodName +:+ "();" +:+ nl,
          imports)).

(** *** The per-type generators *)

(** the package declaration that opens every unit *)
Definition package_decl (ctx : Context) : string :=
  "package " +:+ config.Package (config.Output (Config ctx)) +:+ ";" +:+ nl +:+ nl.

(** the tail of a generator: the import block spliced in at [importPlaceholder] *)
Definition splice_imports (sb : string) (importPlaceholder : nat)
    (imports : ImportManager) : string :=
  let result := strings.take importPlaceholder sb in
  let block := GenerateImportBlock imports in
  let result := if String.eqb block "" then result else result +:+ block +:+ nl in
  result +:+ strings.drop importPlaceholder sb.

(** the [implements] / [extends] list *)
Definition interface_list (ctx : Context) (interfaces : list string) : string :=
  fold_left
    (fun sb (entry : nat * string) =>
       let '(i, iface) := entry in
       let sb := if (0 <? i)%nat then sb +:+ ", " else sb in
       let prefix := config.InterfacePrefix (config.Naming (config.Java (Config ctx))) in
       let ifaceName := if String.eqb prefix "" then iface else prefix +:+ iface in
       sb +:+ ifaceName)
    (imap (fun i x => (i, x)) interfaces) "".

Definition write_annotations (sb : string) (anns : list string) : string :=
  fold_left (fun sb ann => sb +:+ ann +:+ nl) anns sb.

Definition generateClassAnnotations (tc : TypeContext) (imports : ImportManager)
    : list string * ImportManager :=
  let deprecated :=
    (annotations.GenerateDeprecatedAnnotation (parser.Directives (TypeDef tc))).1 in
  let annotations0 := if String.eqb deprecated "" then [] else [deprecated] in
  let '(lombokAnns, lombokImports) :=
    annotations.Lombok_GenerateTypeAnnotations (LombokGen (tc_Context tc)) (TypeDef tc) in
  let imports := AddAll imports lombokImports in
  let '(validationAnns, validationImports) :=
    annotations.Validation_GenerateTypeAnnotations
      (ValidationGen (tc_Context tc)) (TypeDef tc) in
  let imports := AddAll imports validationImports in
  let '(customAnns, customImports) :=
    annotations.Custom_GenerateTypeAnnotations (TypeDef tc) in
  let imports := AddAll imports customImports in
  (annotations0 ++ lombokAnns ++ validationAnns ++ customAnns, imports).

(** the field loop of [ClassGenerator.Generate]: the text, the imports and
    the contexts of the fields kept so far *)
Fixpoint class_fields (tc : TypeContext) (fields : list parser.FieldDef)
    (sb : string) (imports : ImportManager) (fieldContexts : list FieldContext)
    : result (string * ImportManager * list FieldContext) :=
  match fields with
  | [] => Ok (sb, imports, fieldContexts)
  | field :: rest =>
      match NewFieldContext tc field with
      | Err err =>
          Err (GenerateError "failed to create field context" (Some err)
                 (parser.Name (TypeDef tc)) (parser.Field_Name field))
      | Ok fc =>
          if FieldContext_ShouldSkip fc
          then class_fields tc rest sb imports fieldContexts
          else
            let '(fieldCode, imports) := GenerateField fc imports in
            class_fields tc rest (sb +:+ fieldCode +:+ nl) imports
              (fieldContexts ++ [fc])
      end
  end.

Definition write_accessors (sb : string) (fieldContexts : list FieldContext) : string :=
  fold_left
    (fun sb fc => sb +:+ GenerateGetter fc +:+ nl +:+ GenerateSetter fc +:+ nl)
    fieldContexts sb.

Definition ClassGenerator_Generate (ctx : Context) (typeDef : parser.TypeDef)
    : result string :=
  let '(tc, imports) := NewTypeContext ctx typeDef in
  if TypeContext_ShouldSkip tc then Ok ""
  else
    let sb := package_decl ctx in
    let importPlaceholder := String.length sb in
    let '(classAnnotations, imports) := generateClassAnnotations tc imports in
    let sb :=
      if String.eqb (parser.Description typeDef) "" then sb
      else sb +:+ javadoc (parser.Description typeDef) "" in
    let sb := write_annotations sb classAnnotations in
    let sb := sb +:+ "public class " +:+ TypeName tc in
    let sb :=
      if (0 <? length (parser.Interfaces typeDef))%nat
      then sb +:+ " implements " +:+ interface_list ctx (parser.Interfaces typeDef)
      else sb in
    let sb := sb +:+ " {" +:+ nl +:+ nl in
    match class_fields tc (parser.Fields typeDef) sb imports [] with
    | Err err => Err err
    | Ok (sb, imports, fieldContexts) =>
        let sb :=
          if annotations.NeedsGettersSetters (LombokGen ctx)
             && (0 <? length fieldContexts)%nat
          then write_accessors sb fieldContexts else sb in
        let sb := sb +:+ "}" +:+ nl in
        Ok (splice_imports sb importPlaceholder imports)
    end.

Definition generateInterfaceAnnotations (tc : TypeContext) (imports : ImportManager)
    : list string * ImportManager :=
  let deprecated :=
    (annotations.GenerateDeprecatedAnnotation (parser.Directives (TypeDef tc))).1 in
  let annotations0 := if String.eqb deprecated "" then [] else [deprecated] in
  let '(customAnns, customImports) :=
    annotations.Custom_GenerateTypeAnnotations (TypeDef tc) in
  let imports := AddAll imports customImports in
  (annotations0 ++ customAnns, imports).

(** the method loop of [InterfaceGenerator.Generate] *)
Fixpoint interface_methods (tc : TypeContext) (fields : list parser.FieldDef)
    (sb : string) (imports : ImportManager) : result (string * ImportManager) :=
  match fields with
  | [] => Ok (sb, imports)
  | field :: rest =>
      match GenerateInterfaceMethod tc field imports with
      | Err err =>
          Err (GenerateError "failed to generate interface method" (Some err)
                 (parser.Name (TypeDef tc)) (parser.Field_Name field))
      | Ok (methodCode, imports) =>
          let sb := if String.eqb methodCode "" then sb else sb +:+ methodCode +:+ nl in
          interface_methods tc rest sb imports
      end
  end.

Definition InterfaceGenerator_Generate (ctx : Context) (typeDef : parser.TypeDef)
    : result string :=
  let '(tc, imports) := NewTypeContext ctx typeDef in
  if TypeContext_ShouldSkip tc then Ok ""
  else
    let sb := package_decl ctx in
    let importPlaceholder := String.length sb in
    let '(interfaceAnnotations, imports) := generateInterfaceAnnotations tc imports in
    let sb :=
      if String.eqb (parser.Description typeDef) "" then sb
      else sb +:+ javadoc (parser.Description typeDef) "" in
    let sb := write_annotations sb interfaceAnnotations in
    let sb := sb +:+ "public interface " +:+ TypeName tc in
    let sb :=
      if (0 <? length (parser.Interfaces typeDef))%nat
      then sb +:+ " extends " +:+ interface_list ctx (parser.Interfaces typeDef)
      else sb in
    let sb := sb +:+ " {" +:+ nl +:+ nl in
    match interface_methods tc (parser.Fields typeDef) sb imports with
    | Err err => Err err
    | Ok (sb, imports) =>
        let sb := sb +:+ "}" +:+ nl in
        Ok (splice_imports sb importPlaceholder imports)
    end.

Definition generateEnumAnnotations (tc : TypeContext) (imports : ImportManager)
    : list string * ImportManager :=
  let deprecated :=
    (annotations.GenerateDeprecatedAnnotation (parser.Directives (TypeDef tc))).1 in
  let annotations0 := if String.eqb deprecated "" then [] else [deprecated] in
  let '(customAnns, customImports) :=
    annotations.Custom_GenerateTypeAnnotations (TypeDef tc) in
  let imports := AddAll imports customImports in
  (annotations0 ++ customAnns, imports).

Definition generateValueAnnotations (tc : TypeContext)
    (enumValue : parser.EnumValueDef) (imports : ImportManager)
    : list string * ImportManager :=
  let deprecated :=
    (annotations.GenerateDeprecatedAnnotation
       (parser.EnumValue_Directives enumValue)).1 in
  let annotations0 := if String.eqb deprecated "" then [] else [deprecated] in
  let '(customAnns, customImports) :=
    annotations.Custom_GenerateEnumValueAnnotations enumValue in
  let imports := AddAll imports customImports in
  (annotations0 ++ customAnns, imports).

Definition generateValueJavadoc (description : string) : string :=
  javadoc description "    ".

(** the value loop of [EnumGenerator.Generate]: [i] is the index of the
    value at hand in [typeDef.EnumValues], [n] the length of that list *)
Fixpoint enum_values (tc : TypeContext) (n i : nat)
    (values : list parser.EnumValueDef) (sb : string) (imports : ImportManager)
    : string * ImportManager :=
  match values with
  | [] => (sb, imports)
  | enumValue :: rest =>
      if annotations.is_some
           (parser.ExtractSkipDirective (parser.EnumValue_Directives enumValue))
      then enum_values tc n (S i) rest sb imports
      else
        let sb :=
          if String.eqb (parser.EnumValue_Description enumValue) "" then sb
          else sb +:+ generateValueJavadoc (parser.EnumValue_Description enumValue) in
        let '(valueAnnotations, imports) :=
          generateValueAnnotations tc enumValue imports in
        let sb :=
          fold_left (fun sb ann => sb +:+ "    " +:+ ann +:+ nl) valueAnnotations sb in
        let valueName := GetEnumValueName (ctx_NamingHelper (tc_Context tc)) enumValue in
        let sb := sb +:+ "    " +:+ valueName in
        let sb :=
          if (Z.of_nat i <? Z.of_nat n - 1)%Z then sb +:+ "," +:+ nl
          else sb +:+ ";" +:+ nl in
        enum_values tc n (S i) rest sb imports
  end.

Definition EnumGenerator_Generate (ctx : Context) (typeDef : parser.TypeDef)
    : result string :=
  let '(tc, imports) := NewTypeContext ctx typeDef in
  if TypeContext_ShouldSkip tc then Ok ""
  else
    let sb := package_decl ctx in
    let importPlaceholder := String.length sb in
    let '(enumAnnotations, imports) := generateEnumAnnotations tc imports in
    let sb :=
      if String.eqb (parser.Description typeDef) "" then sb
      else sb +:+ javadoc (parser.Description typeDef) "" in
    let sb := write_annotations sb enumAnnotations in
    let sb := sb +:+ "public enum " +:+ TypeName tc +:+ " {" +:+ nl in
    let '(sb, imports) :=
      enum_values tc (length (parser.EnumValues typeDef)) 0
        (parser.EnumValues typeDef) sb imports in
    let sb := sb +:+ "}" +:+ nl in
    Ok (splice_imports sb importPlaceholder imports).

Definition UnionGenerator_Generate (ctx : Context) (typeDef : parser.TypeDef)
    : result string :=
  let '(tc, _) := NewTypeContext ctx typeDef in
  if TypeContext_ShouldSkip tc then Ok ""
  else
    let sb := package_decl ctx in
    let sb :=
      if String.eqb (parser.Description typeDef) "" then
        sb +:+ "/**" +:+ nl
        +:+ " * Union type marker interface." +:+ nl
        +:+ " * Possible types: "
        +:+ nl +:+ " */" +:+ nl
      else sb +:+ javadoc (parser.Description typeDef) "" in
    Ok (sb +:+ "public interface " +:+ TypeName tc +:+ " {" +:+ nl
        +:+ "    // Marker interface for GraphQL union type" +:+ nl
        +:+ "}" +:+ nl).

(** *** The orchestrator *)

Record GeneratedFile : Type := mkGeneratedFile {
  FileName : string;
  Content : string;
  file_TypeDef : parser.TypeDef
}.

(** [Generator] holds the configuration; its four generators are stateless *)
Definition Generator : Type := config.Config.

Definition NewGenerator (cfg : config.Config) : Generator := cfg.

(** [generateType]: [Ok None] is Go's [(nil, nil)] *)
Definition generateType (g : Generator) (ctx : Context) (typeDef : parser.TypeDef)
    : result (option GeneratedFile) :=
  let generated :=
    match parser.Kind typeDef with
    | parser.TypeKindObject | parser.TypeKindInputObject =>
        Some (ClassGenerator_Generate ctx typeDef)
    | parser.TypeKindInterface => Some (InterfaceGenerator_Generate ctx typeDef)
    | parser.TypeKindEnum => Some (EnumGenerator_Generate ctx typeDef)
    | parser.TypeKindUnion => Some (UnionGenerator_Generate ctx typeDef)
    | parser.TypeKindScalar => None
    end in
  match generated with
  | None => Ok None
  | Some (Err err) => Err err
  | Some (Ok content) =>
      if String.eqb content "" then Ok None
      else
        let typeName := GetTypeName (ctx_NamingHelper ctx) typeDef in
        Ok (Some {| FileName := typeName +:+ ".java";
                    Content := content;
                    file_TypeDef := typeDef |})
  end.

(** the loop shared by [Generate] and [GenerateWithResult], over the call
    [gen] it makes for each type: the files and the errors gathered so far *)
Fixpoint generate_loop (gen : parser.TypeDef -> result (option GeneratedFile))
    (types : list parser.TypeDef) (files : list GeneratedFile) (errs : list error)
    : list GeneratedFile * list error :=
  match types with
  | [] => (files, errs)
  | typeDef :: rest =>
      match gen typeDef with
      | Err err => generate_loop gen rest files (errs ++ [err])
      | Ok (Some file) => generate_loop gen rest (files ++ [file]) errs
      | Ok None => generate_loop gen rest files errs
      end
  end.

(** the values of [schema.Types] in the order the loop ranges over them *)
Definition schema_types (schema : parser.Schema) : list parser.TypeDef :=
  (map_to_list (parser.Types schema)).*2.

Definition Generate (g : Generator) (schema : parser.Schema)
    : list GeneratedFile * option error :=
  let ctx := NewContext g schema in
  let '(files, errs) := generate_loop (generateType g ctx) (schema_types schema) [] [] in
  (files, ToError errs).

Definition GenerateType (g : Generator) (schema : parser.Schema) (typeName : string)
    : result (option GeneratedFile) :=
  match parser.GetType schema typeName with
  | None => Err (GenerateError ("type not found: " +:+ typeName) None "" "")
  | Some typeDef => generateType g (NewContext g schema) typeDef
  end.

Record Result : Type := mkResult {
  Files : list GeneratedFile;
  Errors : list error
}.

Definition GenerateWithResult (g : Generator) (schema : parser.Schema) : Result :=
  let ctx := NewContext g schema in
  let '(files, errs) := generate_loop (generateType g ctx) (schema_types schema) [] [] in
  {| Files := files; Errors := errs |}.

(** [ToPascalCase] *)
Definition ToPascalCase (s : string) : string :=
  if String.eqb s "" then s
  else if strings.Contains s "_" then
    fold_left
      (fun result part =>
         if String.eqb part "" then result
         else result +:+ capitalizeFirst (strings.ToLower part))
      (strings.Split s "_") ""
  else capitalizeFirst s.

Record Stats : Type := mkStats {
  TotalTypes : Z;
  Classes : Z;
  Interfaces : Z;
  Enums : Z;
  Skipped : Z;
  ErrorCount : Z
}.

(** the body of the loop of [GetStats] *)
Definition count_file (stats : Stats) (file : GeneratedFile) : Stats :=
  match parser.Kind (file_TypeDef file) with
  | parser.TypeKindObject | parser.TypeKindInputObject =>
      mkStats (TotalTypes stats) (Classes stats + 1) (Interfaces stats)
        (Enums stats) (Skipped stats) (ErrorCount stats)
  | parser.TypeKindInterface | parser.TypeKindUnion =>
      mkStats (TotalTypes stats) (Classes stats) (Interfaces stats + 1)
        (Enums stats) (Skipped stats) (ErrorCount stats)
  | parser.TypeKindEnum =>
      mkStats (TotalTypes stats) (Classes stats) (Interfaces stats)
        (Enums stats + 1) (Skipped stats) (ErrorCount stats)
  | parser.TypeKindScalar => stats
  end.

Definition GetStats (files : list GeneratedFile) (errors : list error) : Stats :=
  fold_left count_file files
    (mkStats (Z.of_nat (length files)) 0 0 0 0 (Z.of_nat (length errors))).

End generator.

(** * The vocabulary of the properties *)

Section naming_vocabulary.
Import strings generator.

(** the words that [toCamelCase] appends after the first one *)
Definition camel_tail (parts : list string) : string :=
  fold_right
    (λ part acc,
       if String.eqb part "" then acc
       else capitalizeFirst (ToLower part) +:+ acc) "" parts.

(** An identifier in snake_case: lower-case letters, digits and underscores,
    starting with a letter. *)
Fixpoint snake_chars (s : string) : bool :=
  match s with
  | EmptyString => true
  | String c r => (is_lower c || is_digit c || Ascii.eqb c "_") && snake_chars r
  end.

Definition is_snake_case (s : string) : bool :=
  match s with
  | EmptyString => false
  | String c r => is_lower c && snake_chars r
  end.

End naming_vocabulary.

Section mapper_vocabulary.
Import typemap.

Definition named (name : string) (nonNull : bool) : parser.TypeRef :=
  parser.mkTypeRef name None nonNull.

Definition policy (cfg : config.Config) : string :=
  config.NullableHandling (config.Java cfg).

End mapper_vocabulary.

Definition optional_config : config.Config :=
  {| config.Output := config.Output config.DefaultConfig;
     config.Java :=
       {| config.Version := 17;
          config.FieldVisibility := config.VisibilityPrivate;
          config.CollectionType := config.CollectionList;
          config.NullableHandling := config.NullableOptional;
          config.Naming := config.Naming (config.Java config.DefaultConfig) |};
     config.TypeMappings :=
       {| config.Scalars :=
            {[ "DateTime" :=
                 config.mkScalarMapping "java.time.LocalDateTime"
                   ["java.time.LocalDateTime"] ]} |};
     config.Features := config.Features config.DefaultConfig |}.

Definition int_override_config : config.Config :=
  {| config.Output := config.Output config.DefaultConfig;
     config.Java := config.Java config.DefaultConfig;
     config.TypeMappings :=
       {| config.Scalars :=
            {[ "Int" := config.mkScalarMapping "java.math.BigInteger"
                          ["java.math.BigInteger"] ]} |};
     config.Features := config.Features config.DefaultConfig |}.


Section generators_vocabulary.
Import generator.

Definition skipped (directives : list parser.DirectiveDef) : bool :=
  annotations.is_some (parser.ExtractSkipDirective directives).

(** the types that yield a unit: every kind but scalar, unless skipped *)
Definition yields_unit (typeDef : parser.TypeDef) : bool :=
  match parser.Kind typeDef with
  | parser.TypeKindScalar => false
  | _ => negb (skipped (parser.Directives typeDef))
  end.

Definition ok_file (r : result (option GeneratedFile)) : option GeneratedFile :=
  match r with Ok (Some file) => Some file | _ => None end.

Definition failure (r : result (option GeneratedFile)) : option error :=
  match r with Err err => Some err | _ => None end.

End generators_vocabulary.

(** a schema of one well-formed type and one type whose field has a
    reference with neither a name nor an element *)
Definition malformed_ref : parser.TypeRef := parser.mkTypeRef "" None false.

Definition Good : parser.TypeDef :=
  parser.mkTypeDef "Good" parser.TypeKindObject ""
    [ parser.mkFieldDef "id" "" (Some (parser.mkTypeRef "ID" None true)) [] ]
    [] [] [].

Definition Bad : parser.TypeDef :=
  parser.mkTypeDef "Bad" parser.TypeKindObject ""
    [ parser.mkFieldDef "broken" "" (Some malformed_ref) [] ]
    [] [] [].

Definition one_malformed_schema : parser.Schema :=
  parser.mkSchema (list_to_map [ ("Good", Good); ("Bad", Bad) ]).

Section isolation_vocabulary.
Import generator.


End isolation_vocabulary.


Section skip_vocabulary.
Import generator.

(** the contexts of the fields that the class generator keeps *)
Definition kept (tc : TypeContext) (fields : list parser.FieldDef) : list FieldContext :=
  omap (λ field,
          match NewFieldContext tc field with
          | Ok fc => if FieldContext_ShouldSkip fc then None else Some fc
          | Err _ => None
          end) fields.

(** the field declarations of kept fields, written one after the other *)
Definition write_fields (fcs : list FieldContext) (sb : string) (imports : ImportManager)
    : string * ImportManager :=
  fold_left
    (λ (acc : string * ImportManager) fc,
       let '(fieldCode, imports) := GenerateField fc acc.2 in
       (acc.1 +:+ fieldCode +:+ nl, imports))
    fcs (sb, imports).

(** a field context seen from another type context of the same run *)
Definition rebase (tc : TypeContext) (fc : FieldContext) : FieldContext :=
  {| fc_TypeContext := tc;
     Field := Field fc;
     FieldName := FieldName fc;
     JavaType := JavaType fc;
     fc_Imports := fc_Imports fc;
     IsNonNull := IsNonNull fc |}.

Definition with_Fields (typeDef : parser.TypeDef) (fields : list parser.FieldDef)
    : parser.TypeDef :=
  parser.mkTypeDef (parser.Name typeDef) (parser.Kind typeDef)
    (parser.Description typeDef) fields (parser.EnumValues typeDef)
    (parser.Interfaces typeDef) (parser.Directives typeDef).

End skip_vocabulary.

Definition skip : parser.DirectiveDef := parser.mkDirectiveDef "skip" ∅.

Definition User : parser.TypeDef :=
  parser.mkTypeDef "User" parser.TypeKindObject ""
    [ parser.mkFieldDef "id" "" (Some (parser.mkTypeRef "ID" None true)) [];
      parser.mkFieldDef "password" "" (Some (parser.mkTypeRef "String" None false)) [skip];
      parser.mkFieldDef "name" "" (Some (parser.mkTypeRef "String" None false)) [] ]
    [] [] [].

Definition Internal : parser.TypeDef :=
  parser.mkTypeDef "Internal" parser.TypeKindObject "" [] [] [] [skip].

Definition default_context : generator.Context :=
  generator.NewContext config.DefaultConfig (parser.mkSchema ∅).

Definition Status (values : list parser.EnumValueDef) : parser.TypeDef :=
  parser.mkTypeDef "Status" parser.TypeKindEnum "" [] values [] [].

Section import_manager_vocabulary.
Import strings generator.

(** a call on an import manager *)
Inductive call : Type :=
| CallAdd (imp : string)
| CallAddAll (imps : list string).

Definition run_call (m : ImportManager) (c : call) : ImportManager :=
  match c with
  | CallAdd imp => Add m imp
  | CallAddAll imps => AddAll m imps
  end.

Definition run (m : ImportManager) (calls : list call) : ImportManager :=
  fold_left run_call calls m.

(** "java.lang.X" with no further package segment *)
Definition java_lang_direct (imp : string) : bool :=
  HasPrefix imp "java.lang." && negb (Contains (drop 10 imp) ".").

(** the package of an import: what stands before its last dot *)
Definition import_package (imp : string) : option string :=
  (λ lastDot, take lastDot imp) <$> LastIndex imp ".".

(** what holds of every import an import manager of package [pkg] accepts *)
Definition accepted (pkg imp : string) : Prop :=
  imp ≠ ""
  ∧ java_lang_direct imp = false
  ∧ (pkg ≠ "" → import_package imp ≠ Some pkg).

Definition well_kept (pkg : string) (m : ImportManager) : Prop :=
  package_ m = pkg ∧ ∀ imp, imp ∈ imports m → accepted pkg imp.

End import_manager_vocabulary.

Section import_groups_vocabulary.
Import strings generator.

(** the imports of a group share their prefix *)
Definition uniform (group : list string) : Prop :=
  group ≠ [] ∧ ∃ prefix, Forall (λ imp, getImportPrefix imp = prefix) group.

Definition import_line (imp : string) : string := "import " +:+ imp +:+ ";" +:+ nl.

(** groups of import lines, a blank line between two groups *)
Definition import_block (groups : list (list string)) : string :=
  Join ((λ group, foldr (λ imp text, import_line imp +:+ text) "" group) <$> groups) nl.

End import_groups_vocabulary.

Definition sample_calls : list call :=
  [ CallAdd "java.util.List";
    CallAddAll [ "java.lang.String"; "com.example.model.User"; "java.util.List";
                 "jakarta.validation.constraints.NotNull"; "java.util.ArrayList" ];
    CallAdd "" ].

(** the reference [[elem]]: a list of [elem] *)
Definition list_of (elem : parser.TypeRef) (nonNull : bool) : parser.TypeRef :=
  parser.mkTypeRef "" (Some elem) nonNull.

Section naming_more_vocabulary.
Import strings.

(** no capital letter in the string *)
Fixpoint no_upper (s : string) : bool :=
  match s with
  | EmptyString => true
  | String c r => negb (is_upper c) && no_upper r
  end.

(** the string starts with a capital letter *)
Definition starts_upper (s : string) : bool :=
  match s with
  | EmptyString => false
  | String c _ => is_upper c
  end.

(** ASCII text: every byte is below 128, so that a byte is a rune and the
    ASCII forms of [unicode.IsUpper], [unicode.ToLower] and [unicode.ToUpper]
    are those of the code *)
Definition is_ascii (c : ascii) : bool := (nat_of_ascii c <? 128)%nat.

Fixpoint ascii_only (s : string) : bool :=
  match s with
  | EmptyString => true
  | String c r => is_ascii c && ascii_only r
  end.

End naming_more_vocabulary.

Section stats_vocabulary.
Import generator.

(** the files counted as classes, as interfaces and as enums *)
Definition class_like (file : GeneratedFile) : bool :=
  match parser.Kind (file_TypeDef file) with
  | parser.TypeKindObject | parser.TypeKindInputObject => true
  | _ => false
  end.

Definition interface_like (file : GeneratedFile) : bool :=
  match parser.Kind (file_TypeDef file) with
  | parser.TypeKindInterface | parser.TypeKindUnion => true
  | _ => false
  end.

Definition enum_like (file : GeneratedFile) : bool :=
  match parser.Kind (file_TypeDef file) with
  | parser.TypeKindEnum => true
  | _ => false
  end.

Definition count (p : GeneratedFile → bool) (files : list GeneratedFile) : Z :=
  Z.of_nat (length (filter (λ file, p file = true) files)).

End stats_vocabulary.

Section dropped_vocabulary.
Import generator.

(** a field of an introspection type: the innermost named type of its
    reference starts with two underscores *)
Definition introspection (field : parser.FieldDef) : bool :=
  match parser.Field_Type field with
  | Some t => strings.HasPrefix (parser.NamedType t) "__"
  | None => false
  end.

(** the fields that leave no trace in a unit, and the others *)
Definition dropped (field : parser.FieldDef) : bool :=
  skipped (parser.Field_Directives field) || introspection field.

Definition retained (fields : list parser.FieldDef) : list parser.FieldDef :=
  filter (λ field, dropped field = false) fields.

End dropped_vocabulary.

Section enum_vocabulary.
Import generator.

(** what an enum writes for one value: its Javadoc, its annotations and its
    name, closed by a semicolon when it is the last value and by a comma
    otherwise *)
Definition write_value (tc : TypeContext) (enumValue : parser.EnumValueDef)
    (is_last : bool) (acc : string * ImportManager) : string * ImportManager :=
  let doc :=
    if String.eqb (parser.EnumValue_Description enumValue) "" then ""
    else generateValueJavadoc (parser.EnumValue_Description enumValue) in
  let anns := generateValueAnnotations tc enumValue acc.2 in
  (acc.1 +:+ doc
   +:+ foldr (λ ann text, "    " +:+ ann +:+ nl +:+ text) "" anns.1
   +:+ "    " +:+ GetEnumValueName (ctx_NamingHelper (tc_Context tc)) enumValue
   +:+ (if is_last then ";" else ",") +:+ nl,
   anns.2).

(** the body of an enum of the values [values], none of them left out *)
Fixpoint enum_body (tc : TypeContext) (values : list parser.EnumValueDef)
    (acc : string * ImportManager) : string * ImportManager :=
  match values with
  | [] => acc
  | [enumValue] => write_value tc enumValue true acc
  | enumValue :: rest => enum_body tc rest (write_value tc enumValue false acc)
  end.

Definition value_kept (enumValue : parser.EnumValueDef) : bool :=
  negb (skipped (parser.EnumValue_Directives enumValue)).

Definition with_EnumValues (typeDef : parser.TypeDef)
    (values : list parser.EnumValueDef) : parser.TypeDef :=
  parser.mkTypeDef (parser.Name typeDef) (parser.Kind typeDef)
    (parser.Description typeDef) (parser.Fields typeDef) values
    (parser.Interfaces typeDef) (parser.Directives typeDef).

End enum_vocabulary.

Section validation_vocabulary.

(** the class that an annotation names: what stands after the at sign, up to
    the opening parenthesis of the arguments or to the end *)
Fixpoint class_name (s : string) : string :=
  match s with
  | EmptyString => EmptyString
  | String c r => if Ascii.eqb c "(" then EmptyString else String c (class_name r)
  end.

Definition annotation_class (ann : string) : option string :=
  match ann with
  | EmptyString => None
  | String c r => if Ascii.eqb c "@" then Some (class_name r) else None
  end.

(** an annotation and the import of its class in the package [pkg] *)
Definition imported_from (pkg ann imp : string) : Prop :=
  ∃ class,
    annotation_class ann = Some class ∧ class ≠ "" ∧ imp = pkg +:+ "." +:+ class.

End validation_vocabulary.

Section package_name_vocabulary.
Import validate.

Fixpoint all_chars (p : ascii → bool) (s : string) : bool :=
  match s with
  | EmptyString => true
  | String c r => p c && all_chars p r
  end.

(** a Java identifier of ASCII letters, digits, underscores and dollars *)
Definition java_identifier (s : string) : bool :=
  match s with
  | EmptyString => false
  | String c r => isJavaIdentifierStart c && all_chars isJavaIdentifierPart r
  end.

Definition dot_or_part (c : ascii) : bool :=
  Ascii.eqb c "." || isJavaIdentifierPart c.

Definition dot_or_start (c : ascii) : bool :=
  Ascii.eqb c "." || isJavaIdentifierStart c.

End package_name_vocabulary.

(** the fields and settings at which the properties are instantiated *)
Definition collection_Set : parser.DirectiveDef :=
  parser.mkDirectiveDef "collection" {[ "type" := parser.VString "Set" ]}.

Definition tags : parser.FieldDef :=
  parser.mkFieldDef "tags" "" (Some (list_of (named "String" true) false))
    [collection_Set].

Definition dates : parser.FieldDef :=
  parser.mkFieldDef "dates" "" (Some (list_of (named "DateTime" true) false))
    [collection_Set].

Definition class_field : parser.FieldDef :=
  parser.mkFieldDef "class" "" (Some (named "String" false)) [].

Definition javax_validation : config.ValidationConfig :=
  config.mkValidationConfig true config.ValidationJavax true.

Definition three_values : list parser.EnumValueDef :=
  [ parser.mkEnumValueDef "ACTIVE" "" [];
    parser.mkEnumValueDef "PENDING" "" [skip];
    parser.mkEnumValueDef "INACTIVE" "" [] ].

(** membership in a list that is written out *)
Ltac in_list := repeat first [apply list_elem_of_here | apply list_elem_of_further].

(** * Properties *)

(** ** Naming *)

Section naming.
Import strings generator.

Lemma unicode_ToLower_idemp (c : ascii) :
  unicode_ToLower (unicode_ToLower c) = unicode_ToLower c.
Proof. destruct c as [[] [] [] [] [] [] [] []]; reflexivity. Qed.

Lemma unicode_ToLower_underscore (c : ascii) :
  Ascii.eqb (unicode_ToLower c) "_" = Ascii.eqb c "_".
Proof. destruct c as [[] [] [] [] [] [] [] []]; reflexivity. Qed.

Lemma unicode_ToUpper_underscore (c : ascii) :
  Ascii.eqb (unicode_ToUpper c) "_" = Ascii.eqb c "_".
Proof. destruct c as [[] [] [] [] [] [] [] []]; reflexivity. Qed.

Lemma append_cons (x : ascii) (a b : string) : String x a +:+ b = String x (a +:+ b).
Proof. reflexivity. Qed.

Lemma append_nil_l (a : string) : "" +:+ a = a.
Proof. reflexivity. Qed.

Lemma append_assoc (a b c : string) : (a +:+ b) +:+ c = a +:+ b +:+ c.
Proof.
  induction a as [|x a IH]; [done|]. by rewrite !append_cons, IH.
Qed.

Lemma append_empty_r (a : string) : a +:+ "" = a.
Proof. induction a as [|x a IH]; [done|]. by rewrite append_cons, IH. Qed.

Lemma Contains_app (a b : string) (sep : ascii) :
  Contains (a +:+ b) sep = Contains a sep || Contains b sep.
Proof.
  induction a as [|c a IH]; [done|].
  rewrite append_cons. simpl. rewrite IH. by rewrite orb_assoc.
Qed.

Lemma Contains_ToLower (s : string) :
  Contains (ToLower s) "_" = Contains s "_".
Proof.
  induction s as [|c s IH]; simpl; [done|].
  by rewrite unicode_ToLower_underscore, IH.
Qed.

Lemma Contains_capitalizeFirst (s : string) :
  Contains (capitalizeFirst s) "_" = Contains s "_".
Proof. destruct s as [|c s]; simpl; [done|]. by rewrite unicode_ToUpper_underscore. Qed.

(** the pieces of [Split] are free of the separator, and there is a first one *)
Lemma Split_pieces (s : string) (sep : ascii) :
  ∃ p ps, Split s sep = p :: ps ∧ Forall (λ q, Contains q sep = false) (p :: ps).
Proof.
  induction s as [|c s (p & ps & Heq & Hall)]; simpl.
  - exists EmptyString, []. split; [done|]. by repeat constructor.
  - destruct (Ascii.eqb c sep) eqn:Hc.
    + exists EmptyString, (p :: ps). rewrite Heq. split; [done|]. by constructor.
    + exists (String c p), ps. rewrite Heq. split; [done|].
      inversion Hall as [|?? Hp Hps]; subst. constructor; [|done].
      simpl. by rewrite Hc.
Qed.

Lemma Split_head (c : ascii) (s : string) (sep : ascii) :
  Ascii.eqb c sep = false →
  ∃ p ps, Split (String c s) sep = String c p :: ps
          ∧ Forall (λ q, Contains q sep = false) (p :: ps).
Proof.
  intros Hc. destruct (Split_pieces s sep) as (p & ps & Heq & Hall).
  exists p, ps. simpl. by rewrite Hc, Heq.
Qed.

Lemma camel_fold (parts : list string) (acc : string) :
  fold_left
    (λ result part,
       if String.eqb part "" then result
       else result +:+ capitalizeFirst (ToLower part)) parts acc
  = acc +:+ camel_tail parts.
Proof.
  revert acc. induction parts as [|p ps IH]; intros acc;
    cbn [fold_left camel_tail fold_right].
  - by rewrite append_empty_r.
  - rewrite IH. fold (camel_tail ps).
    destruct (String.eqb p ""); [done|]. by rewrite append_assoc.
Qed.

Lemma camel_tail_clean (parts : list string) :
  Forall (λ q, Contains q "_" = false) parts →
  Contains (camel_tail parts) "_" = false.
Proof.
  induction 1 as [|p ps Hp _ IH]; cbn [camel_tail fold_right]; [done|].
  fold (camel_tail ps). destruct (String.eqb p ""); [done|].
  by rewrite Contains_app, Contains_capitalizeFirst, Contains_ToLower, Hp, IH.
Qed.

(** [toCamelCase] on a string that starts with anything but an underscore:
    the first byte in lower case, then a rest free of underscores *)
Lemma toCamelCase_shape (c : ascii) (s : string) :
  Ascii.eqb c "_" = false →
  ∃ r, toCamelCase (String c s) = String (unicode_ToLower c) r
       ∧ (Contains s "_" = true → Contains r "_" = false)
       ∧ (Contains s "_" = false → r = s).
Proof.
  intros Hc. unfold toCamelCase.
  change (String.eqb (String c s) "") with false. cbv iota.
  cbn [Contains]. rewrite Hc, orb_false_l.
  destruct (Contains s "_") eqn:Hs.
  - destruct (Split_head c s "_" Hc) as (p & ps & Heq & Hall).
    rewrite Heq. cbn [hd tail ToLower]. rewrite camel_fold, append_cons.
    eexists. split; [done|]. split; [|done]. intros _.
    inversion Hall as [|?? Hp Hps]; subst.
    by rewrite Contains_app, Contains_ToLower, Hp, camel_tail_clean.
  - eexists. split; [done|]. by split.
Qed.

Lemma toCamelCase_idemp_from_letter (c : ascii) (s : string) :
  Ascii.eqb c "_" = false →
  toCamelCase (toCamelCase (String c s)) = toCamelCase (String c s).
Proof.
  intros Hc. destruct (toCamelCase_shape c s Hc) as (r & Heq & Hclean & Hsame).
  rewrite Heq.
  assert (Hr : Contains r "_" = false).
  { destruct (Contains s "_") eqn:Hs; [by apply Hclean|]. by rewrite Hsame. }
  destruct (toCamelCase_shape (unicode_ToLower c) r) as (r' & Heq' & _ & Hsame').
  { by rewrite unicode_ToLower_underscore. }
  rewrite Heq', unicode_ToLower_idemp. by rewrite Hsame'.
Qed.

Lemma is_lower_not_underscore (c : ascii) : is_lower c = true → Ascii.eqb c "_" = false.
Proof. destruct c as [[] [] [] [] [] [] [] []]; simpl; done. Qed.

(** C8: for an identifier in snake_case, converting the camelCase form once
    more changes nothing: [toCamelCase (toCamelCase s) = toCamelCase s]. *)
Theorem toCamelCase_fixed_point (s : string) :
  is_snake_case s = true → toCamelCase (toCamelCase s) = toCamelCase s.
Proof.
  destruct s as [|c s]; simpl; [done|].
  intros [Hc _]%andb_true_iff.
  by apply toCamelCase_idemp_from_letter, is_lower_not_underscore.
Qed.

Lemma toCamelCase_fixed_point_witness :
  is_snake_case "user_first_name" = true
  ∧ toCamelCase (toCamelCase "user_first_name") = toCamelCase "user_first_name".
Proof. split; [reflexivity | apply toCamelCase_fixed_point; reflexivity]. Defined.

(** outside snake_case: a leading underscore leaves a capital first *)
Example toCamelCase_leading_underscore :
  toCamelCase "_foo" = "Foo" ∧ toCamelCase "Foo" = "foo".
Proof. split; reflexivity. Qed.

(** C9: a boolean field gets the getter "is" + capitalized name exactly when
    its lower-cased name does not start with "is", and "get" + capitalized
    name when it does; any other field gets "get" + capitalized name. *)
Theorem GetGetterName_prefix (n : NamingHelper) (fieldName : string) :
  (GetGetterName n fieldName true = "is" +:+ capitalizeFirst fieldName
     ↔ HasPrefix (ToLower fieldName) "is" = false)
  ∧ (GetGetterName n fieldName true = "get" +:+ capitalizeFirst fieldName
     ↔ HasPrefix (ToLower fieldName) "is" = true)
  ∧ GetGetterName n fieldName false = "get" +:+ capitalizeFirst fieldName
  ∧ GetGetterName n "isActive" true = "getIsActive".
Proof.
  unfold GetGetterName.
  destruct (HasPrefix (ToLower fieldName) "is"); simpl; repeat split; done.
Qed.

End naming.

(** ** The Lombok directive *)

Section lombok.
Import annotations.

Lemma set_all_lookup (names : list string) (b : bool) (enabled : gmap string bool)
    (k : string) :
  set_all names b enabled !! k = if decide (k ∈ names) then Some b else enabled !! k.
Proof.
  unfold set_all. revert enabled.
  induction names as [|name names IH]; intros enabled; cbn [fold_left].
  - rewrite decide_False; [done | set_solver].
  - rewrite IH. destruct (decide (k ∈ names)) as [Hin|Hin].
    + rewrite decide_True; [done | set_solver].
    + destruct (decide (k = name)) as [->|Hne].
      * rewrite lookup_insert_eq, decide_True; [done | set_solver].
      * rewrite lookup_insert_ne by done.
        rewrite decide_False; [done|]. by intros [?|?]%elem_of_cons.
Qed.

(** C7: the facet patch of the lombok directive starts from the configured
    booleans, sets every excluded facet to false and then every included
    facet to true; a facet listed in both lists ends up enabled. *)
Theorem getEnabledAnnotations_patch (cfg : config.LombokConfig)
    (directive : parser.LombokDirectiveInfo) (facet : string) :
  getEnabledAnnotations cfg (Some directive) !! facet =
    (if decide (facet ∈ parser.Include directive) then Some true
     else if decide (facet ∈ parser.Exclude directive) then Some false
     else getEnabledAnnotations cfg None !! facet)
  ∧ getEnabledAnnotations cfg None =
      list_to_map
        [ ("data", config.Data cfg); ("builder", config.Builder cfg);
          ("noArgsConstructor", config.NoArgsConstructor cfg);
          ("allArgsConstructor", config.AllArgsConstructor cfg);
          ("getter", config.Getter cfg); ("setter", config.Setter cfg) ].
Proof.
  split; [|done]. unfold getEnabledAnnotations. by rewrite !set_all_lookup.
Qed.

Example lombok_include_wins :
  getEnabledAnnotations (config.Lombok (config.Features config.DefaultConfig))
    (Some {| parser.Exclude := ["data"; "builder"]; parser.Include := ["builder"] |})
    !! "builder" = Some true.
Proof. by vm_compute. Qed.

End lombok.

(** ** The type mapper *)

Section mapper.
Import typemap.

Variable cfg : config.Config.
Variable types : gmap string parser.TypeDef.

(** the mapper of a run: [NewContext] builds it from the configuration and
    hands it the types of the schema *)
Let tm : TypeMapper := SetSchemaTypes (NewTypeMapper cfg) types.

Lemma customScalars_lookup (name : string) :
  customScalars tm !! name =
    (λ m, mkScalarInfo (config.ScalarMapping_JavaType m) ""
            (config.ScalarMapping_Imports m))
      <$> config.Scalars (config.TypeMappings cfg) !! name.
Proof. unfold tm. simpl. by rewrite lookup_fmap. Qed.

Lemma mapNamedType_override (name : string) (m : config.ScalarMapping) :
  config.Scalars (config.TypeMappings cfg) !! name = Some m →
  mapNamedType tm name =
    Ok (mkMapResult (config.ScalarMapping_JavaType m) (config.ScalarMapping_Imports m)
          false false false "").
Proof.
  intros Hm. unfold mapNamedType. by rewrite customScalars_lookup, Hm.
Qed.

Lemma mapNamedType_no_override (name : string) :
  config.Scalars (config.TypeMappings cfg) !! name = None →
  mapNamedType tm name =
    match BuiltinScalars !! name with
    | Some scalar => Ok (mkMapResult (JavaType scalar) (Imports scalar) false false false "")
    | None =>
    match CommonScalars !! name with
    | Some scalar => Ok (mkMapResult (JavaType scalar) (Imports scalar) false false false "")
    | None =>
    match types !! name with
    | Some typeDef => Ok (mkMapResult (getJavaTypeName tm typeDef) [] false false false "")
    | None => Ok (mkMapResult name [] false false false "")
    end end end.
Proof.
  intros Hm. unfold mapNamedType. by rewrite customScalars_lookup, Hm.
Qed.

(** the mapper never fails *)
Lemma mapNamedType_total (m : TypeMapper) (name : string) :
  ∃ r, mapNamedType m name = Ok r.
Proof. unfold mapNamedType. repeat case_match; eauto. Qed.

Lemma mapTypeInternal_total (m : TypeMapper) (typeRef : parser.TypeRef)
    (topLevel : bool) :
  ∃ r, mapTypeInternal m typeRef topLevel = Ok r.
Proof.
  revert typeRef topLevel. fix IH 1.
  intros [name [elem|] nonNull] topLevel; simpl.
  - destruct (IH elem false) as [r ->]. eauto.
  - destruct (mapNamedType_total m name) as [r ->]. eauto.
Qed.

Lemma MapType_total (m : TypeMapper) (typeRef : option parser.TypeRef) :
  ∃ r, MapType m typeRef = Ok r.
Proof.
  destruct typeRef as [t|]; simpl; [apply mapTypeInternal_total | eauto].
Qed.

Lemma MapFieldType_total (m : TypeMapper) (field : parser.FieldDef) :
  ∃ r, MapFieldType m field = Ok r.
Proof.
  unfold MapFieldType. case_match; [eauto|].
  destruct (MapType_total m (parser.Field_Type field)) as [r ->]. simpl.
  repeat case_match; eauto.
Qed.

(** what the built-in table holds: wrapper types, none of them a primitive *)
Lemma BuiltinScalars_boxed (name : string) (sc : ScalarInfo) :
  BuiltinScalars !! name = Some sc →
  IsPrimitive (JavaType sc) = false
  ∧ IsPrimitive (FormatOptionalType (JavaType sc)) = false
  ∧ BoxType (JavaType sc) = JavaType sc
  ∧ Imports sc = [].
Proof.
  intros Hsc%elem_of_list_to_map_2.
  repeat (apply elem_of_cons in Hsc as [?|Hsc]; [simplify_eq; by vm_compute|]).
  by apply elem_of_nil in Hsc.
Qed.


(** [applyNullability] on a result that is not a primitive: wrapped in
    Optional under the optional policy, left alone otherwise *)
Lemma applyNullability_not_primitive (r : MapResult) :
  MapResult_IsPrimitive r = false →
  applyNullability tm r =
    if String.eqb (policy cfg) config.NullableOptional
    then mkMapResult (FormatOptionalType (MapResult_JavaType r))
           (MapResult_Imports r ++ ["java.util.Optional"])
           false (IsCollection r) true (ElementType r)
    else r.
Proof.
  intros Hr. unfold applyNullability, policy. rewrite Hr. cbn.
  by repeat case_match.
Qed.


(** C3, as the code has it: a top-level non-null reference to a name the
    configuration does not override maps to the unboxed primitive, flagged
    as such, when the name is a built-in scalar with a primitive form (Int,
    Float, Boolean); a common scalar maps to its wrapper type with the flag
    unset, whether or not its table entry names a primitive form (Long,
    Short, Byte, Char). *)
Theorem nonnull_primitive_for_builtin_only (name : string) :
  config.Scalars (config.TypeMappings cfg) !! name = None →
  ∃ r,
    MapType tm (Some (named name true)) = Ok r
    ∧ (∀ sc, BuiltinScalars !! name = Some sc → PrimitiveType sc ≠ "" →
         MapResult_JavaType r = PrimitiveType sc ∧ MapResult_IsPrimitive r = true)
    ∧ (∀ sc, BuiltinScalars !! name = None → CommonScalars !! name = Some sc →
         MapResult_JavaType r = JavaType sc ∧ MapResult_IsPrimitive r = false).
Proof.
  intros Hno. unfold MapType, named, mapTypeInternal.
  rewrite (mapNamedType_no_override name Hno). cbn [andb negb].
  change (builtinScalars tm) with BuiltinScalars.
  destruct (BuiltinScalars !! name) as [sc|] eqn:Hsc.
  - destruct (String.eqb_spec (PrimitiveType sc) "") as [Hp|Hp].
    + eexists. split; [done|]. split; [|done]. by intros ? [= <-] ?.
    + eexists. split; [done|]. split; [|done]. by intros ? [= <-] _.
  - destruct (CommonScalars !! name) as [sc|] eqn:Hcs.
    + eexists. split; [done|]. split; [done|]. by intros ? _ [= <-].
    + destruct (types !! name); eexists; (split; [done|]); by split.
Qed.

(** C2, as the code has it: a named reference is looked up in the configured
    mappings, then the built-in table, then the common table, then the types
    of the schema, and is passed through when none has it.  For a name the
    configuration overrides, a top-level nullable reference gets the type and
    imports of the override, inside Optional and with the import of Optional
    under the optional policy; a top-level non-null reference gets them when
    the name is not a built-in scalar with a primitive form. *)
Theorem mapNamedType_order (name : string) :
  mapNamedType tm name =
    match config.Scalars (config.TypeMappings cfg) !! name with
    | Some m =>
        Ok (mkMapResult (config.ScalarMapping_JavaType m)
              (config.ScalarMapping_Imports m) false false false "")
    | None =>
    match BuiltinScalars !! name with
    | Some scalar => Ok (mkMapResult (JavaType scalar) (Imports scalar) false false false "")
    | None =>
    match CommonScalars !! name with
    | Some scalar => Ok (mkMapResult (JavaType scalar) (Imports scalar) false false false "")
    | None =>
    match types !! name with
    | Some typeDef => Ok (mkMapResult (getJavaTypeName tm typeDef) [] false false false "")
    | None => Ok (mkMapResult name [] false false false "")
    end end end end
  ∧ (∀ m, config.Scalars (config.TypeMappings cfg) !! name = Some m →
       (∃ r, MapType tm (Some (named name false)) = Ok r
             ∧ MapResult_JavaType r =
                 (if String.eqb (policy cfg) config.NullableOptional
                  then "Optional<" +:+ BoxType (config.ScalarMapping_JavaType m) +:+ ">"
                  else config.ScalarMapping_JavaType m)
             ∧ MapResult_Imports r =
                 (if String.eqb (policy cfg) config.NullableOptional
                  then config.ScalarMapping_Imports m ++ ["java.util.Optional"]
                  else config.ScalarMapping_Imports m))
       ∧ ((∀ sc, BuiltinScalars !! name = Some sc → PrimitiveType sc = "") →
          ∃ r, MapType tm (Some (named name true)) = Ok r
               ∧ MapResult_JavaType r = config.ScalarMapping_JavaType m
               ∧ MapResult_Imports r = config.ScalarMapping_Imports m)).
Proof.
  split.
  - destruct (config.Scalars (config.TypeMappings cfg) !! name) as [m|] eqn:Hm.
    + by apply mapNamedType_override.
    + by apply mapNamedType_no_override.
  - intros m Hm. unfold MapType, named, mapTypeInternal.
    rewrite (mapNamedType_override name m Hm). cbn [andb negb]. split.
    + rewrite applyNullability_not_primitive by done.
      destruct (String.eqb (policy cfg) config.NullableOptional); eexists; by repeat split.
    + intros Hnoprim. change (builtinScalars tm) with BuiltinScalars.
      destruct (BuiltinScalars !! name) as [sc|] eqn:Hsc.
      * rewrite (Hnoprim sc eq_refl). cbn. eexists; by repeat split.
      * eexists; by repeat split.
Qed.

End mapper.

Section mapper_examples.
Import typemap.



(** C3 as stated fails: a non-null Long stays the wrapper type *)
Lemma nonnull_Long_not_primitive :
  ∃ r, MapType (SetSchemaTypes (NewTypeMapper config.DefaultConfig) ∅)
         (Some (named "Long" true)) = Ok r
       ∧ CommonScalars !! "Long" = Some (mkScalarInfo "Long" "long" [])
       ∧ ¬ (MapResult_JavaType r = "long" ∧ MapResult_IsPrimitive r = true).
Proof.
  eexists. split; [by vm_compute|]. split; [by vm_compute|].
  cbn. by intros [[=] _].
Qed.

Lemma nonnull_primitive_for_builtin_only_witness :
  ∃ r,
    MapType (SetSchemaTypes (NewTypeMapper config.DefaultConfig) ∅)
      (Some (named "Int" true)) = Ok r
    ∧ (∀ sc, BuiltinScalars !! "Int" = Some sc → PrimitiveType sc ≠ "" →
         MapResult_JavaType r = PrimitiveType sc ∧ MapResult_IsPrimitive r = true)
    ∧ (∀ sc, BuiltinScalars !! "Int" = None → CommonScalars !! "Int" = Some sc →
         MapResult_JavaType r = JavaType sc ∧ MapResult_IsPrimitive r = false).
Proof.
  apply (nonnull_primitive_for_builtin_only config.DefaultConfig ∅ "Int").
  by vm_compute.
Defined.

(** C2 as stated fails: under the optional policy the override is wrapped *)
Lemma override_wrapped_in_Optional :
  config.Scalars (config.TypeMappings optional_config) !! "DateTime"
    = Some (config.mkScalarMapping "java.time.LocalDateTime" ["java.time.LocalDateTime"])
  ∧ ∃ r, MapType (SetSchemaTypes (NewTypeMapper optional_config) ∅)
           (Some (named "DateTime" false)) = Ok r
         ∧ MapResult_JavaType r = "Optional<java.time.LocalDateTime>"
         ∧ MapResult_Imports r = ["java.time.LocalDateTime"; "java.util.Optional"]
         ∧ ¬ (MapResult_JavaType r = "java.time.LocalDateTime"
              ∧ MapResult_Imports r = ["java.time.LocalDateTime"]).
Proof.
  split; [by vm_compute|]. eexists. split; [by vm_compute|].
  cbn. repeat split; try done. by intros [[=] _].
Qed.

(** an overridden Int that is non-null is mapped to the primitive all the same *)
Example nonnull_Int_override_lost :
  MapResult_JavaType <$>
    (match MapType (SetSchemaTypes (NewTypeMapper int_override_config) ∅)
             (Some (named "Int" true)) with Ok r => Some r | Err _ => None end)
  = Some "int".
Proof. by vm_compute. Qed.

End mapper_examples.

(** ** The generators and the orchestrator *)

Section generators.
Import generator.

Lemma NewFieldContext_total (tc : TypeContext) (field : parser.FieldDef) :
  ∃ fc, NewFieldContext tc field = Ok fc.
Proof.
  unfold NewFieldContext.
  destruct (MapFieldType_total (TypeMapper (tc_Context tc)) field) as [r ->].
  simpl. eauto.
Qed.

Lemma class_fields_total (tc : TypeContext) (fields : list parser.FieldDef)
    (sb : string) (imports : ImportManager) (fcs : list FieldContext) :
  ∃ out, class_fields tc fields sb imports fcs = Ok out.
Proof.
  revert sb imports fcs.
  induction fields as [|field rest IH]; intros sb imports fcs; simpl; [eauto|].
  destruct (NewFieldContext_total tc field) as [fc ->].
  destruct (FieldContext_ShouldSkip fc); [apply IH|].
  destruct (GenerateField fc imports). apply IH.
Qed.

Lemma GenerateInterfaceMethod_total (tc : TypeContext) (field : parser.FieldDef)
    (imports : ImportManager) :
  ∃ out, GenerateInterfaceMethod tc field imports = Ok out.
Proof.
  unfold GenerateInterfaceMethod.
  destruct (NewFieldContext_total tc field) as [fc ->]. simpl.
  destruct (FieldContext_ShouldSkip fc); eauto.
Qed.

Lemma interface_methods_total (tc : TypeContext) (fields : list parser.FieldDef)
    (sb : string) (imports : ImportManager) :
  ∃ out, interface_methods tc fields sb imports = Ok out.
Proof.
  revert sb imports.
  induction fields as [|field rest IH]; intros sb imports; simpl; [eauto|].
  destruct (GenerateInterfaceMethod_total tc field imports) as [[code imports'] ->].
  apply IH.
Qed.

Lemma append_nonempty_r (a b : string) : b ≠ "" → a +:+ b ≠ "".
Proof.
  intros Hb. destruct a as [|c a]; [done|]. by rewrite append_cons.
Qed.

Lemma package_decl_length (ctx : Context) :
  ∃ n, String.length (package_decl ctx) = S n.
Proof. unfold package_decl. eexists. reflexivity. Qed.

(** a unit is never empty: it opens with the package declaration *)
Lemma splice_imports_nonempty (ctx : Context) (sb : string) (imports : ImportManager) :
  sb ≠ "" → splice_imports sb (String.length (package_decl ctx)) imports ≠ "".
Proof.
  intros Hsb. destruct (package_decl_length ctx) as [n ->].
  destruct sb as [|c sb]; [done|]. unfold splice_imports. cbn [strings.take].
  destruct (String.eqb _ ""); by rewrite ?append_cons.
Qed.

Lemma ClassGenerator_Generate_outcome (ctx : Context) (typeDef : parser.TypeDef) :
  if skipped (parser.Directives typeDef)
  then ClassGenerator_Generate ctx typeDef = Ok ""
  else ∃ content, ClassGenerator_Generate ctx typeDef = Ok content ∧ content ≠ "".
Proof.
  unfold ClassGenerator_Generate, NewTypeContext, TypeContext_ShouldSkip, skipped.
  cbn [TypeDef]. destruct (annotations.is_some _); [done|].
  destruct (generateClassAnnotations _ _) as [anns imports].
  match goal with |- context [class_fields ?tc ?fs ?sb ?im ?fcs] =>
    destruct (class_fields_total tc fs sb im fcs) as [[[sb' imports'] fcs'] ->] end.
  eexists. split; [done|].
  apply splice_imports_nonempty, append_nonempty_r, append_nonempty_r. done.
Qed.

Lemma InterfaceGenerator_Generate_outcome (ctx : Context) (typeDef : parser.TypeDef) :
  if skipped (parser.Directives typeDef)
  then InterfaceGenerator_Generate ctx typeDef = Ok ""
  else ∃ content, InterfaceGenerator_Generate ctx typeDef = Ok content ∧ content ≠ "".
Proof.
  unfold InterfaceGenerator_Generate, NewTypeContext, TypeContext_ShouldSkip, skipped.
  cbn [TypeDef]. destruct (annotations.is_some _); [done|].
  destruct (generateInterfaceAnnotations _ _) as [anns imports].
  match goal with |- context [interface_methods ?tc ?fs ?sb ?im] =>
    destruct (interface_methods_total tc fs sb im) as [[sb' imports'] ->] end.
  eexists. split; [done|].
  apply splice_imports_nonempty, append_nonempty_r, append_nonempty_r. done.
Qed.

Lemma EnumGenerator_Generate_outcome (ctx : Context) (typeDef : parser.TypeDef) :
  if skipped (parser.Directives typeDef)
  then EnumGenerator_Generate ctx typeDef = Ok ""
  else ∃ content, EnumGenerator_Generate ctx typeDef = Ok content ∧ content ≠ "".
Proof.
  unfold EnumGenerator_Generate, NewTypeContext, TypeContext_ShouldSkip, skipped.
  cbn [TypeDef]. destruct (annotations.is_some _); [done|].
  destruct (generateEnumAnnotations _ _) as [anns imports].
  destruct (enum_values _ _ _ _ _ _) as [sb' imports'].
  eexists. split; [done|].
  apply splice_imports_nonempty, append_nonempty_r, append_nonempty_r. done.
Qed.

Lemma UnionGenerator_Generate_outcome (ctx : Context) (typeDef : parser.TypeDef) :
  if skipped (parser.Directives typeDef)
  then UnionGenerator_Generate ctx typeDef = Ok ""
  else ∃ content, UnionGenerator_Generate ctx typeDef = Ok content ∧ content ≠ "".
Proof.
  unfold UnionGenerator_Generate, NewTypeContext, TypeContext_ShouldSkip, skipped.
  cbn [TypeDef]. destruct (annotations.is_some _); [done|].
  eexists. split; [done|].
  do 6 apply append_nonempty_r. done.
Qed.

Lemma generateType_outcome (g : Generator) (ctx : Context) (typeDef : parser.TypeDef) :
  if yields_unit typeDef
  then ∃ content,
         content ≠ ""
         ∧ generateType g ctx typeDef =
             Ok (Some {| FileName := GetTypeName (ctx_NamingHelper ctx) typeDef +:+ ".java";
                         Content := content;
                         file_TypeDef := typeDef |})
  else generateType g ctx typeDef = Ok None.
Proof.
  unfold yields_unit, generateType.
  pose proof (ClassGenerator_Generate_outcome ctx typeDef) as Hc.
  pose proof (InterfaceGenerator_Generate_outcome ctx typeDef) as Hi.
  pose proof (EnumGenerator_Generate_outcome ctx typeDef) as He.
  pose proof (UnionGenerator_Generate_outcome ctx typeDef) as Hu.
  destruct (parser.Kind typeDef), (skipped (parser.Directives typeDef));
    cbn [negb]; try done;
    first [ by rewrite Hc | by rewrite Hi | by rewrite He | by rewrite Hu | idtac ].
  all: first [ destruct Hc as (content & -> & Hne)
             | destruct Hi as (content & -> & Hne)
             | destruct He as (content & -> & Hne)
             | destruct Hu as (content & -> & Hne) ].
  all: exists content; split; [done|];
       destruct (String.eqb_spec content ""); done.
Qed.

(** the loop keeps going after a failure: every type is generated, the
    files and the errors are gathered apart *)
Lemma generate_loop_collects (gen : parser.TypeDef → result (option GeneratedFile))
    (types : list parser.TypeDef) (files : list GeneratedFile) (errs : list error) :
  generate_loop gen types files errs =
    (files ++ omap (λ typeDef, ok_file (gen typeDef)) types,
     errs ++ omap (λ typeDef, failure (gen typeDef)) types).
Proof.
  revert files errs.
  induction types as [|typeDef rest IH]; intros files errs; cbn [generate_loop].
  - by rewrite !app_nil_r.
  - destruct (gen typeDef) as [[file|]|err] eqn:Hgen; rewrite IH; csimpl;
      rewrite Hgen; cbn [ok_file failure]; by rewrite <- ?app_assoc.
Qed.

End generators.

Section orchestrator.
Import generator.

Lemma generate_loop_real (g : Generator) (ctx : Context) (types : list parser.TypeDef) :
  ∃ files,
    generate_loop (generateType g ctx) types [] [] = (files, [])
    ∧ file_TypeDef <$> files = filter (λ typeDef, yields_unit typeDef = true) types
    ∧ Forall (λ file, Content file ≠ "") files.
Proof.
  rewrite generate_loop_collects. cbn [app].
  induction types as [|typeDef rest (files & Heq & Htypes & Hcontent)]; csimpl.
  - exists []. by repeat split.
  - pose proof (generateType_outcome g ctx typeDef) as Hout.
    injection Heq as Hfiles Herrs. rewrite Hfiles, Herrs.
    rewrite filter_cons.
    destruct (yields_unit typeDef).
    + destruct Hout as (content & Hne & ->). cbn [ok_file failure].
      rewrite decide_True by done. eexists. split; [done|]. split.
      * csimpl. by rewrite Htypes.
      * by constructor.
    + rewrite Hout. cbn [ok_file failure]. rewrite decide_False by done.
      exists files. by repeat split.
Qed.

(** In the code as it stands no type reference makes the mapper fail, so no
    type fails to generate.  A run yields one unit for every type that is
    not a scalar and not skipped, each with a text, and collects no error;
    its loop gathers the files and the errors of the per-type calls apart
    and stops at neither. *)
Theorem Generate_never_fails (g : Generator) (schema : parser.Schema) :
  (∀ (m : typemap.TypeMapper) (typeRef : option parser.TypeRef),
     ∃ r, typemap.MapType m typeRef = Ok r)
  ∧ Errors (GenerateWithResult g schema) = []
  ∧ (Generate g schema).2 = None
  ∧ (Generate g schema).1 = Files (GenerateWithResult g schema)
  ∧ file_TypeDef <$> Files (GenerateWithResult g schema) =
      filter (λ typeDef, yields_unit typeDef = true) (schema_types schema)
  ∧ Forall (λ file, Content file ≠ "") (Files (GenerateWithResult g schema))
  ∧ (∀ gen types,
       generate_loop gen types [] [] =
         (omap (λ typeDef, ok_file (gen typeDef)) types,
          omap (λ typeDef, failure (gen typeDef)) types)).
Proof.
  split; [apply MapType_total|].
  unfold GenerateWithResult, Generate.
  destruct (generate_loop_real g (NewContext g schema) (schema_types schema))
    as (files & -> & Htypes & Hcontent).
  cbn. repeat split; try done.
  intros gen types. by rewrite generate_loop_collects.
Qed.

End orchestrator.

Section isolation.
Import generator.


End isolation.


(** a reference with neither a name nor an element raises no mapping error:
    with one valid type and one type of such a reference the run yields two
    units and no error *)
Lemma malformed_reference_still_generates :
  let run := generator.GenerateWithResult config.DefaultConfig one_malformed_schema in
  length (generator.Files run) = 2
  ∧ length (generator.Errors run) = 0
  ∧ ¬ (length (generator.Files run) = 1 ∧ length (generator.Errors run) = 1).
Proof. vm_compute. repeat split; [done..|]. by intros [[=] _]. Qed.

(** ** Skipped types and fields *)

Section skip.
Import generator.

Lemma class_fields_kept (tc : TypeContext) (fields : list parser.FieldDef)
    (sb : string) (imports : ImportManager) (fcs : list FieldContext) :
  class_fields tc fields sb imports fcs =
    Ok (write_fields (kept tc fields) sb imports, fcs ++ kept tc fields).
Proof.
  revert sb imports fcs. unfold kept, write_fields.
  induction fields as [|field rest IH]; intros sb imports fcs; csimpl.
  - by rewrite app_nil_r.
  - destruct (NewFieldContext_total tc field) as [fc ->].
    destruct (FieldContext_ShouldSkip fc); [apply IH|].
    csimpl. destruct (GenerateField fc imports) as [code imports'].
    rewrite IH. by rewrite <- app_assoc.
Qed.

Lemma NewFieldContext_field (tc : TypeContext) (field : parser.FieldDef)
    (fc : FieldContext) :
  NewFieldContext tc field = Ok fc → Field fc = field ∧ fc_TypeContext fc = tc.
Proof.
  unfold NewFieldContext.
  destruct (typemap.MapFieldType _ field); simpl; [|done]. by intros [= <-].
Qed.

Lemma kept_not_skipped (tc : TypeContext) (fields : list parser.FieldDef) :
  Forall (λ fc, fc_TypeContext fc = tc
                ∧ Field fc ∈ fields
                ∧ skipped (parser.Field_Directives (Field fc)) = false)
    (kept tc fields).
Proof.
  apply Forall_forall. intros fc (field & Hin & Hfc)%list_elem_of_omap.
  destruct (NewFieldContext tc field) as [fc'|] eqn:Hnew; [|done].
  apply NewFieldContext_field in Hnew as [Hfield Htc].
  destruct (FieldContext_ShouldSkip fc') eqn:Hskip; [done|].
  injection Hfc as <-. rewrite Hfield. repeat split; [done..|].
  unfold FieldContext_ShouldSkip in Hskip. rewrite Hfield in Hskip.
  unfold skipped. by destruct (annotations.is_some _).
Qed.

Lemma kept_app_skipped (tc : TypeContext) (l1 l2 : list parser.FieldDef)
    (field : parser.FieldDef) :
  skipped (parser.Field_Directives field) = true →
  kept tc (l1 ++ field :: l2) = kept tc (l1 ++ l2).
Proof.
  intros Hskip. unfold kept. rewrite !omap_app. f_equal. csimpl.
  destruct (NewFieldContext tc field) as [fc|] eqn:Hnew; [|done].
  apply NewFieldContext_field in Hnew as [Hfield _].
  unfold FieldContext_ShouldSkip. rewrite Hfield.
  unfold skipped in Hskip. by rewrite Hskip.
Qed.

Lemma NewFieldContext_rebase (tc tc' : TypeContext) (field : parser.FieldDef) :
  tc_Context tc = tc_Context tc' →
  NewFieldContext tc' field =
    match NewFieldContext tc field with
    | Ok fc => Ok (rebase tc' fc)
    | Err err => Err err
    end.
Proof.
  intros Hctx. unfold NewFieldContext. rewrite <- Hctx.
  by destruct (typemap.MapFieldType _ field).
Qed.

Lemma FieldContext_ShouldSkip_rebase (tc' : TypeContext) (fc : FieldContext) :
  FieldContext_ShouldSkip (rebase tc' fc) = FieldContext_ShouldSkip fc.
Proof. done. Qed.

Lemma kept_rebase (tc tc' : TypeContext) (fields : list parser.FieldDef) :
  tc_Context tc = tc_Context tc' →
  kept tc' fields = rebase tc' <$> kept tc fields.
Proof.
  intros Hctx. unfold kept.
  induction fields as [|field rest IH]; csimpl; [done|].
  rewrite (NewFieldContext_rebase tc tc' field Hctx).
  destruct (NewFieldContext tc field) as [fc|]; [|done].
  rewrite FieldContext_ShouldSkip_rebase.
  destruct (FieldContext_ShouldSkip fc); [done|]. csimpl. by rewrite IH.
Qed.

Lemma GenerateField_rebase (tc' : TypeContext) (fc : FieldContext)
    (imports : ImportManager) :
  tc_Context (fc_TypeContext fc) = tc_Context tc' →
  GenerateField (rebase tc' fc) imports = GenerateField fc imports.
Proof.
  intros Hctx. unfold GenerateField, generateFieldAnnotations, GetVisibility.
  cbn [rebase fc_TypeContext Field FieldName JavaType fc_Imports IsNonNull].
  by rewrite Hctx.
Qed.

Lemma write_fields_rebase (tc tc' : TypeContext) (fcs : list FieldContext)
    (sb : string) (imports : ImportManager) :
  tc_Context tc = tc_Context tc' →
  Forall (λ fc, fc_TypeContext fc = tc) fcs →
  write_fields (rebase tc' <$> fcs) sb imports = write_fields fcs sb imports.
Proof.
  intros Hctx Hall. revert sb imports. unfold write_fields.
  induction Hall as [|fc fcs Hfc _ IH]; intros sb imports; csimpl; [done|].
  rewrite GenerateField_rebase by (by rewrite Hfc).
  destruct (GenerateField fc imports). apply IH.
Qed.

Lemma write_accessors_rebase (tc' : TypeContext) (fcs : list FieldContext)
    (sb : string) :
  Forall (λ fc, tc_Context (fc_TypeContext fc) = tc_Context tc') fcs →
  write_accessors sb (rebase tc' <$> fcs) = write_accessors sb fcs.
Proof.
  intros Hall. revert sb. unfold write_accessors.
  induction Hall as [|fc fcs Hfc _ IH]; intros sb; csimpl; [done|].
  rewrite IH. unfold GenerateGetter, GenerateSetter.
  cbn [rebase fc_TypeContext FieldName JavaType]. rewrite Hfc.
  done.
Qed.

(** the text of a class is a function of the fields it keeps *)
Lemma ClassGenerator_Generate_without (ctx : Context) (typeDef : parser.TypeDef)
    (l1 l2 : list parser.FieldDef) (field : parser.FieldDef) :
  parser.Fields typeDef = l1 ++ field :: l2 →
  skipped (parser.Field_Directives field) = true →
  ClassGenerator_Generate ctx typeDef =
    ClassGenerator_Generate ctx (with_Fields typeDef (l1 ++ l2)).
Proof.
  intros Hfields Hskip.
  unfold ClassGenerator_Generate, NewTypeContext.
  set (tc := mkTypeContext ctx typeDef _).
  set (tc' := mkTypeContext ctx (with_Fields _ _) _).
  change (TypeContext_ShouldSkip tc') with (TypeContext_ShouldSkip tc).
  destruct (TypeContext_ShouldSkip tc); [done|].
  change (generateClassAnnotations tc') with (generateClassAnnotations tc).
  destruct (generateClassAnnotations tc _) as [anns imports].
  rewrite !class_fields_kept, Hfields. cbn [with_Fields parser.Fields app].
  rewrite kept_app_skipped by done.
  rewrite (kept_rebase tc tc') by done.
  pose proof (kept_not_skipped tc (l1 ++ l2)) as Hkept.
  rewrite (write_fields_rebase tc tc');
    [|done|by eapply Forall_impl; [done|]; intros fc (-> & _)].
  cbn [with_Fields parser.Description parser.Interfaces].
  change (TypeName tc') with (TypeName tc).
  destruct (write_fields _ _ _) as [sb imports'].
  rewrite write_accessors_rebase, length_fmap; [done|].
  eapply Forall_impl; [done|]. by intros fc (-> & _).
Qed.

(** C6: a type that carries the skip directive makes each generator return
    the empty text without an error and [generateType] return no file, so no
    unit of a run comes from a skipped type; a field that carries the skip
    directive is not among the fields the class generator keeps, and the
    class text, with its declarations, getters and setters, is the text of
    the type without that field. *)
Theorem skip_directive_drops (g : Generator) (schema : parser.Schema) (ctx : Context)
    (typeDef : parser.TypeDef) (l1 l2 : list parser.FieldDef) (field : parser.FieldDef) :
  (skipped (parser.Directives typeDef) = true →
     ClassGenerator_Generate ctx typeDef = Ok ""
     ∧ InterfaceGenerator_Generate ctx typeDef = Ok ""
     ∧ EnumGenerator_Generate ctx typeDef = Ok ""
     ∧ UnionGenerator_Generate ctx typeDef = Ok ""
     ∧ generateType g ctx typeDef = Ok None)
  ∧ Forall (λ file, skipped (parser.Directives (file_TypeDef file)) = false)
      (Generate g schema).1
  ∧ (parser.Fields typeDef = l1 ++ field :: l2 →
     skipped (parser.Field_Directives field) = true →
     ClassGenerator_Generate ctx typeDef =
       ClassGenerator_Generate ctx (with_Fields typeDef (l1 ++ l2))
     ∧ Forall (λ fc, skipped (parser.Field_Directives (Field fc)) = false)
         (kept (NewTypeContext ctx typeDef).1 (parser.Fields typeDef))).
Proof.
  split; [|split].
  - intros Hskip.
    pose proof (ClassGenerator_Generate_outcome ctx typeDef) as Hc.
    pose proof (InterfaceGenerator_Generate_outcome ctx typeDef) as Hi.
    pose proof (EnumGenerator_Generate_outcome ctx typeDef) as He.
    pose proof (UnionGenerator_Generate_outcome ctx typeDef) as Hu.
    pose proof (generateType_outcome g ctx typeDef) as Hg.
    unfold yields_unit in Hg. rewrite Hskip in *.
    repeat split; try done. by destruct (parser.Kind typeDef).
  - unfold Generate.
    destruct (generate_loop_real g (NewContext g schema) (schema_types schema))
      as (files & -> & Htypes & _).
    cbn [fst].
    apply (Forall_fmap file_TypeDef
             (λ td, skipped (parser.Directives td) = false)).
    rewrite Htypes.
    apply Forall_forall. intros td [Hy _]%list_elem_of_filter.
    unfold yields_unit in Hy.
    destruct (parser.Kind td), (skipped (parser.Directives td)); done.
  - intros Hfields Hskip. split; [by apply (ClassGenerator_Generate_without _ _ _ _ field)|].
    eapply Forall_impl; [apply kept_not_skipped|]. by intros fc (_ & _ & ?).
Qed.

End skip.

Lemma skip_directive_drops_witness :
  generator.ClassGenerator_Generate default_context Internal = Ok ""
  ∧ generator.ClassGenerator_Generate default_context User =
      generator.ClassGenerator_Generate default_context
        (with_Fields User
           [ parser.mkFieldDef "id" "" (Some (parser.mkTypeRef "ID" None true)) [];
             parser.mkFieldDef "name" "" (Some (parser.mkTypeRef "String" None false)) [] ]).
Proof.
  split.
  - refine (proj1 (proj1 (skip_directive_drops config.DefaultConfig (parser.mkSchema ∅)
                            default_context Internal [] []
                            (parser.mkFieldDef "" "" None []))
                     _)).
    reflexivity.
  - refine (proj1 (proj2 (proj2 (skip_directive_drops config.DefaultConfig
                                  (parser.mkSchema ∅) default_context User
             [ parser.mkFieldDef "id" "" (Some (parser.mkTypeRef "ID" None true)) [] ]
             [ parser.mkFieldDef "name" "" (Some (parser.mkTypeRef "String" None false)) [] ]
             (parser.mkFieldDef "password" ""
                (Some (parser.mkTypeRef "String" None false)) [skip])))
                     _ _)); reflexivity.
Defined.

(** ** Enum values *)

(** the scenario of the specification: the skipped value is in the middle *)
Example enum_skip_in_the_middle :
  generator.EnumGenerator_Generate default_context
    (Status [ parser.mkEnumValueDef "ACTIVE" "" [];
              parser.mkEnumValueDef "PENDING" "" [skip];
              parser.mkEnumValueDef "INACTIVE" "" [] ])
  = Ok ("package com.example.model;" +:+ nl +:+ nl
        +:+ "public enum Status {" +:+ nl
        +:+ "    ACTIVE," +:+ nl
        +:+ "    INACTIVE;" +:+ nl
        +:+ "}" +:+ nl).
Proof. by vm_compute. Qed.

(** C1 fails on the code: when the declared-last value is skipped, the last
    value that is kept is followed by "," and nothing is followed by ";",
    because the loop compares the declared index with the declared length. *)
Theorem enum_trailing_skip_keeps_comma :
  generator.EnumGenerator_Generate default_context
    (Status [ parser.mkEnumValueDef "ACTIVE" "" [];
              parser.mkEnumValueDef "INACTIVE" "" [skip] ])
  = Ok ("package com.example.model;" +:+ nl +:+ nl
        +:+ "public enum Status {" +:+ nl
        +:+ "    ACTIVE," +:+ nl
        +:+ "}" +:+ nl).
Proof. by vm_compute. Qed.

(** ** The import manager *)

Section import_manager.
Import strings generator.

Lemma Add_well_kept (pkg : string) (m : ImportManager) (imp : string) :
  well_kept pkg m → well_kept pkg (Add m imp).
Proof.
  intros [Hpkg Hall]. unfold Add.
  destruct (String.eqb_spec imp "") as [|Hne]; [done|].
  destruct (HasPrefix imp "java.lang." && negb (Contains (drop 10 imp) "."))
    eqn:Hlang; [done|].
  destruct (isSamePackage m imp) eqn:Hsame; [done|].
  split; [done|]. cbn [imports].
  intros imp' [Heq%elem_of_singleton|Hin]%elem_of_union; [subst imp'|by apply Hall].
  split; [done|]. split; [done|]. intros Hpkgne.
  unfold isSamePackage in Hsame. rewrite Hpkg in Hsame.
  destruct (String.eqb_spec pkg ""); [done|].
  unfold import_package. destruct (LastIndex imp "."); [|done].
  cbn. intros [= Heq]. rewrite Heq, String.eqb_refl in Hsame. done.
Qed.

Lemma AddAll_well_kept (pkg : string) (m : ImportManager) (imps : list string) :
  well_kept pkg m → well_kept pkg (AddAll m imps).
Proof.
  unfold AddAll. revert m.
  induction imps as [|imp imps IH]; intros m Hm; cbn [fold_left]; [done|].
  by apply IH, Add_well_kept.
Qed.

Lemma run_well_kept (pkg : string) (calls : list call) :
  well_kept pkg (run (NewImportManager pkg) calls).
Proof.
  unfold run.
  assert (Hinit : well_kept pkg (NewImportManager pkg)).
  { split; [done|]. intros imp Hin. by apply elem_of_empty in Hin. }
  revert Hinit. generalize (NewImportManager pkg).
  induction calls as [|c calls IH]; intros m Hm; cbn [fold_left]; [done|].
  apply IH. destruct c; [by apply Add_well_kept | by apply AddAll_well_kept].
Qed.

(** *** Sorting *)

Lemma GetSorted_spec (m : ImportManager) :
  Sorted String.le (GetSorted m)
  ∧ NoDup (GetSorted m)
  ∧ ∀ imp, imp ∈ GetSorted m ↔ imp ∈ imports m.
Proof.
  unfold GetSorted.
  pose proof (merge_sort_Permutation String.le (elements (imports m))) as Hperm.
  split; [apply (Sorted_merge_sort String.le)|]. split.
  - rewrite Hperm. apply NoDup_elements.
  - intros imp. rewrite Hperm. apply elem_of_elements.
Qed.

(** *** Grouping *)

Lemma group_loop_concat (sorted : list string) (groups : list (list string))
    (currentGroup : list string) (currentPrefix : string) :
  concat (group_loop sorted groups currentGroup currentPrefix).1
    ++ (group_loop sorted groups currentGroup currentPrefix).2
  = concat groups ++ currentGroup ++ sorted.
Proof.
  revert groups currentGroup currentPrefix.
  induction sorted as [|imp rest IH]; intros groups cg cp; cbn [group_loop fst snd].
  - by rewrite app_nil_r.
  - destruct (negb (String.eqb cp "") && negb (String.eqb (getImportPrefix imp) cp)).
    + rewrite IH. destruct cg as [|x cg]; cbn [length Nat.ltb Nat.leb app].
      * done.
      * rewrite concat_app. cbn. rewrite app_nil_r. by rewrite <- !app_assoc.
    + rewrite IH. by rewrite <- !app_assoc.
Qed.

Lemma GetGrouped_concat (m : ImportManager) :
  concat (GetGrouped m) = GetSorted m.
Proof.
  unfold GetGrouped. destruct (GetSorted m) as [|imp rest] eqn:Hsorted; [done|].
  pose proof (group_loop_concat (imp :: rest) [] [] "") as Hconcat.
  destruct (group_loop (imp :: rest) [] [] "") as [groups cg].
  cbn [fst snd concat app] in Hconcat. rewrite <- Hconcat.
  destruct cg as [|x cg]; cbn [length Nat.ltb Nat.leb].
  - by rewrite app_nil_r.
  - rewrite concat_app. cbn. by rewrite app_nil_r.
Qed.

End import_manager.

Section import_groups.
Import strings generator.

Lemma SplitN_nonempty (s : string) (sep : ascii) (n : nat) :
  SplitN s sep (S n) ≠ [].
Proof.
  destruct n as [|n]; [done|].
  induction s as [|c s IH]; [done|]. cbn [SplitN] in *.
  destruct (Ascii.eqb c sep); [done|].
  by destruct ((fix go (t : string) : list string := _) s).
Qed.

Lemma getImportPrefix_nonempty (imp : string) :
  imp ≠ "" → getImportPrefix imp ≠ "".
Proof.
  destruct imp as [|c r]; [done|]. intros _. unfold getImportPrefix.
  change (SplitN (String c r) "." 3) with
    (if Ascii.eqb c "." then EmptyString :: SplitN r "." 2
     else match SplitN r "." 3 with
          | p :: ps => String c p :: ps
          | [] => [String c EmptyString]
          end).
  destruct (Ascii.eqb c ".").
  - pose proof (SplitN_nonempty r "." 1) as Hne.
    destruct (SplitN r "." 2) as [|p1 ps]; [done|]. by apply append_nonempty_r.
  - destruct (SplitN r "." 3) as [|p [|p1 ps]]; done.
Qed.

Lemma group_loop_uniform (sorted : list string) (groups : list (list string))
    (currentGroup : list string) (currentPrefix : string) :
  Forall (λ imp, imp ≠ "") sorted →
  Forall uniform groups →
  (currentGroup = [] ∧ currentPrefix = "")
  ∨ (currentGroup ≠ [] ∧ currentPrefix ≠ ""
     ∧ Forall (λ imp, getImportPrefix imp = currentPrefix) currentGroup) →
  let out := group_loop sorted groups currentGroup currentPrefix in
  Forall uniform out.1 ∧ (out.2 = [] ∨ uniform out.2).
Proof.
  intros Hsorted. revert groups currentGroup currentPrefix.
  induction Hsorted as [|imp rest Himp _ IH]; intros groups cg cp Hgroups Hcur;
    cbn [group_loop].
  - cbn. split; [done|]. destruct Hcur as [[-> _]|(Hne & _ & Hall)]; [by left|].
    right. split; [done|]. by exists cp.
  - pose proof (getImportPrefix_nonempty imp Himp) as Hp.
    destruct (String.eqb_spec cp "") as [->|Hcp]; cbn [negb andb].
    + destruct Hcur as [[-> _]|(_ & ? & _)]; [|done].
      apply IH; [done|]. right. split; [done|]. split; [done|]. by repeat constructor.
    + destruct Hcur as [[_ ?]|(Hne & _ & Hall)]; [done|].
      destruct (String.eqb_spec (getImportPrefix imp) cp) as [Heq|Hneq]; cbn [negb].
      * apply IH; [done|]. right. split; [by destruct cg|]. split; [done|].
        rewrite Heq. apply Forall_app. split; [done|]. by repeat constructor.
      * destruct cg as [|x cg]; [done|]. cbn [length Nat.ltb Nat.leb app].
        apply IH.
        -- apply Forall_app. split; [done|]. constructor; [|done].
           split; [done|]. by exists cp.
        -- right. split; [done|]. split; [done|]. by repeat constructor.
Qed.

Lemma GetGrouped_uniform (m : ImportManager) :
  "" ∉ imports m → Forall uniform (GetGrouped m).
Proof.
  intros Hempty. unfold GetGrouped.
  destruct (GetSorted m) as [|imp rest] eqn:Hsorted; [done|].
  assert (Hall : Forall (λ imp, imp ≠ "") (imp :: rest)).
  { rewrite <- Hsorted. apply Forall_forall. intros x Hx ->.
    by apply (proj2 (proj2 (GetSorted_spec m))) in Hx. }
  destruct (group_loop_uniform (imp :: rest) [] [] "" Hall) as [Hgroups Hlast];
    [done | by left |].
  destruct (group_loop (imp :: rest) [] [] "") as [groups cg]. cbn [fst snd] in *.
  destruct cg as [|x cg]; cbn [length Nat.ltb Nat.leb]; [done|].
  apply Forall_app. split; [done|]. constructor; [|done]. by destruct Hlast.
Qed.

(** *** The text of the import block *)

Lemma write_lines (group : list string) (sb : string) :
  fold_left (λ sb imp, sb +:+ "import " +:+ imp +:+ ";" +:+ nl) group sb
  = sb +:+ foldr (λ imp text, import_line imp +:+ text) "" group.
Proof.
  revert sb. induction group as [|imp group IH]; intros sb; cbn [fold_left foldr].
  - by rewrite append_empty_r.
  - rewrite IH. unfold import_line. by rewrite !append_assoc.
Qed.

Lemma write_groups (n k : nat) (groups : list (list string)) (sb : string) :
  groups ≠ [] →
  n = (k + length groups)%nat →
  fold_left (λ sb (ig : nat * list string), sb +:+ write_group n ig.1 ig.2)
    (imap (λ i g, ((k + i)%nat, g)) groups) sb
  = sb +:+ import_block groups.
Proof.
  revert k sb. induction groups as [|g [|g' rest] IH]; intros k sb Hne Hn; [done|..].
  - cbn [imap fold_left fst snd]. unfold write_group, import_block.
    rewrite write_lines. cbn [fmap list_fmap Join length] in *.
    replace (Z.of_nat (k + 0) <? Z.of_nat n - 1)%Z with false
      by (symmetry; apply Z.ltb_ge; lia).
    by rewrite append_nil_l, append_empty_r.
  - rewrite imap_cons. cbn [fold_left fst snd].
    rewrite (imap_ext _ (λ i g0, ((S k + i)%nat, g0)))
      by (intros; cbn; f_equal; lia).
    rewrite IH; [|done|cbn [length] in *; lia].
    unfold write_group at 1. rewrite write_lines.
    replace (Z.of_nat (k + 0) <? Z.of_nat n - 1)%Z with true
      by (symmetry; apply Z.ltb_lt; cbn [length] in *; lia).
    unfold import_block. cbn [fmap list_fmap Join].
    by rewrite append_nil_l, !append_assoc.
Qed.

Lemma GenerateImportBlock_text (m : ImportManager) :
  GenerateImportBlock m = import_block (GetGrouped m).
Proof.
  unfold GenerateImportBlock. destruct (GetGrouped m) as [|g groups] eqn:Hg; [done|].
  rewrite <- Hg.
  rewrite (write_groups (length (GetGrouped m)) 0); [done | by rewrite Hg | done].
Qed.

End import_groups.

(** C10: after any sequence of [Add] and [AddAll] calls the set holds no
    direct java.lang import and, when an output package is configured, no
    import of that package; the import block is the text of the groups, which
    list the imports of the set once each in the byte order of their names,
    every group being a run of imports of one prefix. *)
Theorem import_block_invariant (pkg : string) (calls : list call) :
  let m := run (generator.NewImportManager pkg) calls in
  (∀ imp, imp ∈ generator.imports m →
     java_lang_direct imp = false ∧ (pkg ≠ "" → import_package imp ≠ Some pkg))
  ∧ generator.GenerateImportBlock m = import_block (generator.GetGrouped m)
  ∧ concat (generator.GetGrouped m) = generator.GetSorted m
  ∧ Sorted String.le (generator.GetSorted m)
  ∧ NoDup (generator.GetSorted m)
  ∧ (∀ imp, imp ∈ generator.GetSorted m ↔ imp ∈ generator.imports m)
  ∧ Forall uniform (generator.GetGrouped m).
Proof.
  intros m. destruct (run_well_kept pkg calls) as [_ Hall]. fold m in Hall.
  destruct (GetSorted_spec m) as (Hsorted & Hnodup & Helem).
  split; [|split; [|split; [|split; [|split; [|split]]]]]; try done.
  - intros imp Hin. by destruct (Hall imp Hin) as (_ & ? & ?).
  - apply GenerateImportBlock_text.
  - apply GetGrouped_concat.
  - apply GetGrouped_uniform. intros Hin. by destruct (Hall "" Hin) as [? _].
Qed.

Lemma import_block_invariant_witness :
  "com.example.model" ≠ ""
  ∧ ∀ imp,
      imp ∈ generator.imports
              (run (generator.NewImportManager "com.example.model") sample_calls) →
      java_lang_direct imp = false ∧ import_package imp ≠ Some "com.example.model".
Proof.
  split; [done|]. intros imp Hin.
  destruct (import_block_invariant "com.example.model" sample_calls) as [Hinv _].
  destruct (Hinv imp Hin) as [Hlang Hpkg]. split; [exact Hlang|].
  apply Hpkg. done.
Defined.

Example import_block_sample :
  generator.GenerateImportBlock
    (run (generator.NewImportManager "com.example.model") sample_calls)
  = "import jakarta.validation.constraints.NotNull;" +:+ nl
    +:+ nl
    +:+ "import java.util.ArrayList;" +:+ nl
    +:+ "import java.util.List;" +:+ nl.
Proof. by vm_compute. Qed.

Lemma mapNamedType_order_witness :
  ∃ r,
    typemap.MapType (typemap.SetSchemaTypes (typemap.NewTypeMapper optional_config) ∅)
      (Some (named "DateTime" false)) = Ok r
    ∧ typemap.MapResult_JavaType r =
        (if String.eqb (policy optional_config) config.NullableOptional
         then "Optional<" +:+ typemap.BoxType "java.time.LocalDateTime" +:+ ">"
         else "java.time.LocalDateTime")
    ∧ typemap.MapResult_Imports r =
        (if String.eqb (policy optional_config) config.NullableOptional
         then ["java.time.LocalDateTime"] ++ ["java.util.Optional"]
         else ["java.time.LocalDateTime"]).
Proof.
  destruct (mapNamedType_order optional_config ∅ "DateTime") as [_ Hover].
  refine (proj1 (Hover (config.mkScalarMapping "java.time.LocalDateTime"
                          ["java.time.LocalDateTime"]) _)).
  by vm_compute.
Defined.

(** ** Boxing, collections and validation of references *)

Section boxing.
Import typemap.

Lemma PrimitiveToBoxed_values (t boxed : string) :
  PrimitiveToBoxed !! t = Some boxed →
  PrimitiveToBoxed !! boxed = None ∧ BoxedToPrimitive !! boxed = Some t.
Proof.
  intros H%elem_of_list_to_map_2.
  repeat (apply elem_of_cons in H as [?|H]; [simplify_eq; by vm_compute|]).
  by apply elem_of_nil in H.
Qed.

Lemma BoxedToPrimitive_values (t primitive : string) :
  BoxedToPrimitive !! t = Some primitive →
  BoxedToPrimitive !! primitive = None ∧ PrimitiveToBoxed !! primitive = Some t.
Proof.
  intros H%elem_of_list_to_map_2.
  repeat (apply elem_of_cons in H as [?|H]; [simplify_eq; by vm_compute|]).
  by apply elem_of_nil in H.
Qed.

(** X1: boxing never leaves a primitive type, whatever the type name, and
    boxing twice is boxing once. *)
Theorem BoxType_never_primitive (javaType : string) :
  IsPrimitive (BoxType javaType) = false
  ∧ BoxType (BoxType javaType) = BoxType javaType.
Proof.
  unfold IsPrimitive, BoxType.
  destruct (PrimitiveToBoxed !! javaType) as [boxed|] eqn:Ht.
  - destruct (PrimitiveToBoxed_values _ _ Ht) as [-> _]. done.
  - by rewrite Ht.
Qed.

(** X2: unboxing undoes boxing on the primitive types, and boxing undoes
    unboxing on the wrapper types. *)
Theorem Box_Unbox_round_trip (javaType : string) :
  (IsPrimitive javaType = true → UnboxType (BoxType javaType) = javaType)
  ∧ (IsBoxed javaType = true → BoxType (UnboxType javaType) = javaType).
Proof.
  unfold IsPrimitive, IsBoxed, BoxType, UnboxType. split.
  - destruct (PrimitiveToBoxed !! javaType) as [boxed|] eqn:Ht; [|done].
    intros _. by destruct (PrimitiveToBoxed_values _ _ Ht) as [_ ->].
  - destruct (BoxedToPrimitive !! javaType) as [primitive|] eqn:Ht; [|done].
    intros _. by destruct (BoxedToPrimitive_values _ _ Ht) as [_ ->].
Qed.

Lemma Box_Unbox_round_trip_witness :
  UnboxType (BoxType "int") = "int" ∧ BoxType (UnboxType "Character") = "Character".
Proof.
  split.
  - apply (Box_Unbox_round_trip "int"). reflexivity.
  - apply (Box_Unbox_round_trip "Character"). reflexivity.
Defined.

(** X3: whatever shape name is configured, the collection interface is one of
    List, Set, Collection and SortedSet, and a shape name the table does not
    know is treated as List. *)
Theorem GetCollectionInfo_fallback (collectionType : string) :
  Interface (GetCollectionInfo collectionType)
    ∈ ["List"; "Set"; "Collection"; "SortedSet"]
  ∧ (collectionType ∉ ["List"; "Set"; "Collection"; "SortedSet"; "LinkedList"] →
     GetCollectionInfo collectionType = GetCollectionInfo "List").
Proof.
  unfold GetCollectionInfo.
  destruct (CollectionTypes !! collectionType) as [info|] eqn:Hct.
  - apply elem_of_list_to_map_2 in Hct. split.
    + repeat (apply elem_of_cons in Hct as [?|Hct]; [simplify_eq; cbn; in_list|]).
      by apply elem_of_nil in Hct.
    + intros Hnot. exfalso. apply Hnot.
      repeat (apply elem_of_cons in Hct as [?|Hct]; [simplify_eq; in_list|]).
      by apply elem_of_nil in Hct.
  - split; [cbn; in_list|]. by intros _.
Qed.

Lemma GetCollectionInfo_fallback_witness :
  GetCollectionInfo "Vector" = GetCollectionInfo "List".
Proof.
  apply (GetCollectionInfo_fallback "Vector").
  intros Hin. repeat (apply elem_of_cons in Hin as [[=]|Hin]).
  by apply elem_of_nil in Hin.
Defined.

End boxing.

Section lists.
Import typemap.

Variable cfg : config.Config.
Variable types : gmap string parser.TypeDef.
Let tm : TypeMapper := SetSchemaTypes (NewTypeMapper cfg) types.

(** X4: a list reference always maps to a collection of the configured
    shape that is neither a primitive nor wrapped in Optional, at the top
    level and below it and under every nullability policy; when its element
    is a built-in scalar that the configuration does not override, the
    element type is the wrapper type, for a nullable element and for a
    non-null one. *)
Theorem list_elements_are_boxed (elem : parser.TypeRef) (nonNull topLevel : bool) :
  ∃ r,
    mapTypeInternal tm (list_of elem nonNull) topLevel = Ok r
    ∧ IsCollection r = true
    ∧ IsOptional r = false
    ∧ MapResult_IsPrimitive r = false
    ∧ MapResult_JavaType r =
        Interface (GetCollectionInfo (config.CollectionType (config.Java cfg)))
        +:+ "<" +:+ ElementType r +:+ ">"
    ∧ (∀ name elemNonNull sc,
         elem = named name elemNonNull →
         config.Scalars (config.TypeMappings cfg) !! name = None →
         BuiltinScalars !! name = Some sc →
         ElementType r = JavaType sc ∧ IsPrimitive (ElementType r) = false).
Proof.
  unfold list_of. cbn [mapTypeInternal].
  destruct (mapTypeInternal_total tm elem false) as [er Her]. rewrite Her.
  eexists. split; [done|].
  cbn [IsCollection IsOptional MapResult_IsPrimitive MapResult_JavaType ElementType].
  do 4 (split; [done|]).
  intros name elemNonNull sc -> Hno Hsc.
  destruct (BuiltinScalars_boxed name sc Hsc) as (Hprim & _).
  unfold named, tm in Her. cbn [mapTypeInternal andb] in Her.
  rewrite (mapNamedType_no_override cfg types name Hno), Hsc in Her.
  injection Her as <-. done.
Qed.

End lists.

Section validation.
Import typemap.

Variable tm : TypeMapper.

Lemma ValidateMapping_ref_innermost (typeRef : parser.TypeRef) :
  ValidateMapping_ref tm typeRef =
    ValidateMapping_ref tm (named (parser.NamedType typeRef) false).
Proof.
  revert typeRef. fix IH 1. intros [name [elem|] nonNull]; cbn.
  - apply IH.
  - reflexivity.
Qed.

(** X5: validation looks at the innermost named type only.  It reports an
    unknown type exactly when none of the four sources knows the name, the
    warning carries that name, and the mapper then passes the name through
    unchanged with no imports; nil validates. *)
Theorem ValidateMapping_matches_mapper (typeRef : parser.TypeRef) :
  let name := parser.NamedType typeRef in
  ValidateMapping tm None = None
  ∧ ValidateMapping tm (Some typeRef) = ValidateMapping tm (Some (named name false))
  ∧ (ValidateMapping tm (Some typeRef) = None ↔
       is_Some (builtinScalars tm !! name) ∨ is_Some (customScalars tm !! name)
       ∨ is_Some (CommonScalars !! name) ∨ is_Some (schemaTypes tm !! name))
  ∧ (ValidateMapping tm (Some typeRef) ≠ None →
       ValidateMapping tm (Some typeRef) =
         Some (TypeMappingError "unknown type, will use as-is" None name)
       ∧ mapNamedType tm name = Ok (mkMapResult name [] false false false "")).
Proof.
  intros name. split; [done|]. split; [apply ValidateMapping_ref_innermost|].
  cbn [ValidateMapping]. rewrite ValidateMapping_ref_innermost. fold name.
  unfold named, mapNamedType. cbn [ValidateMapping_ref].
  destruct (builtinScalars tm !! name) eqn:Hb;
    [split; [split; [intros _; eauto 10 | done] | by intros []]|].
  destruct (customScalars tm !! name) eqn:Hc;
    [split; [split; [intros _; eauto 10 | done] | by intros []]|].
  destruct (CommonScalars !! name) eqn:Hs;
    [split; [split; [intros _; eauto 10 | done] | by intros []]|].
  destruct (schemaTypes tm !! name) eqn:Ht;
    [split; [split; [intros _; eauto 10 | done] | by intros []]|].
  split; [split; [done|] | done].
  intros [H|[H|[H|H]]]; by destruct H as [? [=]].
Qed.

(** X6: without a javaType directive, a collection directive changes the
    shape of a list field and keeps its element type, and it is ignored on a
    field that is not a list. *)
Theorem collection_directive_reshapes_lists (field : parser.FieldDef)
    (override : parser.CollectionDirectiveInfo) :
  parser.ExtractJavaTypeDirective (parser.Field_Directives field) = None →
  parser.ExtractCollectionDirective (parser.Field_Directives field) = Some override →
  (∀ elem nonNull,
     parser.Field_Type field = Some (list_of elem nonNull) →
     ∃ plain r,
       MapType tm (parser.Field_Type field) = Ok plain
       ∧ MapFieldType tm field = Ok r
       ∧ IsCollection r = true
       ∧ ElementType r = ElementType plain
       ∧ MapResult_JavaType r =
           Interface (GetCollectionInfo (parser.Collection_Type override))
           +:+ "<" +:+ ElementType plain +:+ ">")
  ∧ (parser.Field_Type field = None
     ∨ (∃ name nonNull, parser.Field_Type field = Some (named name nonNull)) →
     MapFieldType tm field = MapType tm (parser.Field_Type field)).
Proof.
  intros Hjt Hco. unfold MapFieldType. rewrite Hjt, Hco. split.
  - intros elem nonNull ->. unfold list_of. cbn [MapType mapTypeInternal].
    destruct (mapTypeInternal_total tm elem false) as [er ->].
    eexists _, _. split; [done|]. cbn [bind IsCollection]. split; [done|].
    by cbn.
  - intros [->|(name & nonNull & ->)]; [done|].
    unfold named. cbn [MapType mapTypeInternal].
    destruct (mapNamedType_total tm name) as [r0 Hr0]. rewrite Hr0.
    assert (Hnc : IsCollection r0 = false).
    { unfold mapNamedType in Hr0. repeat case_match; by simplify_eq. }
    cbn [bind]. unfold applyNullability.
    repeat case_match; cbn [IsCollection] in *; simplify_eq; try done;
      congruence.
Qed.

End validation.

Section element_imports.
Import typemap.

Variable cfg : config.Config.
Variable types : gmap string parser.TypeDef.
Let tm : TypeMapper := SetSchemaTypes (NewTypeMapper cfg) types.

Lemma CommonScalars_cases (name : string) (sc : ScalarInfo) :
  CommonScalars !! name = Some sc →
  BuiltinScalars !! name = None
  ∧ CommonScalars !! JavaType sc
    = (if String.eqb name (JavaType sc) then Some sc else None).
Proof.
  intros H%elem_of_list_to_map_2.
  repeat (apply elem_of_cons in H as [?|H]; [simplify_eq; by vm_compute|]).
  by apply elem_of_nil in H.
Qed.

(** X24: on a list field with a collection directive the imports of the
    element are looked up again, under the Java name of the element.  With
    no configured scalars, the import of a common scalar is kept when the
    scalar is named like its Java type and is left out otherwise, while the
    same field without the directive carries it. *)
Theorem collection_directive_element_imports (field : parser.FieldDef)
    (override : parser.CollectionDirectiveInfo) (name : string) (sc : ScalarInfo)
    (nonNull elemNonNull : bool) :
  config.Scalars (config.TypeMappings cfg) = ∅ →
  parser.ExtractJavaTypeDirective (parser.Field_Directives field) = None →
  parser.ExtractCollectionDirective (parser.Field_Directives field) = Some override →
  parser.Field_Type field = Some (list_of (named name elemNonNull) nonNull) →
  CommonScalars !! name = Some sc →
  ∃ plain r,
    MapType tm (parser.Field_Type field) = Ok plain
    ∧ MapResult_Imports plain
      = Collection_Imports
          (GetCollectionInfo (config.CollectionType (config.Java cfg)))
        ++ Imports sc
    ∧ MapFieldType tm field = Ok r
    ∧ MapResult_Imports r
      = Collection_Imports (GetCollectionInfo (parser.Collection_Type override))
        ++ (if String.eqb name (JavaType sc) then Imports sc else []).
Proof.
  intros Hnone Hjt Hco Hty Hsc.
  destruct (CommonScalars_cases name sc Hsc) as (Hb & Hjava).
  assert (Hcustom : ∀ k, customScalars tm !! k = None).
  { intros k. unfold tm. cbn [SetSchemaTypes NewTypeMapper customScalars].
    by rewrite Hnone, fmap_empty, lookup_empty. }
  unfold MapFieldType. rewrite Hjt, Hco, Hty.
  unfold list_of, named. cbn [MapType mapTypeInternal andb].
  unfold mapNamedType. rewrite Hcustom.
  change (builtinScalars tm) with BuiltinScalars. rewrite Hb, Hsc.
  cbn [MapResult_IsPrimitive MapResult_JavaType MapResult_Imports bind IsCollection
       ElementType].
  eexists _, _. split; [done|]. split; [done|]. split; [done|].
  cbn [MapResult_Imports]. unfold getElementImports. rewrite Hcustom, Hjava.
  by destruct (String.eqb name (JavaType sc)).
Qed.

End element_imports.

(** ** More on naming *)

Section naming_more.
Import strings generator.

Lemma underscore_not_keyword (name : string) :
  IsJavaKeyword ("_" +:+ name) = false.
Proof.
  unfold IsJavaKeyword. apply bool_decide_eq_false.
  change ("_" +:+ name) with (String "_" name).
  intros H%elem_of_list_to_set.
  repeat (apply elem_of_cons in H as [H'|H]; [discriminate H'|]).
  by apply elem_of_nil in H.
Qed.

Lemma EscapeJavaKeyword_not_keyword (name : string) :
  IsJavaKeyword (EscapeJavaKeyword name) = false.
Proof.
  unfold EscapeJavaKeyword.
  destruct (IsJavaKeyword name) eqn:Hk; [apply underscore_not_keyword | done].
Qed.

(** X7: an escaped name is never a Java keyword, and escaping it again
    changes nothing. *)
Theorem EscapeJavaKeyword_idempotent (name : string) :
  IsJavaKeyword (EscapeJavaKeyword name) = false
  ∧ EscapeJavaKeyword (EscapeJavaKeyword name) = EscapeJavaKeyword name.
Proof.
  split; [apply EscapeJavaKeyword_not_keyword|].
  unfold EscapeJavaKeyword at 1. by rewrite EscapeJavaKeyword_not_keyword.
Qed.

(** X8: the name of a field in the generated code is never a Java keyword,
    whether it comes from the schema name or from a javaName directive. *)
Theorem field_name_not_keyword (tc : TypeContext) (field : parser.FieldDef)
    (fc : FieldContext) :
  NewFieldContext tc field = Ok fc →
  IsJavaKeyword (FieldName fc) = false
  ∧ FieldName fc =
      EscapeJavaKeyword (GetFieldName (ctx_NamingHelper (tc_Context tc)) field).
Proof.
  unfold NewFieldContext.
  destruct (typemap.MapFieldType _ field); cbn [bind]; [|done].
  intros [= <-]. cbn [FieldName]. split; [|done].
  apply EscapeJavaKeyword_not_keyword.
Qed.

Lemma unicode_ToUpper_ToLower (c : ascii) :
  unicode_ToUpper (unicode_ToLower c) = unicode_ToUpper c.
Proof. destruct c as [[] [] [] [] [] [] [] []]; reflexivity. Qed.

Lemma unicode_ToUpper_upper (c : ascii) :
  is_upper c = true → unicode_ToUpper (unicode_ToLower c) = c.
Proof. destruct c as [[] [] [] [] [] [] [] []]; simpl; done. Qed.

Lemma unicode_ToLower_not_upper (c : ascii) :
  is_upper c = false → unicode_ToLower c = c.
Proof. unfold unicode_ToLower. by intros ->. Qed.

Lemma is_upper_ToLower (c : ascii) : is_upper (unicode_ToLower c) = false.
Proof. destruct c as [[] [] [] [] [] [] [] []]; reflexivity. Qed.

Lemma is_upper_not_underscore (c : ascii) : is_upper c = true → Ascii.eqb c "_" = false.
Proof. destruct c as [[] [] [] [] [] [] [] []]; simpl; done. Qed.

Lemma Split_clean (s : string) (sep : ascii) :
  Contains s sep = false → Split s sep = [s].
Proof.
  induction s as [|c s IH]; [done|]. cbn [Contains Split].
  intros [Hc Hs]%orb_false_iff. by rewrite Hc, IH.
Qed.

Lemma Split_cons_other (c : ascii) (s : string) (sep : ascii) (p : string)
    (ps : list string) :
  Ascii.eqb c sep = false → Split s sep = p :: ps →
  Split (String c s) sep = String c p :: ps.
Proof. intros Hc Hs. cbn [Split]. by rewrite Hc, Hs. Qed.

Lemma Split_cons_sep (s : string) (sep : ascii) :
  Split (String sep s) sep = EmptyString :: Split s sep.
Proof. cbn [Split]. by rewrite Ascii.eqb_refl. Qed.

Lemma ToLower_no_upper (s : string) :
  no_upper s = true → ToLower s = s.
Proof.
  induction s as [|c s IH]; [done|]. cbn [no_upper ToLower].
  intros [Hc Hs]%andb_true_iff. apply negb_true_iff in Hc.
  by rewrite unicode_ToLower_not_upper, IH.
Qed.

(** what [toSnakeCase] writes after the first byte, split at the underscores
    and put together again as [toCamelCase] does *)
Lemma snake_then_camel (t : string) :
  Contains t "_" = false →
  ∃ h segs,
    Split (toSnakeCase_loop false t) "_" = h :: segs
    ∧ no_upper h = true
    ∧ h +:+ camel_tail segs = t.
Proof.
  induction t as [|c t IH]; intros Hclean.
  - by exists EmptyString, [].
  - cbn [Contains] in Hclean. apply orb_false_iff in Hclean as [Hc Ht].
    destruct (IH Ht) as (h & segs & Hsplit & Hh & Heq).
    cbn [toSnakeCase_loop]. destruct (is_upper c) eqn:Hup.
    + exists EmptyString, (String (unicode_ToLower c) h :: segs).
      rewrite append_cons, append_nil_l, Split_cons_sep.
      rewrite (Split_cons_other _ _ _ h segs);
        [|by rewrite unicode_ToLower_underscore, is_upper_not_underscore|done].
      split; [done|]. split; [done|].
      cbn [camel_tail fold_right]. fold (camel_tail segs).
      change (String.eqb (String _ _) "") with false. cbv iota.
      cbn [ToLower capitalizeFirst].
      rewrite unicode_ToLower_idemp, unicode_ToUpper_upper by done.
      rewrite (ToLower_no_upper h Hh), append_nil_l, append_cons. by rewrite Heq.
    + exists (String c h), segs.
      rewrite (Split_cons_other _ _ _ h segs) by done.
      split; [done|]. split; [cbn [no_upper]; by rewrite Hup, Hh|].
      by rewrite append_cons, Heq.
Qed.

(** X9: an ASCII name without underscores that does not start with a
    capital survives the conversion to snake_case and back to camelCase. *)
Theorem camel_snake_camel (s : string) :
  ascii_only s = true →
  Contains s "_" = false →
  starts_upper s = false →
  toCamelCase (toSnakeCase s) = s.
Proof.
  destruct s as [|c t]; [done|]. intros _ Hclean Hup. cbn [starts_upper] in Hup.
  cbn [Contains] in Hclean. apply orb_false_iff in Hclean as [Hc Ht].
  destruct (snake_then_camel t Ht) as (h & segs & Hsplit & Hh & Heq).
  unfold toSnakeCase. change (String.eqb (String c t) "") with false. cbv iota.
  cbn [toSnakeCase_loop]. rewrite Hup.
  unfold toCamelCase. change (String.eqb (String c _) "") with false. cbv iota.
  rewrite (Split_cons_other _ _ _ h segs) by done.
  cbn [hd tail ToLower Contains]. rewrite Hc, orb_false_l.
  rewrite (unicode_ToLower_not_upper c Hup).
  destruct (Contains (toSnakeCase_loop false t) "_") eqn:Hu.
  - rewrite camel_fold, (ToLower_no_upper h Hh), append_cons. by rewrite Heq.
  - rewrite (Split_clean _ _ Hu) in Hsplit. injection Hsplit as <- <-.
    cbn [camel_tail fold_right] in Heq. rewrite append_empty_r in Heq.
    by rewrite Heq.
Qed.

Lemma camel_snake_camel_witness :
  ascii_only "userFirstName2" = true
  ∧ toSnakeCase "userFirstName2" = "user_first_name2"
  ∧ toCamelCase (toSnakeCase "userFirstName2") = "userFirstName2".
Proof.
  split; [reflexivity|]. split; [reflexivity|].
  apply camel_snake_camel; reflexivity.
Defined.

(** X10: on ASCII text PascalCase is camelCase with the first letter
    capitalized. *)
Theorem ToPascalCase_capitalizes_camel (s : string) :
  ascii_only s = true →
  ToPascalCase s = capitalizeFirst (toCamelCase s).
Proof.
  intros _. unfold ToPascalCase, toCamelCase.
  destruct s as [|c t]; [done|].
  change (String.eqb (String c t) "") with false. cbv iota.
  destruct (Contains (String c t) "_") eqn:Hu.
  - destruct (Split_pieces (String c t) "_") as (p & ps & -> & _).
    cbn [hd tail fold_left]. rewrite !camel_fold, append_nil_l.
    destruct p as [|x p].
    + change (String.eqb "" "") with true. cbv iota. cbn [ToLower].
      rewrite append_nil_l.
      assert (Hcap : ∀ parts, capitalizeFirst (camel_tail parts) = camel_tail parts).
      { induction parts as [|q qs IH]; [done|]. cbn [camel_tail fold_right].
        fold (camel_tail qs). destruct q as [|y q]; [by apply IH|].
        change (String.eqb (String y q) "") with false. cbv iota.
        cbn [ToLower capitalizeFirst]. rewrite append_cons. cbn [capitalizeFirst].
        f_equal. destruct y as [[] [] [] [] [] [] [] []]; reflexivity. }
      by rewrite Hcap.
    + change (String.eqb (String x p) "") with false. cbv iota.
      cbn [ToLower capitalizeFirst]. rewrite !append_cons. cbn [capitalizeFirst].
      by rewrite unicode_ToUpper_ToLower.
  - cbn [capitalizeFirst]. by rewrite unicode_ToUpper_ToLower.
Qed.

Lemma ToPascalCase_capitalizes_camel_witness :
  ascii_only "user_first_name" = true
  ∧ toCamelCase "user_first_name" = "userFirstName"
  ∧ ToPascalCase "user_first_name" = capitalizeFirst (toCamelCase "user_first_name").
Proof.
  split; [reflexivity|]. split; [reflexivity|].
  apply ToPascalCase_capitalizes_camel. reflexivity.
Defined.

Lemma toSnakeCase_loop_no_upper (first : bool) (s : string) :
  no_upper (toSnakeCase_loop first s) = true.
Proof.
  revert first. induction s as [|c s IH]; intros first; [done|].
  cbn [toSnakeCase_loop]. destruct (is_upper c) eqn:Hup.
  - destruct first; rewrite ?append_cons, ?append_nil_l; cbn [no_upper];
      by rewrite is_upper_ToLower, IH.
  - cbn [no_upper]. by rewrite Hup, IH.
Qed.

Lemma toSnakeCase_loop_fixed (first : bool) (s : string) :
  no_upper s = true → toSnakeCase_loop first s = s.
Proof.
  revert first. induction s as [|c s IH]; intros first; [done|].
  cbn [no_upper toSnakeCase_loop]. intros [Hc Hs]%andb_true_iff.
  apply negb_true_iff in Hc. by rewrite Hc, IH.
Qed.

Lemma is_ascii_ToLower (c : ascii) :
  is_ascii c = true → is_ascii (unicode_ToLower c) = true.
Proof. destruct c as [[] [] [] [] [] [] [] []]; simpl; done. Qed.

Lemma toSnakeCase_loop_ascii (first : bool) (s : string) :
  ascii_only s = true → ascii_only (toSnakeCase_loop first s) = true.
Proof.
  revert first. induction s as [|c s IH]; intros first; [done|].
  cbn [ascii_only toSnakeCase_loop]. intros [Hc Hs]%andb_true_iff.
  destruct (is_upper c).
  - destruct first; rewrite ?append_cons, ?append_nil_l; cbn [ascii_only];
      by rewrite is_ascii_ToLower, IH.
  - cbn [ascii_only]. by rewrite Hc, IH.
Qed.

(** X21: on ASCII text a name in snake_case is ASCII text without a capital
    letter, a name without capital letters is left as it is, and so
    converting twice is converting once. *)
Theorem toSnakeCase_idempotent (s : string) :
  ascii_only s = true →
  ascii_only (toSnakeCase s) = true
  ∧ no_upper (toSnakeCase s) = true
  ∧ (no_upper s = true → toSnakeCase s = s)
  ∧ toSnakeCase (toSnakeCase s) = toSnakeCase s.
Proof.
  intros Hascii.
  assert (Hlower : no_upper (toSnakeCase s) = true).
  { unfold toSnakeCase. destruct (String.eqb_spec s "") as [->|_]; [done|].
    apply toSnakeCase_loop_no_upper. }
  assert (Hfixed : ∀ t, no_upper t = true → toSnakeCase t = t).
  { intros t Ht. unfold toSnakeCase. destruct (String.eqb t ""); [done|].
    by apply toSnakeCase_loop_fixed. }
  split; [|split; [done|]; split; [apply Hfixed|by apply Hfixed]].
  unfold toSnakeCase. destruct (String.eqb s ""); [done|].
  by apply toSnakeCase_loop_ascii.
Qed.

Lemma toSnakeCase_idempotent_witness :
  ascii_only "userName" = true
  ∧ toSnakeCase "userName" = "user_name"
  ∧ toSnakeCase (toSnakeCase "userName") = toSnakeCase "userName".
Proof.
  split; [reflexivity|]. split; [reflexivity|].
  refine (proj2 (proj2 (proj2 (toSnakeCase_idempotent "userName" _)))).
  reflexivity.
Defined.

End naming_more.

(** ** References and the units they point to *)

Section references.
Import generator.

(** X14: the mapper and the naming helper give a schema type the same Java
    name, so the unit written for a type is the file that a reference to it
    names: when no scalar table knows the name of a schema type, a reference
    to it maps to the name of the type's unit, without the extension. *)
Theorem reference_names_the_unit (g : Generator) (schema : parser.Schema)
    (name : string) (typeDef : parser.TypeDef) (file : GeneratedFile) :
  let ctx := NewContext g schema in
  parser.Types schema !! name = Some typeDef →
  config.Scalars (config.TypeMappings g) !! name = None →
  typemap.BuiltinScalars !! name = None →
  typemap.CommonScalars !! name = None →
  generateType g ctx typeDef = Ok (Some file) →
  ∃ r,
    typemap.mapNamedType (TypeMapper ctx) name = Ok r
    ∧ typemap.MapResult_Imports r = []
    ∧ typemap.MapResult_JavaType r = TypeName (NewTypeContext ctx typeDef).1
    ∧ FileName file = typemap.MapResult_JavaType r +:+ ".java".
Proof.
  intros ctx Htype Hcustom Hbuiltin Hcommon Hgen.
  unfold ctx, NewContext at 1. cbn [TypeMapper].
  rewrite (mapNamedType_no_override g (parser.Types schema) name Hcustom).
  rewrite Hbuiltin, Hcommon, Htype. eexists. split; [done|]. split; [done|].
  cbn [typemap.MapResult_JavaType NewTypeContext fst TypeName]. split; [done|].
  unfold generateType in Hgen.
  destruct (parser.Kind typeDef) eqn:Hk;
    repeat case_match; simplify_eq; try done.
Qed.

Lemma ExtractJavaNameDirective_nonempty (directives : list parser.DirectiveDef)
    (info : parser.JavaNameDirectiveInfo) :
  parser.ExtractJavaNameDirective directives = Some info →
  parser.JavaName_Name info ≠ "".
Proof.
  unfold parser.ExtractJavaNameDirective.
  induction directives as [|d ds IH]; [done|]. cbn [parser.first_match].
  destruct (String.eqb (parser.Directive_Name d) parser.DirectiveJavaName); [|done].
  destruct (String.eqb_spec (parser.GetArgumentString d "name") "") as [|Hne];
    [done|]. by intros [= <-].
Qed.

(** X25: a javaName directive with an empty name, or with none, is passed
    over, so the Java name of a type or of an enum value that has a name is
    never empty, and the first directive with a name replaces the name with
    its prefix and suffix. *)
Theorem Java_names_are_not_empty (n : NamingHelper) (typeDef : parser.TypeDef)
    (enumValue : parser.EnumValueDef) :
  (parser.Name typeDef ≠ "" → GetTypeName n typeDef ≠ "")
  ∧ (parser.EnumValue_Name enumValue ≠ "" → GetEnumValueName n enumValue ≠ "")
  ∧ (∀ info,
       parser.ExtractJavaNameDirective (parser.Directives typeDef) = Some info →
       GetTypeName n typeDef = parser.JavaName_Name info).
Proof.
  unfold GetTypeName, GetEnumValueName. split; [|split].
  - intros Hname.
    destruct (parser.ExtractJavaNameDirective (parser.Directives typeDef))
      as [info|] eqn:Hinfo; [by eapply ExtractJavaNameDirective_nonempty|].
    destruct (parser.Kind typeDef); try done.
    + destruct (String.eqb (config.ClassSuffix n) ""); [done|].
      destruct (parser.Name typeDef); [done|]. by rewrite append_cons.
    + destruct (String.eqb (config.InterfacePrefix n) ""); [done|].
      by apply append_nonempty_r.
    + destruct (String.eqb (config.ClassSuffix n) ""); [done|].
      destruct (parser.Name typeDef); [done|]. by rewrite append_cons.
  - intros Hname.
    destruct (parser.ExtractJavaNameDirective (parser.EnumValue_Directives enumValue))
      as [info|] eqn:Hinfo; [by eapply ExtractJavaNameDirective_nonempty|done].
  - by intros info ->.
Qed.

End references.

(** ** More on the orchestrator *)

Section orchestrator_more.
Import generator.

(** X11: the marker directives need no argument: an element is skipped
    exactly when it has a directive named skip, and gets the annotation
    Deprecated exactly when it has a directive named deprecated, whatever the
    arguments and the place of the directive in the list. *)
Theorem marker_directives (directives : list parser.DirectiveDef) :
  skipped directives = parser.HasDirective directives "skip"
  ∧ (annotations.GenerateDeprecatedAnnotation directives).1
    = (if parser.HasDirective directives "deprecated" then "@Deprecated" else "").
Proof.
  split.
  - unfold skipped, parser.ExtractSkipDirective, parser.HasDirective.
    induction directives as [|d ds IH]; [done|].
    cbn [existsb parser.first_match]. unfold parser.DirectiveSkip in *.
    destruct (String.eqb (parser.Directive_Name d) "skip"); [done|].
    apply IH.
  - unfold annotations.GenerateDeprecatedAnnotation, parser.HasDirective.
    induction directives as [|d ds IH]; [done|].
    cbn [existsb parser.ExtractDeprecatedDirective parser.first_match].
    unfold parser.ExtractDeprecatedDirective in IH.
    unfold parser.DirectiveDeprecated in *.
    destruct (String.eqb (parser.Directive_Name d) "deprecated"); [done|].
    apply IH.
Qed.

Lemma schema_types_elem (schema : parser.Schema) (typeDef : parser.TypeDef) :
  typeDef ∈ schema_types schema ↔ ∃ name, parser.Types schema !! name = Some typeDef.
Proof.
  unfold schema_types. rewrite list_elem_of_fmap. split.
  - intros ([name td] & -> & Hin%elem_of_map_to_list). by exists name.
  - intros [name Hname]. exists (name, typeDef). split; [done|].
    by apply elem_of_map_to_list.
Qed.

Lemma generateType_ok (g : Generator) (ctx : Context) (typeDef : parser.TypeDef) :
  ∃ o, generateType g ctx typeDef = Ok o.
Proof.
  pose proof (generateType_outcome g ctx typeDef) as Hout.
  destruct (yields_unit typeDef); [|eauto].
  destruct Hout as (content & _ & ->). eauto.
Qed.

(** X12: generating one type by name fails, with the error "type not
    found", exactly when the schema has no type of that name; and the files
    of a full run are the files that the single-type entry point gives for
    the names of the schema. *)
Theorem GenerateType_by_name (g : Generator) (schema : parser.Schema) (name : string) :
  (parser.Types schema !! name = None ↔ ∃ err, GenerateType g schema name = Err err)
  ∧ (parser.Types schema !! name = None →
     GenerateType g schema name
     = Err (GenerateError ("type not found: " +:+ name) None "" ""))
  ∧ (∀ file,
       file ∈ (Generate g schema).1 ↔
       ∃ name', GenerateType g schema name' = Ok (Some file)).
Proof.
  unfold GenerateType, parser.GetType. split; [|split].
  - destruct (parser.Types schema !! name) as [td|].
    + destruct (generateType_ok g (NewContext g schema) td) as [o ->].
      split; [done | by intros [? [=]]].
    + split; [eauto | done].
  - by intros ->.
  - intros file. unfold Generate. rewrite generate_loop_collects. cbn [fst app].
    rewrite list_elem_of_omap. split.
    + intros (td & [name' Hname]%schema_types_elem & Hfile).
      exists name'. rewrite Hname.
      destruct (generateType g (NewContext g schema) td) as [[f|]|]; by simplify_eq/=.
    + intros [name' Hgen].
      destruct (parser.Types schema !! name') as [td|] eqn:Hname; [|done].
      exists td. split; [apply schema_types_elem; eauto|]. by rewrite Hgen.
Qed.

Lemma GetStats_fold (files : list GeneratedFile) (init : Stats) :
  let stats := fold_left count_file files init in
  TotalTypes stats = TotalTypes init
  ∧ ErrorCount stats = ErrorCount init
  ∧ Skipped stats = Skipped init
  ∧ Classes stats = (Classes init + count class_like files)%Z
  ∧ Interfaces stats = (Interfaces init + count interface_like files)%Z
  ∧ Enums stats = (Enums init + count enum_like files)%Z.
Proof.
  revert init. unfold count.
  induction files as [|file rest IH]; intros init; cbn [fold_left].
  - cbn. repeat split; lia.
  - destruct (IH (count_file init file)) as (Ht & He & Hs & Hc & Hi & Hn).
    cbv zeta. rewrite Ht, He, Hs, Hc, Hi, Hn, !filter_cons.
    pose proof (eq_refl (class_like file)) as Hcl.
    pose proof (eq_refl (interface_like file)) as Hil.
    pose proof (eq_refl (enum_like file)) as Hel.
    unfold class_like in Hcl at 2. unfold interface_like in Hil at 2.
    unfold enum_like in Hel at 2. unfold count_file.
    destruct (parser.Kind (file_TypeDef file)); rewrite Hcl, Hil, Hel;
      cbn [TotalTypes Classes Interfaces Enums Skipped ErrorCount];
      repeat split; try lia;
      repeat case_decide; try congruence; cbn [length]; lia.
Qed.

(** X13: the statistics count every file once as a class (object and input
    kinds), an interface (interface and union kinds) or an enum, and never
    count a skipped type; over the files of a run the three counts add up to
    the total, and the error count is zero. *)
Theorem GetStats_partition (g : Generator) (schema : parser.Schema)
    (files : list GeneratedFile) (errors : list error) :
  let stats := GetStats files errors in
  TotalTypes stats = Z.of_nat (length files)
  ∧ ErrorCount stats = Z.of_nat (length errors)
  ∧ Skipped stats = 0%Z
  ∧ Classes stats = count class_like files
  ∧ Interfaces stats = count interface_like files
  ∧ Enums stats = count enum_like files
  ∧ (let run := GenerateWithResult g schema in
     let total := GetStats (Files run) (Errors run) in
     (Classes total + Interfaces total + Enums total = TotalTypes total)%Z
     ∧ ErrorCount total = 0%Z).
Proof.
  intros stats. unfold stats, GetStats.
  match goal with |- context [fold_left count_file files ?i] =>
    destruct (GetStats_fold files i) as (Ht & He & Hs & Hc & Hi & Hn) end.
  cbv zeta in *. rewrite Ht, He, Hs, Hc, Hi, Hn.
  cbn [TotalTypes Classes Interfaces Enums Skipped ErrorCount].
  do 6 (split; [done || lia|]).
  unfold GenerateWithResult.
  destruct (generate_loop_real g (NewContext g schema) (schema_types schema))
    as (fs & -> & Htypes & _).
  cbn [Files Errors].
  match goal with |- context [fold_left count_file fs ?i] =>
    destruct (GetStats_fold fs i) as (Ht' & He' & Hs' & Hc' & Hi' & Hn') end.
  cbv zeta in *. rewrite Ht', He', Hc', Hi', Hn'.
  cbn [TotalTypes Classes Interfaces Enums Skipped ErrorCount length].
  split; [|done].
  assert (Hkinds : Forall (λ file, parser.Kind (file_TypeDef file) ≠ parser.TypeKindScalar) fs).
  { apply (Forall_fmap file_TypeDef (λ td, parser.Kind td ≠ parser.TypeKindScalar)).
    rewrite Htypes. apply Forall_forall. intros td [Hy _]%list_elem_of_filter.
    unfold yields_unit in Hy. by destruct (parser.Kind td). }
  clear -Hkinds. unfold count.
  induction Hkinds as [|file rest Hk _ IH]; [done|].
  rewrite !filter_cons.
  pose proof (eq_refl (class_like file)) as Hcl.
  pose proof (eq_refl (interface_like file)) as Hil.
  pose proof (eq_refl (enum_like file)) as Hel.
  unfold class_like in Hcl at 2. unfold interface_like in Hil at 2.
  unfold enum_like in Hel at 2.
  destruct (parser.Kind (file_TypeDef file)); try done; rewrite Hcl, Hil, Hel;
    repeat case_decide; try congruence; cbn [length] in *; lia.
Qed.

End orchestrator_more.

(** ** Dropped fields *)

Section dropped_fields.
Import generator.

Lemma take_2_HasPrefix (s : string) :
  (2 <=? String.length s)%nat && String.eqb (strings.take 2 s) "__"
  = strings.HasPrefix s "__".
Proof.
  unfold strings.HasPrefix.
  destruct s as [|a [|b s]]; cbn [String.length strings.take String.prefix].
  - done.
  - by destruct (ascii_dec "_" a).
  - change (2 <=? S (S (String.length s)))%nat with true. cbn [andb String.eqb].
    destruct (Ascii.eqb_spec a "_") as [Ha|Ha], (ascii_dec "_" a) as [Ha'|Ha'];
      try congruence.
    destruct (Ascii.eqb_spec b "_") as [Hb|Hb], (ascii_dec "_" b) as [Hb'|Hb'];
      try congruence.
    by destruct s.
Qed.

Lemma ShouldSkip_dropped (tc : TypeContext) (field : parser.FieldDef)
    (fc : FieldContext) :
  NewFieldContext tc field = Ok fc → FieldContext_ShouldSkip fc = dropped field.
Proof.
  intros [Hfield _]%NewFieldContext_field.
  unfold FieldContext_ShouldSkip, dropped, introspection, skipped. rewrite Hfield.
  destruct (annotations.is_some _); [done|]. cbn [orb].
  destruct (parser.Field_Type field) as [t|]; [|done]. apply take_2_HasPrefix.
Qed.

Lemma kept_retained (tc : TypeContext) (fields : list parser.FieldDef) :
  kept tc (retained fields) = kept tc fields.
Proof.
  unfold kept, retained. induction fields as [|field rest IH]; [done|].
  rewrite filter_cons. csimpl.
  destruct (NewFieldContext_total tc field) as [fc Hfc]. rewrite Hfc.
  rewrite (ShouldSkip_dropped tc field fc Hfc).
  destruct (dropped field) eqn:Hd.
  - by rewrite decide_False by done.
  - rewrite decide_True by done. csimpl.
    rewrite Hfc, (ShouldSkip_dropped tc field fc Hfc), Hd. by rewrite IH.
Qed.

Lemma GenerateInterfaceMethod_context (tc tc' : TypeContext) (field : parser.FieldDef)
    (imports : ImportManager) :
  tc_Context tc = tc_Context tc' →
  GenerateInterfaceMethod tc' field imports = GenerateInterfaceMethod tc field imports.
Proof.
  intros Hctx. unfold GenerateInterfaceMethod.
  rewrite (NewFieldContext_rebase tc tc' field Hctx).
  destruct (NewFieldContext tc field) as [fc|]; [|done]. cbn [bind].
  rewrite FieldContext_ShouldSkip_rebase. by rewrite Hctx.
Qed.

Lemma GenerateInterfaceMethod_code (tc : TypeContext) (field : parser.FieldDef)
    (imports : ImportManager) :
  ∃ code imports',
    GenerateInterfaceMethod tc field imports = Ok (code, imports')
    ∧ if dropped field then code = "" ∧ imports' = imports else code ≠ "".
Proof.
  unfold GenerateInterfaceMethod.
  destruct (NewFieldContext_total tc field) as [fc Hfc]. rewrite Hfc. cbn [bind].
  rewrite (ShouldSkip_dropped tc field fc Hfc).
  destruct (dropped field); eexists _, _; (split; [done|]); [done|].
  do 5 apply append_nonempty_r. done.
Qed.

Lemma interface_methods_retained (tc tc' : TypeContext) (fields : list parser.FieldDef)
    (sb : string) (imports : ImportManager) :
  tc_Context tc = tc_Context tc' →
  interface_methods tc' (retained fields) sb imports
  = interface_methods tc fields sb imports.
Proof.
  intros Hctx. revert sb imports. unfold retained.
  induction fields as [|field rest IH]; intros sb imports; [done|].
  rewrite filter_cons. cbn [interface_methods].
  destruct (GenerateInterfaceMethod_code tc field imports)
    as (code & imports' & Hgen & Hcode).
  rewrite Hgen. destruct (dropped field) eqn:Hd.
  - destruct Hcode as [-> ->]. rewrite decide_False by done. apply IH.
  - rewrite decide_True by done. cbn [interface_methods].
    rewrite (GenerateInterfaceMethod_context tc tc' field imports Hctx), Hgen.
    apply IH.
Qed.

(** X15: a field that carries the skip directive, or whose innermost named
    type starts with two underscores, leaves no trace: the class text and
    the interface text of a type are the texts of the type without such
    fields. *)
Theorem dropped_fields_leave_no_trace (ctx : Context) (typeDef : parser.TypeDef) :
  ClassGenerator_Generate ctx typeDef
  = ClassGenerator_Generate ctx (with_Fields typeDef (retained (parser.Fields typeDef)))
  ∧ InterfaceGenerator_Generate ctx typeDef
    = InterfaceGenerator_Generate ctx
        (with_Fields typeDef (retained (parser.Fields typeDef))).
Proof.
  split.
  - unfold ClassGenerator_Generate, NewTypeContext.
    set (tc := mkTypeContext ctx typeDef _).
    set (tc' := mkTypeContext ctx (with_Fields _ _) _).
    change (TypeContext_ShouldSkip tc') with (TypeContext_ShouldSkip tc).
    destruct (TypeContext_ShouldSkip tc); [done|].
    change (generateClassAnnotations tc') with (generateClassAnnotations tc).
    destruct (generateClassAnnotations tc _) as [anns imports].
    rewrite !class_fields_kept. cbn [with_Fields parser.Fields app].
    rewrite kept_retained.
    rewrite (kept_rebase tc tc') by done.
    pose proof (kept_not_skipped tc (parser.Fields typeDef)) as Hkept.
    rewrite (write_fields_rebase tc tc');
      [|done|by eapply Forall_impl; [done|]; intros fc (-> & _)].
    cbn [with_Fields parser.Description parser.Interfaces].
    change (TypeName tc') with (TypeName tc).
    destruct (write_fields _ _ _) as [sb imports'].
    rewrite write_accessors_rebase, length_fmap; [done|].
    eapply Forall_impl; [done|]. by intros fc (-> & _).
  - unfold InterfaceGenerator_Generate, NewTypeContext.
    set (tc := mkTypeContext ctx typeDef _).
    set (tc' := mkTypeContext ctx (with_Fields _ _) _).
    change (TypeContext_ShouldSkip tc') with (TypeContext_ShouldSkip tc).
    destruct (TypeContext_ShouldSkip tc); [done|].
    change (generateInterfaceAnnotations tc') with (generateInterfaceAnnotations tc).
    destruct (generateInterfaceAnnotations tc _) as [anns imports].
    cbn [with_Fields parser.Fields parser.Description parser.Interfaces].
    change (TypeName tc') with (TypeName tc).
    by rewrite (interface_methods_retained tc tc').
Qed.

End dropped_fields.

(** ** The body of an enum *)

Section enum_body.
Import generator.

Lemma write_indented (anns : list string) (sb : string) :
  fold_left (λ sb ann, sb +:+ "    " +:+ ann +:+ nl) anns sb
  = sb +:+ foldr (λ ann text, "    " +:+ ann +:+ nl +:+ text) "" anns.
Proof.
  revert sb. induction anns as [|ann anns IH]; intros sb; cbn [fold_left foldr].
  - by rewrite append_empty_r.
  - rewrite IH. by rewrite !append_assoc.
Qed.

Lemma last_kept_filter (values : list parser.EnumValueDef) (v : parser.EnumValueDef) :
  last values = Some v → value_kept v = true →
  filter (λ v, value_kept v = true) values ≠ [].
Proof.
  intros Hlast Hkept Hnil.
  assert (Hin : v ∈ filter (λ v, value_kept v = true) values).
  { apply list_elem_of_filter. split; [done|].
    apply last_Some in Hlast as [l' ->]. apply elem_of_app. right. by left. }
  rewrite Hnil in Hin. by apply elem_of_nil in Hin.
Qed.

Lemma enum_values_body (tc : TypeContext) (n i : nat)
    (values : list parser.EnumValueDef) (sb : string) (imports : ImportManager) :
  n = (i + length values)%nat →
  (∀ v, last values = Some v → value_kept v = true) →
  enum_values tc n i values sb imports
  = enum_body tc (filter (λ v, value_kept v = true) values) (sb, imports).
Proof.
  revert i sb imports.
  induction values as [|v rest IH]; intros i sb imports Hn Hlast; [done|].
  cbn [enum_values]. rewrite filter_cons.
  assert (Hk : value_kept v
               = negb (annotations.is_some
                         (parser.ExtractSkipDirective (parser.EnumValue_Directives v))))
    by done.
  destruct (annotations.is_some _) eqn:Hskip; cbn [negb] in Hk.
  - rewrite decide_False by (by rewrite Hk).
    destruct rest as [|v' rest'].
    + specialize (Hlast v eq_refl). by rewrite Hk in Hlast.
    + apply IH; [cbn [length] in *; lia|]. intros w Hw. apply Hlast.
      by rewrite last_cons, Hw.
  - rewrite decide_True by done.
    destruct (generateValueAnnotations tc v imports) as [anns imports'] eqn:Hanns.
    rewrite write_indented.
    destruct rest as [|v' rest'].
    + cbn [length] in Hn.
      replace (Z.of_nat i <? Z.of_nat n - 1)%Z with false
        by (symmetry; apply Z.ltb_ge; lia).
      cbn [enum_values filter list_filter enum_body]. unfold write_value.
      cbn [fst snd]. rewrite Hanns. cbn [fst snd].
      destruct (String.eqb _ "");
        by rewrite ?append_empty_r, ?append_assoc, ?append_nil_l.
    + cbn [length] in Hn.
      replace (Z.of_nat i <? Z.of_nat n - 1)%Z with true
        by (symmetry; apply Z.ltb_lt; lia).
      rewrite IH; [|cbn [length]; lia|intros w Hw; apply Hlast; by rewrite last_cons, Hw].
      destruct (proj2 (last_is_Some (v' :: rest'))) as [w Hw]; [done|].
      pose proof (last_kept_filter (v' :: rest') w Hw) as Hne.
      destruct (filter _ (v' :: rest')) as [|k ks] eqn:Hf.
      { exfalso. apply Hne; [|done]. apply Hlast. by rewrite last_cons, Hw. }
      change (enum_body tc (v :: k :: ks) (sb, imports))
        with (enum_body tc (k :: ks) (write_value tc v false (sb, imports))).
      f_equal. unfold write_value. cbn [fst snd]. rewrite Hanns. cbn [fst snd].
      destruct (String.eqb _ "");
        by rewrite ?append_empty_r, ?append_assoc, ?append_nil_l.
Qed.

Lemma enum_values_context (tc tc' : TypeContext) (n i : nat)
    (values : list parser.EnumValueDef) (sb : string) (imports : ImportManager) :
  tc_Context tc = tc_Context tc' →
  enum_values tc' n i values sb imports = enum_values tc n i values sb imports.
Proof.
  intros Hctx. revert i sb imports.
  induction values as [|v rest IH]; intros i sb imports; [done|].
  cbn [enum_values]. destruct (annotations.is_some _); [apply IH|].
  unfold generateValueAnnotations. rewrite Hctx.
  destruct (annotations.Custom_GenerateEnumValueAnnotations v). apply IH.
Qed.

(** X16: when the value declared last is not skipped, the body of an enum
    lists the values that are not skipped, each closed by a comma and the
    last by a semicolon, and the enum text is the text of the enum without
    the skipped values. *)
Theorem enum_body_when_last_kept (ctx : Context) (typeDef : parser.TypeDef)
    (sb : string) (imports : ImportManager) :
  let tc := (NewTypeContext ctx typeDef).1 in
  let values := parser.EnumValues typeDef in
  let written := filter (λ v, value_kept v = true) values in
  (∀ v, last values = Some v → value_kept v = true) →
  enum_values tc (length values) 0 values sb imports = enum_body tc written (sb, imports)
  ∧ EnumGenerator_Generate ctx typeDef
    = EnumGenerator_Generate ctx (with_EnumValues typeDef written).
Proof.
  intros tc values written Hlast.
  assert (Hbody : ∀ sb imports,
    enum_values tc (length values) 0 values sb imports
    = enum_body tc written (sb, imports)).
  { intros sb0 imports0. by apply enum_values_body. }
  split; [apply Hbody|].
  unfold EnumGenerator_Generate, NewTypeContext.
  fold values. change (mkTypeContext ctx typeDef _) with tc.
  set (tc' := mkTypeContext ctx (with_EnumValues _ _) _).
  change (TypeContext_ShouldSkip tc') with (TypeContext_ShouldSkip tc).
  destruct (TypeContext_ShouldSkip tc); [done|].
  change (generateEnumAnnotations tc') with (generateEnumAnnotations tc).
  destruct (generateEnumAnnotations tc _) as [anns imports0].
  cbn [with_EnumValues parser.Description parser.EnumValues].
  change (TypeName tc') with (TypeName tc).
  rewrite Hbody, (enum_values_context tc tc') by done.
  rewrite enum_values_body; [|done|].
  - unfold written. by rewrite list_filter_filter_l.
  - intros v [l' Hv]%last_Some.
    assert (Hin : v ∈ written) by (rewrite Hv; apply elem_of_app; right; by left).
    by apply list_elem_of_filter in Hin as [? _].
Qed.

End enum_body.

(** ** More on the import manager *)

Section import_manager_more.
Import strings generator.

Lemma isSamePackage_false (m : ImportManager) (imp : string) :
  isSamePackage m imp = false ↔
  (package_ m ≠ "" → import_package imp ≠ Some (package_ m)).
Proof.
  unfold isSamePackage, import_package.
  destruct (String.eqb_spec (package_ m) "") as [Hpkg|Hpkg]; [done|].
  destruct (LastIndex imp ".") as [lastDot|]; cbn.
  - destruct (String.eqb_spec (take lastDot imp) (package_ m)) as [Heq|Hne].
    + split; [done|]. intros Hno. exfalso. apply Hno; [done|]. by rewrite Heq.
    + split; [|done]. intros _ _ [= Heq]. done.
  - split; [|done]. by intros _ _.
Qed.

Lemma Add_membership (m : ImportManager) (imp imp' : string) :
  package_ (Add m imp) = package_ m
  ∧ (imp' ∈ imports (Add m imp) ↔
     imp' ∈ imports m ∨ (imp' = imp ∧ accepted (package_ m) imp)).
Proof.
  unfold Add, accepted, java_lang_direct.
  destruct (String.eqb_spec imp "") as [Hempty|Hne].
  { split; [done|]. split; [by left|]. by intros [?|(_ & ? & _)]. }
  destruct (HasPrefix imp "java.lang." && negb (Contains (drop 10 imp) ".")).
  { split; [done|]. split; [by left|]. by intros [?|(_ & _ & ? & _)]. }
  pose proof (isSamePackage_false m imp) as Hsame.
  destruct (isSamePackage m imp).
  { split; [done|]. split; [by left|]. intros [?|(_ & _ & _ & Hno)]; [done|].
    by apply Hsame in Hno. }
  split; [done|]. cbn [imports]. rewrite elem_of_union, elem_of_singleton.
  split.
  - intros [->|?]; [right|by left]. repeat split; [done|]. by apply Hsame.
  - intros [?|[-> _]]; [by right|by left].
Qed.

Lemma AddAll_membership (m : ImportManager) (imps : list string) (imp : string) :
  package_ (AddAll m imps) = package_ m
  ∧ (imp ∈ imports (AddAll m imps) ↔
     imp ∈ imports m ∨ (imp ∈ imps ∧ accepted (package_ m) imp)).
Proof.
  unfold AddAll. revert m.
  induction imps as [|x imps IH]; intros m; cbn [fold_left].
  - split; [done|]. split; [by left|]. intros [?|[Hin _]]; [done|].
    by apply elem_of_nil in Hin.
  - destruct (IH (Add m x)) as [Hpkg Hin].
    destruct (Add_membership m x imp) as [Hpkg' Hin'].
    split; [by rewrite Hpkg|]. rewrite Hin, Hin', Hpkg', elem_of_cons.
    split; [intros [[?|[-> ?]]|[? ?]] | intros [?|[[->|?] ?]]]; tauto.
Qed.

(** X17: after [AddAll] the set holds what it held and, of the imports
    asked for, those that are not empty, not direct java.lang imports and
    not of the unit's package; the package is unchanged, and neither the
    order of the imports asked for nor their repetition matters. *)
Theorem AddAll_adds_the_accepted (m : ImportManager) (imps imps' : list string) :
  package_ (AddAll m imps) = package_ m
  ∧ (∀ imp, Has (AddAll m imps) imp = true ↔
       Has m imp = true ∨ (imp ∈ imps ∧ accepted (package_ m) imp))
  ∧ ((∀ imp, imp ∈ imps ↔ imp ∈ imps') → AddAll m imps = AddAll m imps')
  ∧ AddAll (AddAll m imps) imps = AddAll m imps.
Proof.
  assert (Hext : ∀ m1 m2 : ImportManager,
            package_ m1 = package_ m2 →
            (∀ imp, imp ∈ imports m1 ↔ imp ∈ imports m2) → m1 = m2).
  { intros [i1 p1] [i2 p2]; cbn. intros -> Hi. f_equal. by apply set_eq. }
  split; [apply (AddAll_membership m imps "")|]. split; [|split].
  - intros imp. unfold Has. rewrite !bool_decide_eq_true.
    apply AddAll_membership.
  - intros Hsame. apply Hext.
    + by rewrite !(proj1 (AddAll_membership _ _ "")).
    + intros imp. rewrite !(proj2 (AddAll_membership _ _ imp)), Hsame. done.
  - apply Hext.
    + by rewrite !(proj1 (AddAll_membership _ _ "")).
    + intros imp. rewrite !(proj2 (AddAll_membership _ _ imp)).
      rewrite (proj1 (AddAll_membership m imps "")). tauto.
Qed.

Lemma import_block_empty (groups : list (list string)) :
  concat groups ≠ [] → import_block groups ≠ "".
Proof.
  unfold import_block.
  destruct groups as [|g [|g' rest]]; cbn [fmap list_fmap Join concat]; [done|..].
  - rewrite app_nil_r. destruct g as [|imp g]; [done|]. intros _. cbn [foldr].
    unfold import_line at 1. by rewrite !append_assoc.
  - intros _. apply append_nonempty_r. unfold nl. by rewrite append_cons.
Qed.

(** X18: the import block is empty exactly when the set holds no import,
    so a unit that needs no import gets no import section. *)
Theorem import_block_empty_iff (m : ImportManager) (sb : string) (n : nat) :
  (GenerateImportBlock m = "" ↔ imports m = ∅)
  ∧ (imports m = ∅ → splice_imports sb n m = take n sb +:+ drop n sb).
Proof.
  assert (Hiff : GenerateImportBlock m = "" ↔ imports m = ∅).
  { rewrite GenerateImportBlock_text.
    destruct (GetSorted_spec m) as (_ & _ & Helem). split.
    - intros Hblock. apply set_eq. intros imp. rewrite <- Helem.
      destruct (GetSorted m) as [|x sorted] eqn:Hsorted.
      + split; [by intros ?%elem_of_nil | by intros ?%elem_of_empty].
      + exfalso. apply (import_block_empty (GetGrouped m)); [|done].
        by rewrite GetGrouped_concat, Hsorted.
    - intros Hempty. unfold GetGrouped.
      destruct (GetSorted m) as [|x sorted] eqn:Hsorted; [done|].
      exfalso. assert (Hx : x ∈ imports m) by (apply Helem; by left).
      rewrite Hempty in Hx. by apply elem_of_empty in Hx. }
  split; [done|]. intros Hempty. unfold splice_imports.
  by rewrite (proj2 Hiff Hempty).
Qed.

End import_manager_more.

(** ** Lombok and validation annotations *)

Section lombok_more.
Import annotations.

Lemma Lombok_fold (entries : list (string * bool)) (acc : list string * list string) :
  let anns :=
    omap (λ entry : string * bool,
            if entry.2 then LombokAnnotations !! entry.1 else None) entries in
  fold_left
    (λ (acc : list string * list string) (entry : string * bool),
       let '(name, include) := entry in
       if include then
         match LombokAnnotations !! name with
         | Some ann => (acc.1 ++ [Lombok_Name ann], acc.2 ++ [Lombok_Import ann])
         | None => acc
         end
       else acc)
    entries acc
  = (acc.1 ++ (Lombok_Name <$> anns), acc.2 ++ (Lombok_Import <$> anns)).
Proof.
  revert acc. induction entries as [|[name include] rest IH]; intros [a i];
    cbn [fold_left]; csimpl.
  - by rewrite !app_nil_r.
  - destruct include; [|apply IH].
    destruct (LombokAnnotations !! name) as [ann|]; [|apply IH].
    rewrite IH. csimpl. by rewrite <- !app_assoc.
Qed.

Lemma LombokAnnotations_names (k1 k2 : string) (ann1 ann2 : LombokAnnotation) :
  LombokAnnotations !! k1 = Some ann1 →
  LombokAnnotations !! k2 = Some ann2 →
  Lombok_Name ann1 = Lombok_Name ann2 → k1 = k2.
Proof.
  intros H1%elem_of_list_to_map_2 H2%elem_of_list_to_map_2.
  repeat (apply elem_of_cons in H1 as [?|H1]; [simplify_eq|]);
    try (by apply elem_of_nil in H1);
    repeat (apply elem_of_cons in H2 as [?|H2]; [simplify_eq; by intros [=]|]);
    by apply elem_of_nil in H2.
Qed.

Lemma NoDup_omap_keys {A B C : Type} (f : A * B → option C) (l : list (A * B)) :
  NoDup l.*1 →
  (∀ x y c, x ∈ l → y ∈ l → f x = Some c → f y = Some c → x.1 = y.1) →
  NoDup (omap f l).
Proof.
  induction l as [|x l IH]; csimpl; intros Hnd Hinj; [constructor|].
  apply NoDup_cons in Hnd as [Hx Hnd].
  assert (Hrest : NoDup (omap f l)).
  { apply IH; [done|]. intros y z c Hy Hz. apply Hinj; by right. }
  destruct (f x) as [c|] eqn:Hfx; [|done].
  constructor; [|done]. intros (y & Hy & Hfy)%list_elem_of_omap.
  apply Hx. apply list_elem_of_fmap. exists y. split; [|done].
  apply (Hinj x y c); [by left|by right|done..].
Qed.

(** X19: with Lombok enabled the type annotations are those of the table
    whose key is switched on, by the configuration or by the directive of
    the type, each written once and each with its import at the same place
    of the import list; a key the table does not know adds nothing, and with
    Lombok disabled nothing is written. *)
Theorem Lombok_annotations_of_enabled_keys (cfg : config.LombokConfig)
    (typeDef : parser.TypeDef) :
  let enabled :=
    getEnabledAnnotations cfg (parser.ExtractLombokDirective (parser.Directives typeDef)) in
  if config.Lombok_Enabled cfg then
    ∃ anns,
      Lombok_GenerateTypeAnnotations cfg typeDef
      = (Lombok_Name <$> anns, Lombok_Import <$> anns)
      ∧ NoDup (Lombok_Name <$> anns)
      ∧ ∀ ann, ann ∈ anns ↔
          ∃ key, enabled !! key = Some true ∧ LombokAnnotations !! key = Some ann
  else Lombok_GenerateTypeAnnotations cfg typeDef = ([], []).
Proof.
  intros enabled. unfold Lombok_GenerateTypeAnnotations.
  destruct (config.Lombok_Enabled cfg); cbn [negb]; [|done].
  fold enabled. rewrite Lombok_fold. cbn [fst snd app].
  set (pick := λ entry : string * bool,
                 if entry.2 then LombokAnnotations !! entry.1 else None).
  assert (Hmem : ∀ ann, ann ∈ omap pick (map_to_list enabled) ↔
            ∃ key, enabled !! key = Some true ∧ LombokAnnotations !! key = Some ann).
  { intros ann. rewrite list_elem_of_omap. split.
    - intros ([key include] & Hin%elem_of_map_to_list & Hpick).
      unfold pick in Hpick. cbn in Hpick. destruct include; [|done]. by exists key.
    - intros (key & Hkey & Hann). exists (key, true). split; [|done].
      by apply elem_of_map_to_list. }
  eexists. split; [done|]. split; [|done].
  assert (Hnd : NoDup (omap pick (map_to_list enabled))).
  { apply NoDup_omap_keys; [apply NoDup_fst_map_to_list|].
    intros [k1 b1] [k2 b2] ann _ _. unfold pick. cbn.
    destruct b1, b2; try done. intros H1 H2.
    by apply (LombokAnnotations_names k1 k2 ann ann). }
  apply NoDup_fmap_2_strong; [|done].
  intros ann1 ann2 [k1 [_ H1]]%Hmem [k2 [_ H2]]%Hmem Hname.
  pose proof (LombokAnnotations_names k1 k2 ann1 ann2 H1 H2 Hname) as ->.
  congruence.
Qed.

End lombok_more.

Section validation_more.
Import annotations.

Lemma imported_from_intro (pkg ann class : string) :
  annotation_class ann = Some class → class ≠ "" →
  imported_from pkg ann (pkg +:+ "." +:+ class).
Proof. intros Hclass Hne. by exists class. Qed.

Lemma generateConstraintAnnotations_imports (c : parser.ConstraintDirectiveInfo)
    (pkg : string) :
  Forall2 (imported_from pkg) (generateConstraintAnnotations c pkg).1
    (generateConstraintAnnotations c pkg).2.
Proof.
  unfold generateConstraintAnnotations. cbv zeta. cbn [fst snd].
  repeat apply Forall2_app.
  - destruct (is_some (parser.MinLength c) || is_some (parser.MaxLength c));
      cbn [fst snd]; repeat constructor.
    by apply (imported_from_intro pkg _ "Size").
  - destruct (parser.Min c); cbn [fst snd]; repeat constructor.
    by apply (imported_from_intro pkg _ "Min").
  - destruct (parser.Max c); cbn [fst snd]; repeat constructor.
    by apply (imported_from_intro pkg _ "Max").
  - destruct (String.eqb (parser.Pattern c) ""); cbn [fst snd]; repeat constructor.
    by apply (imported_from_intro pkg _ "Pattern").
  - destruct (parser.NotNull c); cbn [fst snd]; repeat constructor.
    by apply (imported_from_intro pkg _ "NotNull").
  - destruct (parser.NotBlank c); cbn [fst snd]; repeat constructor.
    by apply (imported_from_intro pkg _ "NotBlank").
  - destruct (parser.Email c); cbn [fst snd]; repeat constructor.
    by apply (imported_from_intro pkg _ "Email").
Qed.

(** X20: every validation annotation of a field comes with the import of
    its class, the name between its at sign and its arguments, at the same
    place of the import list and in the package the configuration selects,
    which is the jakarta package unless javax is asked for; with validation
    disabled a field gets none, and with it enabled the annotation of a
    non-null field comes first. *)
Theorem validation_annotations_imports (cfg : config.ValidationConfig)
    (field : parser.FieldDef) (nonNull : bool) :
  let out := Validation_GenerateFieldAnnotations cfg field nonNull in
  Forall2 (imported_from (GetValidationPackage cfg)) out.1 out.2
  ∧ GetValidationPackage cfg
    = (if String.eqb (config.Validation_Package cfg) "javax"
       then "javax.validation.constraints" else "jakarta.validation.constraints")
  ∧ (config.Validation_Enabled cfg = false → out = ([], []))
  ∧ (config.Validation_Enabled cfg = true →
     nonNull && config.NotNullOnNonNull cfg = true →
     head out.1 = Some "@NotNull"
     ∧ head out.2 = Some (GetValidationPackage cfg +:+ ".NotNull")).
Proof.
  intros out. unfold out, Validation_GenerateFieldAnnotations.
  split; [|split; [|split]].
  - destruct (config.Validation_Enabled cfg); cbn [negb fst snd]; [|constructor].
    apply Forall2_app.
    + destruct (nonNull && config.NotNullOnNonNull cfg); cbn [fst snd];
        repeat constructor.
      by apply (imported_from_intro _ _ "NotNull").
    + destruct (parser.ExtractConstraintDirective _) as [c|]; [|constructor].
      apply generateConstraintAnnotations_imports.
  - unfold GetValidationPackage, config.ValidationJakarta, config.ValidationJavax.
    destruct (String.eqb_spec (config.Validation_Package cfg) "jakarta") as [->|];
      [done|].
    by destruct (String.eqb (config.Validation_Package cfg) "javax").
  - by intros ->.
  - by intros -> ->.
Qed.

End validation_more.

(** ** A validated configuration *)

Section validated_configuration.
Import validate.

Lemma check_nil (ok : bool) (err : ConfigError) (errs : list ConfigError) :
  check ok err errs = [] → ok = true ∧ errs = [].
Proof.
  unfold check. destruct ok; [done|]. by intros ?%app_nil_r_inv.
Qed.

Lemma Validate_checks (c : config.Config) :
  Validate c = None ↔
    isValidJavaVersion (config.Version (config.Java c)) = true
    ∧ isValidVisibility (config.FieldVisibility (config.Java c)) = true
    ∧ isValidCollectionType (config.CollectionType (config.Java c)) = true
    ∧ isValidNullableHandling (config.NullableHandling (config.Java c)) = true
    ∧ (config.Validation_Enabled (config.Validation (config.Features c)) = true →
       isValidValidationPackage
         (config.Validation_Package (config.Validation (config.Features c))) = true)
    ∧ (config.Package (config.Output c) ≠ "" →
       isValidJavaPackage (config.Package (config.Output c)) = true).
Proof.
  unfold Validate. split.
  - intros Hnone.
    assert (Hnil : Validate_errors c = []).
    { destruct (Validate_errors c) as [|e [|e' es]]; done. }
    unfold Validate_errors in Hnil. cbv zeta in Hnil.
    apply check_nil in Hnil as [H6 Hnil]. apply check_nil in Hnil as [H5 Hnil].
    apply check_nil in Hnil as [H4 Hnil]. apply check_nil in Hnil as [H3 Hnil].
    apply check_nil in Hnil as [H2 Hnil]. apply check_nil in Hnil as [H1 _].
    repeat split; try done.
    + intros Hen. rewrite Hen in H5. by destruct (isValidValidationPackage _).
    + intros Hne. destruct (String.eqb_spec (config.Package (config.Output c)) "");
        [done|]. by destruct (isValidJavaPackage _).
  - intros (H1 & H2 & H3 & H4 & H5 & H6). unfold Validate_errors. cbv zeta.
    rewrite H1, H2, H3, H4. cbn [check].
    destruct (config.Validation_Enabled _); [rewrite H5 by done|]; cbn [check andb negb].
    all: destruct (String.eqb_spec (config.Package (config.Output c)) "");
      [done | by rewrite H6].
Qed.

(** X22: a configuration that passes validation never meets a fallback of
    the generators: its Java version is a supported one, the visibility that
    is written is the configured one (nothing for package), the collection
    table knows the configured shape and writes it under its own name, the
    nullability policy is one of the three the mapper tells apart, and with
    validation enabled the constraints package is the configured one. *)
Theorem validated_configuration_meets_no_fallback (c : config.Config)
    (schema : parser.Schema) (typeDef : parser.TypeDef) (elementType : string) :
  let java := config.Java c in
  let validation := config.Validation (config.Features c) in
  let tc := (generator.NewTypeContext (generator.NewContext c schema) typeDef).1 in
  Validate c = None →
  config.Version java ∈ [8; 11; 17; 21]%Z
  ∧ generator.GetVisibility tc
    = (if String.eqb (config.FieldVisibility java) "package" then ""
       else config.FieldVisibility java)
  ∧ is_Some (typemap.CollectionTypes !! config.CollectionType java)
  ∧ typemap.FormatCollectionType (config.CollectionType java) elementType
    = config.CollectionType java +:+ "<" +:+ elementType +:+ ">"
  ∧ config.NullableHandling java ∈ ["wrapper"; "optional"; "annotation"]
  ∧ (config.Validation_Enabled validation = true →
     annotations.GetValidationPackage validation
     = config.Validation_Package validation +:+ ".validation.constraints").
Proof.
  intros java validation tc (H1 & H2 & H3 & H4 & H5 & _)%Validate_checks.
  fold java in H1, H2, H3, H4. fold validation in H5.
  split; [|split; [|split; [|split; [|split]]]].
  - unfold isValidJavaVersion, SupportedJavaVersions in H1. cbn [existsb] in H1.
    repeat (apply orb_true_iff in H1 as [<-%Z.eqb_eq|H1];
            [in_list|]).
    done.
  - unfold generator.GetVisibility. cbn [tc generator.NewTypeContext fst
      generator.tc_Context generator.NewContext generator.Config]. fold java.
    unfold isValidVisibility in H2.
    repeat (apply orb_true_iff in H2 as [H2|H2]);
      apply String.eqb_eq in H2; by rewrite H2.
  - unfold isValidCollectionType in H3.
    repeat (apply orb_true_iff in H3 as [H3|H3]);
      apply String.eqb_eq in H3; rewrite H3; by eexists.
  - unfold isValidCollectionType in H3.
    repeat (apply orb_true_iff in H3 as [H3|H3]);
      apply String.eqb_eq in H3; by rewrite H3.
  - unfold isValidNullableHandling in H4.
    repeat (apply orb_true_iff in H4 as [H4|H4]);
      apply String.eqb_eq in H4; rewrite H4;
      in_list.
  - intros Hen. specialize (H5 Hen). unfold isValidValidationPackage in H5.
    unfold annotations.GetValidationPackage.
    apply orb_true_iff in H5 as [H5|H5]; apply String.eqb_eq in H5; by rewrite H5.
Qed.

End validated_configuration.

Section package_name.
Import validate.

Lemma isValidJavaPackage_loop_S (i : nat) (pkg : string) :
  isValidJavaPackage_loop (S i) pkg = all_chars dot_or_part pkg.
Proof.
  revert i. induction pkg as [|c pkg IH]; intros i; [done|].
  cbn [isValidJavaPackage_loop all_chars Nat.eqb andb]. unfold dot_or_part at 1.
  destruct (Ascii.eqb c "."); cbn [orb]; [apply IH|].
  destruct (isJavaIdentifierPart c); cbn [negb andb]; [apply IH|done].
Qed.

Lemma all_chars_app (p : ascii → bool) (a b : string) :
  all_chars p (a +:+ b) = all_chars p a && all_chars p b.
Proof.
  induction a as [|c a IH]; [done|]. rewrite append_cons. cbn [all_chars].
  by rewrite IH, andb_assoc.
Qed.

Lemma all_chars_impl (p q : ascii → bool) (s : string) :
  (∀ c, p c = true → q c = true) → all_chars p s = true → all_chars q s = true.
Proof.
  intros Hpq. induction s as [|c s IH]; [done|]. cbn [all_chars].
  intros [Hc Hs]%andb_true_iff. by rewrite (Hpq c Hc), IH.
Qed.

Lemma java_identifier_chars (s : string) :
  java_identifier s = true → all_chars dot_or_part s = true.
Proof.
  destruct s as [|c r]; [done|]. cbn [java_identifier all_chars].
  intros [Hc Hr]%andb_true_iff. apply andb_true_iff. split.
  - unfold dot_or_part, isJavaIdentifierPart. rewrite Hc. by rewrite orb_true_r.
  - apply (all_chars_impl isJavaIdentifierPart); [|done].
    intros x Hx. unfold dot_or_part. rewrite Hx. by rewrite orb_true_r.
Qed.

Lemma Join_identifiers_chars (segs : list string) :
  Forall (λ s, java_identifier s = true) segs →
  all_chars dot_or_part (strings.Join segs ".") = true.
Proof.
  induction 1 as [|s segs Hs Hsegs IH]; [done|].
  destruct segs as [|s' segs]; cbn [strings.Join]; [by apply java_identifier_chars|].
  rewrite !all_chars_app, (java_identifier_chars s Hs). cbn [andb].
  change (all_chars dot_or_part ".") with true. cbn [andb]. apply IH.
Qed.

(** X23: the check of the output package looks at the bytes one by one: a
    name passes exactly when it is not empty, starts with a dot or with the
    start of an identifier, and holds only dots and identifier bytes.  So
    every dotted sequence of Java identifiers passes. *)
Theorem isValidJavaPackage_accepts (pkg : string) (segs : list string) :
  (isValidJavaPackage pkg = true ↔
     ∃ c r, pkg = String c r ∧ dot_or_start c = true ∧ all_chars dot_or_part r = true)
  ∧ (segs ≠ [] → Forall (λ s, java_identifier s = true) segs →
     isValidJavaPackage (strings.Join segs ".") = true).
Proof.
  assert (Hiff : ∀ pkg, isValidJavaPackage pkg = true ↔
     ∃ c r, pkg = String c r ∧ dot_or_start c = true ∧ all_chars dot_or_part r = true).
  { intros [|c r]; [split; [done | by intros (? & ? & ? & _)]|].
    unfold isValidJavaPackage. change (String.eqb (String c r) "") with false.
    cbv iota. cbn [isValidJavaPackage_loop Nat.eqb andb].
    rewrite isValidJavaPackage_loop_S. unfold dot_or_start, isJavaIdentifierPart.
    destruct (Ascii.eqb c ".") eqn:Hdot; cbn [orb].
    - split; [intros Hr; exists c, r; by rewrite Hdot
             | by intros (? & ? & [= <- <-] & _ & ?)].
    - destruct (isJavaIdentifierStart c) eqn:Hstart; cbn [negb orb].
      + split; [intros Hr; exists c, r; by rewrite Hdot, Hstart
               | by intros (? & ? & [= <- <-] & _ & ?)].
      + split; [done|]. intros (? & ? & [= <- <-] & Hc & _).
        by rewrite Hdot, Hstart in Hc. }
  split; [apply Hiff|]. intros Hne Hsegs. apply Hiff.
  pose proof (Join_identifiers_chars segs Hsegs) as Hchars.
  destruct segs as [|s segs]; [done|].
  apply Forall_cons in Hsegs as [Hs _].
  destruct s as [|c r]; [done|]. cbn [java_identifier] in Hs.
  apply andb_true_iff in Hs as [Hc _].
  assert (Hjoin : ∃ rest, strings.Join (String c r :: segs) "." = String c rest).
  { destruct segs; cbn [strings.Join]; [by eexists|]. rewrite append_cons. by eexists. }
  destruct Hjoin as [rest Hrest]. rewrite Hrest in Hchars |- *.
  exists c, rest. split; [done|]. split.
  - unfold dot_or_start. rewrite Hc. by rewrite orb_true_r.
  - cbn [all_chars] in Hchars. by apply andb_true_iff in Hchars as [_ ?].
Qed.

End package_name.

(** ** The properties at concrete inputs *)

Lemma list_elements_are_boxed_witness :
  ∃ r,
    typemap.mapTypeInternal
      (typemap.SetSchemaTypes (typemap.NewTypeMapper config.DefaultConfig) ∅)
      (list_of (named "Int" true) false) true = Ok r
    ∧ typemap.ElementType r = "Integer".
Proof.
  destruct (list_elements_are_boxed config.DefaultConfig ∅ (named "Int" true) false true)
    as (r & Hr & _ & _ & _ & _ & Helem).
  exists r. split; [exact Hr|].
  refine (proj1 (Helem "Int" true (typemap.mkScalarInfo "Integer" "int" []) _ _ _));
    by vm_compute.
Defined.

Lemma ValidateMapping_matches_mapper_witness :
  typemap.ValidateMapping
    (typemap.SetSchemaTypes (typemap.NewTypeMapper config.DefaultConfig) ∅)
    (Some (list_of (named "Money" true) false))
  = Some (TypeMappingError "unknown type, will use as-is" None "Money").
Proof.
  refine (proj1 (proj2 (proj2 (proj2
            (ValidateMapping_matches_mapper
               (typemap.SetSchemaTypes (typemap.NewTypeMapper config.DefaultConfig) ∅)
               (list_of (named "Money" true) false)))) _)).
  by vm_compute.
Defined.

Lemma collection_directive_reshapes_lists_witness :
  ∃ r,
    typemap.MapFieldType
      (typemap.SetSchemaTypes (typemap.NewTypeMapper config.DefaultConfig) ∅) tags = Ok r
    ∧ typemap.MapResult_JavaType r = "Set<String>".
Proof.
  destruct (proj1 (collection_directive_reshapes_lists
                     (typemap.SetSchemaTypes (typemap.NewTypeMapper config.DefaultConfig) ∅)
                     tags {| parser.Collection_Type := "Set" |} eq_refl eq_refl)
              (named "String" true) false eq_refl)
    as (plain & r & Hplain & Hr & _ & _ & Hjava).
  exists r. split; [exact Hr|]. rewrite Hjava.
  vm_compute in Hplain. injection Hplain as <-. reflexivity.
Defined.

Lemma field_name_not_keyword_witness :
  ∃ fc,
    generator.NewFieldContext (generator.NewTypeContext default_context User).1
      class_field = Ok fc
    ∧ generator.IsJavaKeyword (generator.FieldName fc) = false
    ∧ generator.FieldName fc = "_class".
Proof.
  eexists. split; [reflexivity|]. split; [|reflexivity].
  refine (proj1 (field_name_not_keyword
                   (generator.NewTypeContext default_context User).1 class_field _ _)).
  reflexivity.
Defined.

Lemma GenerateType_by_name_witness :
  generator.GenerateType config.DefaultConfig (parser.mkSchema ∅) "Query"
  = Err (GenerateError "type not found: Query" None "" "").
Proof.
  refine (proj1 (proj2 (GenerateType_by_name config.DefaultConfig
                          (parser.mkSchema ∅) "Query")) _).
  reflexivity.
Defined.

Lemma reference_names_the_unit_witness :
  ∃ r,
    typemap.mapNamedType
      (generator.TypeMapper
         (generator.NewContext config.DefaultConfig one_malformed_schema)) "Good" = Ok r
    ∧ typemap.MapResult_JavaType r = "Good".
Proof.
  edestruct (reference_names_the_unit config.DefaultConfig one_malformed_schema
               "Good" Good) as (r & Hr & _ & Hname & _);
    [by vm_compute | by vm_compute | by vm_compute | by vm_compute
    | vm_compute; reflexivity |].
  exists r. split; [exact Hr|]. rewrite Hname. reflexivity.
Defined.

Lemma enum_body_when_last_kept_witness :
  generator.EnumGenerator_Generate default_context (Status three_values)
  = generator.EnumGenerator_Generate default_context
      (with_EnumValues (Status three_values)
         [ parser.mkEnumValueDef "ACTIVE" "" [];
           parser.mkEnumValueDef "INACTIVE" "" [] ]).
Proof.
  refine (proj2 (enum_body_when_last_kept default_context (Status three_values) ""
                   (generator.NewImportManager "") _)).
  intros v Hv. injection Hv as <-. reflexivity.
Defined.

Lemma AddAll_adds_the_accepted_witness :
  generator.AddAll (generator.NewImportManager "com.example.model")
    [ "java.util.List"; "java.time.Instant" ]
  = generator.AddAll (generator.NewImportManager "com.example.model")
      [ "java.time.Instant"; "java.util.List"; "java.time.Instant" ].
Proof.
  refine (proj1 (proj2 (proj2 (AddAll_adds_the_accepted _ _ _))) _).
  intros imp. rewrite !elem_of_cons. tauto.
Defined.

Lemma import_block_empty_iff_witness :
  generator.splice_imports "package p;" 3 (generator.NewImportManager "p")
  = "package p;".
Proof.
  refine (proj2 (import_block_empty_iff (generator.NewImportManager "p")
                   "package p;" 3) _).
  reflexivity.
Defined.

Lemma validation_annotations_imports_witness :
  head (annotations.Validation_GenerateFieldAnnotations javax_validation tags true).1
  = Some "@NotNull"
  ∧ head (annotations.Validation_GenerateFieldAnnotations javax_validation tags true).2
    = Some "javax.validation.constraints.NotNull".
Proof.
  refine (proj2 (proj2 (proj2
            (validation_annotations_imports javax_validation tags true))) _ _);
    reflexivity.
Defined.

Lemma validated_configuration_meets_no_fallback_witness :
  validate.Validate config.DefaultConfig = None
  ∧ generator.GetVisibility (generator.NewTypeContext default_context User).1
    = "private".
Proof.
  split; [by vm_compute|].
  refine (proj1 (proj2 (validated_configuration_meets_no_fallback config.DefaultConfig
                          (parser.mkSchema ∅) User "" _))).
  by vm_compute.
Defined.

Lemma isValidJavaPackage_accepts_witness :
  validate.isValidJavaPackage "com.example.model" = true.
Proof.
  refine (proj2 (isValidJavaPackage_accepts "" [ "com"; "example"; "model" ]) _ _);
    [done | by repeat constructor].
Defined.

Lemma collection_directive_element_imports_witness :
  ∃ r,
    typemap.MapFieldType
      (typemap.SetSchemaTypes (typemap.NewTypeMapper config.DefaultConfig) ∅) dates = Ok r
    ∧ typemap.MapResult_Imports r = [ "java.util.Set"; "java.util.HashSet" ].
Proof.
  destruct (collection_directive_element_imports config.DefaultConfig ∅ dates
              {| parser.Collection_Type := "Set" |} "DateTime"
              (typemap.mkScalarInfo "LocalDateTime" "" [ "java.time.LocalDateTime" ])
              false true eq_refl eq_refl eq_refl eq_refl eq_refl)
    as (plain & r & _ & _ & Hr & Himports).
  exists r. split; [exact Hr | exact Himports].
Defined.

Lemma Java_names_are_not_empty_witness :
  generator.GetTypeName (config.Naming (config.Java config.DefaultConfig)) Good ≠ "".
Proof.
  refine (proj1 (Java_names_are_not_empty
                   (config.Naming (config.Java config.DefaultConfig)) Good
                   (parser.mkEnumValueDef "ACTIVE" "" [])) _).
  done.
Defined.
